(** * autometer: a shallow embedding of [autometer.py]

    The script reads two electricity tariff values from the Saures
    metering API, submits them to the Mosenergosbyt portal and reports the
    outcome through the Telegram Bot API.

    Python values that come out of [response.json()] are modelled by the
    type [json]; Python [str] values are modelled by [string] holding the
    UTF-8 encoding of the text (all patterns the script searches for are
    ASCII, so byte-wise search and replacement agree with the code-point
    ones).  Effects (HTTP requests, logging, the payload dictionaries that
    are updated in place, the [requests.Session] objects) are threaded
    through a state-and-exception monad [M]. *)

From Stdlib Require Import ZArith List String Ascii Bool Lia.
From Stdlib Require Import Floats.SpecFloat DecimalString.
Import ListNotations.
Set Warnings "-register-all".
Local Open Scope string_scope.
Local Open Scope Z_scope.

(** ** Python strings *)

Module PyStr.

(** [old] is a prefix of [s] : [s.startswith(old)]. *)
Fixpoint startswith (old s : string) : bool :=
  match old, s with
  | EmptyString, _ => true
  | String _ _, EmptyString => false
  | String a old', String b s' => Ascii.eqb a b && startswith old' s'
  end.

(** [sub in s]. *)
Fixpoint contains (sub s : string) : bool :=
  startswith sub s ||
  match s with
  | EmptyString => false
  | String _ s' => contains sub s'
  end.

(** Left-to-right scan of [str.replace] for a non-empty [old]:
    [skip] counts the characters of a match that are still to drop. *)
Fixpoint replace_scan (old new s : string) (skip : nat) : string :=
  match s with
  | EmptyString => EmptyString
  | String c s' =>
      match skip with
      | S k => replace_scan old new s' k
      | O =>
          if startswith old s
          then new ++ replace_scan old new s' (Nat.pred (String.length old))
          else String c (replace_scan old new s' 0)
      end
  end.

(** [s.replace("", new)] puts [new] before every character and at the end. *)
Fixpoint interleave (new s : string) : string :=
  match s with
  | EmptyString => new
  | String c s' => new ++ String c (interleave new s')
  end.

(** [s.replace(old, new)]: every non-overlapping occurrence, leftmost first. *)
Definition replace (old new s : string) : string :=
  match old with
  | EmptyString => interleave new s
  | String _ _ => replace_scan old new s 0
  end.

(** [s.split(sep)] for a one-character separator; [acc] is the field
    being read, reversed. *)
Fixpoint split_scan (sep : ascii) (s : string) (acc : string) : list string :=
  match s with
  | EmptyString => [acc]
  | String c s' =>
      if Ascii.eqb c sep
      then acc :: split_scan sep s' EmptyString
      else split_scan sep s' (acc ++ String c EmptyString)
  end.

Definition split (sep : ascii) (s : string) : list string :=
  split_scan sep s EmptyString.

(** [sep.join(l)]. *)
Definition join (sep : string) (l : list string) : string :=
  String.concat sep l.

(** Truth value of a [str]. *)
Definition nonempty (s : string) : bool :=
  match s with EmptyString => false | String _ _ => true end.

End PyStr.

(** ** Values decoded from JSON *)

(** What [response.json()] can return.  A Python [float] is kept as the
    binary floating-point datum it is ([spec_float]): a zero, an infinity,
    NaN, or [(-1)^s * m * 2^e], whatever the size of [m].  A [dict] is an
    association list in insertion order (the order of the form fields of
    a request), looked up by its first match. *)
Inductive json : Type :=
| JNull
| JBool (b : bool)
| JInt (n : Z)
| JFloat (f : spec_float)
| JStr (s : string)
| JList (l : list json)
| JDict (d : list (string * json)).

Definition pydict : Type := list (string * json).

(** ** Exceptions *)

(** The classes of [Exception] the script can meet besides
    [requests.exceptions.RequestException]. *)
Inductive exc_class : Type :=
| ValueError | KeyError | TypeError | AttributeError | IndexError
| OverflowError | UnboundLocalError | OSError.

(** A raised exception.  [SystemExit] derives from [BaseException] only;
    the other two derive from [Exception].  [PyExc c msg] carries [str(e)];
    a [RequestException] carries [str(e)] and the text of [e.response]
    when there is one. *)
Inductive exn : Type :=
| SystemExit (code : Z)
| RequestException (msg : string) (response_text : option string)
| PyExc (c : exc_class) (msg : string).

(** [isinstance(e, Exception)]. *)
Definition is_Exception (e : exn) : bool :=
  match e with SystemExit _ => false | _ => true end.

(** [isinstance(e, requests.exceptions.RequestException)]. *)
Definition is_RequestException (e : exn) : bool :=
  match e with RequestException _ _ => true | _ => false end.

(** [isinstance(e, (ValueError, KeyError))]. *)
Definition is_ValueError_or_KeyError (e : exn) : bool :=
  match e with
  | PyExc ValueError _ | PyExc KeyError _ => true
  | _ => false
  end.

(** [isinstance(e, NameError)]: [UnboundLocalError] is its subclass, and
    the only one that a function's local variable can raise. *)
Definition is_NameError (e : exn) : bool :=
  match e with PyExc UnboundLocalError _ => true | _ => false end.

(** [str(e)]. *)
Definition exn_str (e : exn) : string :=
  match e with
  | SystemExit code => NilZero.string_of_int (Z.to_int code)
  | RequestException msg _ => msg
  | PyExc _ msg => msg
  end.

(** Result of evaluating a pure Python expression. *)
Inductive res (A : Type) : Type :=
| Ok (a : A)
| Raise (e : exn).
Arguments Ok {A} a.
Arguments Raise {A} e.

(** ** Python operations on decoded values *)

Module Py.

(** [type(v).__name__]. *)
Definition type_name (v : json) : string :=
  match v with
  | JNull => "NoneType"
  | JBool _ => "bool"
  | JInt _ => "int"
  | JFloat _ => "float"
  | JStr _ => "str"
  | JList _ => "list"
  | JDict _ => "dict"
  end.

(** Truth value of a float: zero is false, everything else (NaN too) true. *)
Definition float_truthy (f : spec_float) : bool :=
  match f with S754_zero _ => false | _ => true end.

(** [bool(v)]. *)
Definition truthy (v : json) : bool :=
  match v with
  | JNull => false
  | JBool b => b
  | JInt n => negb (n =? 0)
  | JFloat f => float_truthy f
  | JStr s => PyStr.nonempty s
  | JList l => match l with [] => false | _ :: _ => true end
  | JDict d => match d with [] => false | _ :: _ => true end
  end.

(** Lookup in a [dict] whose keys are strings. *)
Fixpoint lookup (k : string) (d : pydict) : option json :=
  match d with
  | [] => None
  | (k', v) :: d' => if String.eqb k' k then Some v else lookup k d'
  end.

(** [d[k] = v]: replaces the value in place, or appends a new key. *)
Fixpoint setitem (k : string) (v : json) (d : pydict) : pydict :=
  match d with
  | [] => [(k, v)]
  | (k', v') :: d' =>
      if String.eqb k' k then (k', v) :: d' else (k', v') :: setitem k v d'
  end.

(** [d.update(u)]. *)
Definition update (u d : pydict) : pydict :=
  fold_left (fun acc kv => setitem (fst kv) (snd kv) acc) u d.

(** [k in d]. *)
Definition has_key (k : string) (d : pydict) : bool :=
  match lookup k d with Some _ => true | None => false end.

(** [v.get(k, default)]. *)
Definition get (v : json) (k : string) (default : json) : res json :=
  match v with
  | JDict d =>
      Ok (match lookup k d with Some x => x | None => default end)
  | _ =>
      Raise (PyExc AttributeError
               ("'" ++ type_name v ++ "' object has no attribute 'get'"))
  end.

(** [v[k]] with a string key [k]. *)
Definition getitem_str (v : json) (k : string) : res json :=
  match v with
  | JDict d =>
      match lookup k d with
      | Some x => Ok x
      | None => Raise (PyExc KeyError ("'" ++ k ++ "'"))
      end
  | JList _ =>
      Raise (PyExc TypeError "list indices must be integers or slices, not str")
  | JStr _ =>
      Raise (PyExc TypeError "string indices must be integers, not 'str'")
  | _ =>
      Raise (PyExc TypeError
               ("'" ++ type_name v ++ "' object is not subscriptable"))
  end.

(** [v[0]].  A dict decoded from JSON has string keys only, so the
    integer key is never found. *)
Definition getitem_0 (v : json) : res json :=
  match v with
  | JList (x :: _) => Ok x
  | JList [] => Raise (PyExc IndexError "list index out of range")
  | JStr (String c _) => Ok (JStr (String c EmptyString))
  | JStr EmptyString => Raise (PyExc IndexError "string index out of range")
  | JDict _ => Raise (PyExc KeyError "0")
  | _ =>
      Raise (PyExc TypeError
               ("'" ++ type_name v ++ "' object is not subscriptable"))
  end.

(** The one-character strings a [str] yields when iterated. *)
Fixpoint chars (s : string) : list json :=
  match s with
  | EmptyString => []
  | String c s' => JStr (String c EmptyString) :: chars s'
  end.

(** The items a [for] loop or a comprehension draws from [v]. *)
Definition iterate (v : json) : res (list json) :=
  match v with
  | JList l => Ok l
  | JDict d => Ok (map (fun kv => JStr (fst kv)) d)
  | JStr s => Ok (chars s)
  | _ =>
      Raise (PyExc TypeError
               ("'" ++ type_name v ++ "' object is not iterable"))
  end.

(** [v == s] for a string literal [s]. *)
Definition eq_str (v : json) (s : string) : bool :=
  match v with JStr s' => String.eqb s' s | _ => false end.

(** Round-half-to-even of [m * 2^e], the value of a finite float. *)
Definition round_half_even (m : positive) (e : Z) : Z :=
  if 0 <=? e then Z.pos m * 2 ^ e
  else
    let d := 2 ^ (- e) in
    let q := Z.pos m / d in
    let r := Z.pos m mod d in
    match 2 * r ?= d with
    | Lt => q
    | Gt => q + 1
    | Eq => if Z.even q then q else q + 1
    end.

(** [round(v)] with one argument: an [int]. *)
Definition round (v : json) : res Z :=
  match v with
  | JInt n => Ok n
  | JBool b => Ok (if b then 1 else 0)
  | JFloat (S754_zero _) => Ok 0
  | JFloat (S754_finite s m e) =>
      Ok (if s then - round_half_even m e else round_half_even m e)
  | JFloat (S754_infinity _) =>
      Raise (PyExc OverflowError "cannot convert float infinity to integer")
  | JFloat S754_nan =>
      Raise (PyExc ValueError "cannot convert float NaN to integer")
  | _ =>
      Raise (PyExc TypeError
               ("type " ++ type_name v ++ " doesn't define __round__ method"))
  end.

End Py.

(** ** Pure evaluation with exceptions *)

Definition res_bind {A B : Type} (r : res A) (k : A -> res B) : res B :=
  match r with
  | Ok a => k a
  | Raise e => Raise e
  end.

Notation "'let*' x ':=' r 'in' k" := (res_bind r (fun x => k))
  (at level 10, x name, r at level 100, k at level 200).

(** ** Extraction of the electricity values (pure) *)

(** The type name the Saures API gives to electricity meters. *)
Definition electricity_label : string := "Электричество".

(** [[round(val) for val in vals]]: the first element that cannot be
    rounded raises. *)
Fixpoint round_all (vals : list json) : res (list Z) :=
  match vals with
  | [] => Ok []
  | val :: rest =>
      let* n := Py.round val in
      let* ns := round_all rest in
      Ok (n :: ns)
  end.

(** The inner loop, [for meter in sensor.get('meters', [])]: [Some l] when
    the loop body executed [return l], [None] when the loop ran out. *)
Fixpoint scan_meters (meters : list json) : res (option (list Z)) :=
  match meters with
  | [] => Ok None
  | meter :: rest =>
      let* ty := Py.get meter "type" (JDict []) in
      let* name := Py.get ty "name" JNull in
      if Py.eq_str name electricity_label then
        let* vals := Py.get meter "vals" (JList []) in
        let* items := Py.iterate vals in
        let* rounded := round_all items in
        Ok (Some rounded)
      else scan_meters rest
  end.

(** The outer loop, [for sensor in data.get('sensors', [])]. *)
Fixpoint scan_sensors (sensors : list json) : res (option (list Z)) :=
  match sensors with
  | [] => Ok None
  | sensor :: rest =>
      let* ms := Py.get sensor "meters" (JList []) in
      let* meters := Py.iterate ms in
      let* found := scan_meters meters in
      match found with
      | Some l => Ok (Some l)
      | None => scan_sensors rest
      end
  end.

Definition get_electricity_vals (data : json) : res (list Z) :=
  let* ss := Py.get data "sensors" (JList []) in
  let* sensors := Py.iterate ss in
  let* found := scan_sensors sensors in
  Ok (match found with Some l => l | None => [] end).

(** ** The world the script acts on *)

Inductive http_method : Type := GET | POST.

(** One call of [requests.get], [requests.post] or [session.post]. *)
Record request : Type := mkRequest {
  req_method : http_method;
  req_url : string;
  req_headers : option (list (string * string));
  req_data : option pydict;       (* the form fields at the time of the call *)
  req_session : option nat        (* the [requests.Session] used, if any *)
}.

(** What the three lines [response = ...; response.raise_for_status();
    result = response.json()] come to.  [HttpFail] is any
    [RequestException] (connection error, HTTP error status, and with
    requests >= 2.27 an undecodable body); [HttpNotJson] is a body whose
    decoding raises a plain [ValueError]. *)
Inductive http_outcome : Type :=
| HttpFail (msg : string) (response_text : option string)
| HttpNotJson (msg : string)
| HttpJson (result : json).

Inductive log_level : Type := INFO | ERROR.

(** A [logging] record: level, format string, arguments. *)
Definition log_record : Type := (log_level * string * list json)%type.

(** The local variables of [main] that are read after the [try] block.
    [None] in [message] and [session] means the name is not bound yet. *)
Record frame : Type := mkFrame {
  calc_response : option json;
  save_response : option json;
  success : bool;
  error_message : string;
  message : option string;
  session : option nat
}.

Record world : Type := mkWorld {
  w_sent : list request;          (* requests issued, latest first *)
  w_log : list log_record;        (* records logged, latest first *)
  w_heap : nat -> pydict;         (* the dict objects, by reference *)
  w_next : nat;                   (* next fresh reference *)
  w_sessions : nat;               (* [requests.Session()] objects created *)
  w_closed : list nat;            (* [close()] calls, latest first *)
  w_frame : frame
}.

Definition empty_frame : frame :=
  mkFrame None None false "" None None.

Definition initial_world : world :=
  mkWorld [] [] (fun _ => []) 0 0 [] empty_frame.

(** ** The monad of effects *)

Definition M (A : Type) : Type := world -> res A * world.

Definition ret {A : Type} (a : A) : M A := fun w => (Ok a, w).

Definition raise {A : Type} (e : exn) : M A := fun w => (Raise e, w).

Definition bind {A B : Type} (m : M A) (k : A -> M B) : M B :=
  fun w =>
    match m w with
    | (Ok a, w') => k a w'
    | (Raise e, w') => (Raise e, w')
    end.

Definition lift {A : Type} (r : res A) : M A := fun w => (r, w).

Notation "x <- m ;; k" := (bind m (fun x => k))
  (at level 61, m at next level, right associativity).
Notation "m ;;; k" := (bind m (fun _ => k))
  (at level 61, right associativity).

(** [try: body / except ...: handler]: [handler e] is [None] when no
    [except] clause matches [e]. *)
Definition try_except {A : Type} (body : M A) (handler : exn -> option (M A))
  : M A :=
  fun w =>
    match body w with
    | (Ok a, w') => (Ok a, w')
    | (Raise e, w') =>
        match handler e with
        | Some h => h w'
        | None => (Raise e, w')
        end
    end.

(** [try: body / finally: fin]: [fin] always runs; an exception raised by
    [fin] replaces the pending result. *)
Definition try_finally {A : Type} (body : M A) (fin : M unit) : M A :=
  fun w =>
    match body w with
    | (r, w') =>
        match fin w' with
        | (Ok _, w'') => (r, w'')
        | (Raise e, w'') => (Raise e, w'')
        end
    end.

(** [for x in l: body x]. *)
Fixpoint for_each {A : Type} (l : list A) (body : A -> M unit) : M unit :=
  match l with
  | [] => ret tt
  | x :: rest => body x ;;; for_each rest body
  end.

(** [sys.exit(code)]. *)
Definition sys_exit {A : Type} (code : Z) : M A := raise (SystemExit code).

(** The world with one more record in the log. *)
Definition logged (l : log_record) (w : world) : world :=
  mkWorld (w_sent w) (l :: w_log w) (w_heap w) (w_next w) (w_sessions w)
    (w_closed w) (w_frame w).

(** The world with one more request sent. *)
Definition sent (r : request) (w : world) : world :=
  mkWorld (r :: w_sent w) (w_log w) (w_heap w) (w_next w) (w_sessions w)
    (w_closed w) (w_frame w).

(** A world with another frame. *)
Definition with_frame (w : world) (f : frame) : world :=
  mkWorld (w_sent w) (w_log w) (w_heap w) (w_next w) (w_sessions w)
    (w_closed w) f.

Definition logging (lvl : log_level) (fmt : string) (args : list json) : M unit :=
  fun w => (Ok tt, logged (lvl, fmt, args) w).

(** A dict display [{...}] evaluated by [main]: a fresh object. *)
Definition new_dict (d : pydict) : M nat :=
  fun w =>
    (Ok (w_next w),
     mkWorld (w_sent w) (w_log w)
       (fun l => if Nat.eqb l (w_next w) then d else w_heap w l)
       (S (w_next w)) (w_sessions w) (w_closed w) (w_frame w)).

(** Reading the dict behind a reference. *)
Definition read_dict (l : nat) : M pydict := fun w => (Ok (w_heap w l), w).

(** [l.update(u)], in place. *)
Definition dict_update (l : nat) (u : pydict) : M unit :=
  fun w =>
    (Ok tt,
     mkWorld (w_sent w) (w_log w)
       (fun l' => if Nat.eqb l' l then Py.update u (w_heap w l) else w_heap w l')
       (w_next w) (w_sessions w) (w_closed w) (w_frame w)).

(** [requests.Session()]. *)
Definition new_session : M nat :=
  fun w =>
    (Ok (w_sessions w),
     mkWorld (w_sent w) (w_log w) (w_heap w) (w_next w)
       (S (w_sessions w)) (w_closed w) (w_frame w)).

(** [s.close()]. *)
Definition session_close (s : nat) : M unit :=
  fun w =>
    (Ok tt,
     mkWorld (w_sent w) (w_log w) (w_heap w) (w_next w)
       (w_sessions w) (s :: w_closed w) (w_frame w)).

Definition get_frame : M frame := fun w => (Ok (w_frame w), w).

Definition set_frame (f : frame -> frame) : M unit :=
  fun w => (Ok tt, with_frame w (f (w_frame w))).

Definition set_calc_response (v : option json) (f : frame) : frame :=
  mkFrame v (save_response f) (success f) (error_message f) (message f) (session f).
Definition set_save_response (v : option json) (f : frame) : frame :=
  mkFrame (calc_response f) v (success f) (error_message f) (message f) (session f).
Definition set_success (b : bool) (f : frame) : frame :=
  mkFrame (calc_response f) (save_response f) b (error_message f) (message f) (session f).
Definition set_error_message (s : string) (f : frame) : frame :=
  mkFrame (calc_response f) (save_response f) (success f) s (message f) (session f).
Definition set_message (s : string) (f : frame) : frame :=
  mkFrame (calc_response f) (save_response f) (success f) (error_message f) (Some s) (session f).
Definition set_session (s : nat) (f : frame) : frame :=
  mkFrame (calc_response f) (save_response f) (success f) (error_message f) (message f) (Some s).

(** Reading a local of [main] that may not be bound. *)
Definition read_local {A : Type} (name : string) (get : frame -> option A) : M A :=
  f <- get_frame ;;
  match get f with
  | Some a => ret a
  | None =>
      raise (PyExc UnboundLocalError
               ("cannot access local variable '" ++ name ++
                "' where it is not associated with a value"))
  end.

(** ** The script *)

(** The double quote and the line feed, for the string constants that
    contain them. *)
Definition dq : string := String (ascii_of_nat 34) EmptyString.
Definition nl : string := String (ascii_of_nat 10) EmptyString.

Definition user_agent : string :=
  "Mozilla/5.0 (Windows NT 10.0; Win64; x64) AppleWebKit/537.36 " ++
  "(KHTML, like Gecko) Chrome/136.0.0.0 Safari/537.36".

(** The configuration [setup_environment] returns. *)
Record env_vars : Type := mkEnv {
  ev_login : string;
  ev_log_file : string;
  ev_saures_pass : string;
  ev_saures_api_url : string;
  ev_meter_id : string;
  ev_mosenergo_lk_url : string;
  ev_mosenergo_pass : string;
  ev_telegram_bot_token : string;
  ev_telegram_chat_id : string
}.

Definition required_env_vars : list string :=
  ["LOGIN"; "LOG_FILE"; "SAURES_PASS"; "SAURES_API_URL"; "METER_ID";
   "MOSENERGO_LK_URL"; "MOSENERGO_PASS"; "TELEGRAM_BOT_TOKEN";
   "TELEGRAM_CHAT_ID"].

Definition success_header : string :=
  "✅ *Mosenergosbyt Operation Success*" ++ nl ++ nl.
Definition failure_header : string :=
  "❌ *Mosenergosbyt Operation Failure*" ++ nl ++ nl.
Definition unexpected_header : string :=
  "❌ *Mosenergosbyt Script Unexpected Failure*" ++ nl ++ nl.

Definition font_open : string := "<font color='#ff6347'>".
Definition font_close : string := "</font>".
Definition bold_open : string := "<b>".
Definition bold_close : string := "</b>".

(** The two pairs of [replace] calls applied to the CalcCharge text. *)
Definition clean_markup (calc_result : string) : string :=
  let calc_result_cleaned :=
    PyStr.replace font_close "" (PyStr.replace font_open "" calc_result) in
  PyStr.replace bold_close "**" (PyStr.replace bold_open "**" calc_result_cleaned).

(** [v.replace]: only a [str] has the method. *)
Definition as_replaceable (v : json) : res string :=
  match v with
  | JStr s => Ok s
  | _ =>
      Raise (PyExc AttributeError
               ("'" ++ Py.type_name v ++ "' object has no attribute 'replace'"))
  end.

(** Truth value of a [dict | None] local. *)
Definition opt_truthy (r : option json) : bool :=
  match r with None => false | Some v => Py.truthy v end.

Definition opt_json (r : option json) : json :=
  match r with None => JNull | Some v => v end.

Section Script.

(** The HTTP peer: the outcome of a request, given the requests issued
    before it (latest first). *)
Variable transport : list request -> request -> http_outcome.

(** Python's [repr] on decoded values, not modelled further. *)
Variable py_repr : json -> string.

(** [os.environ] once [load_dotenv()] has run, and the value of
    [datetime.now().strftime('%Y-%m-%dT%H:%M:%S')]. *)
Variable environ : string -> option string.
Variable now : string.

(** [logging.basicConfig(filename=path, ...)] opens the log file at once:
    [Some msg] is the [str] of the [OSError] ([FileNotFoundError],
    [PermissionError], [IsADirectoryError]) raised when the file at [path]
    cannot be opened for appending, [None] when the call returns. *)
Variable basic_config : string -> option string.

(** [str(v)], as an f-string applies it: a [str] is itself, any other
    decoded value is its [repr]. *)
Definition py_str (v : json) : string :=
  match v with JStr s => s | _ => py_repr v end.

(** Issue a request and decode the body. *)
Definition http (r : request) : M json :=
  fun w =>
    let w' := sent r w in
    match transport (w_sent w) r with
    | HttpFail msg rt => (Raise (RequestException msg rt), w')
    | HttpNotJson msg => (Raise (PyExc ValueError msg), w')
    | HttpJson result => (Ok result, w')
    end.

Definition env_get (var default : string) : string :=
  match environ var with Some v => v | None => default end.

Definition setup_environment : M env_vars :=
  let missing_vars :=
    filter (fun var => negb (PyStr.nonempty (env_get var ""))) required_env_vars in
  match missing_vars with
  | _ :: _ =>
      logging ERROR "Missing environment variables: %s"
        [JStr (PyStr.join ", " missing_vars)] ;;;
      sys_exit 1
  | [] =>
      ret (mkEnv (env_get "LOGIN" "") (env_get "LOG_FILE" "")
             (env_get "SAURES_PASS" "") (env_get "SAURES_API_URL" "")
             (env_get "METER_ID" "") (env_get "MOSENERGO_LK_URL" "")
             (env_get "MOSENERGO_PASS" "") (env_get "TELEGRAM_BOT_TOKEN" "")
             (env_get "TELEGRAM_CHAT_ID" ""))
  end.

(** [logging.basicConfig] either raises, the log file not opened, or
    returns; from then on every record goes to the one log of the model. *)
Definition setup_logging (log_file_path : string) : M unit :=
  match basic_config log_file_path with
  | Some msg => raise (PyExc OSError msg)
  | None => ret tt
  end.

Definition send_telegram_message (token chat_id text : string) : M bool :=
  let url := "https://api.telegram.org/bot" ++ token ++ "/sendMessage" in
  let payload :=
    [("chat_id", JStr chat_id); ("text", JStr text);
     ("parse_mode", JStr "Markdown")] in
  try_except
    (result <- http (mkRequest POST url None (Some payload) None) ;;
     ok <- lift (Py.get result "ok" JNull) ;;
     if Py.truthy ok then
       logging INFO "Telegram message sent successfully to chat_id %s"
         [JStr chat_id] ;;;
       ret true
     else
       description <- lift (Py.get result "description" (JStr "Unknown error")) ;;
       logging ERROR "Failed to send Telegram message: %s" [description] ;;;
       ret false)
    (fun e =>
       if is_RequestException e then
         Some (logging ERROR "Error sending Telegram message: %s"
                 [JStr (exn_str e)] ;;;
               ret false)
       else None).

Definition authenticate_saures (api_url login password : string) : M json :=
  let saures_login_url := api_url ++ "/login" in
  let headers :=
    [("Content-Type", "application/x-www-form-urlencoded; charset=utf-8")] in
  let data := [("email", JStr login); ("password", JStr password)] in
  logging INFO "Connecting to Saures API for authentication" [] ;;;
  try_except
    (result <- http (mkRequest POST saures_login_url (Some headers)
                       (Some data) None) ;;
     status <- lift (Py.get result "status" JNull) ;;
     if Py.eq_str status "ok" then
       d <- lift (Py.getitem_str result "data") ;;
       lift (Py.getitem_str d "sid")
     else
       errors <- lift (Py.get result "errors" (JList [])) ;;
       logging ERROR "Authentication error: %s" [errors] ;;;
       sys_exit 1)
    (fun e =>
       if is_RequestException e then
         Some (logging ERROR "Request to Saures API failed: %s"
                 [JStr (exn_str e)] ;;;
               sys_exit 1)
       else if is_ValueError_or_KeyError e then
         Some (logging ERROR "Error processing Saures API response: %s"
                 [JStr (exn_str e)] ;;;
               sys_exit 1)
       else None).

Definition fetch_saures_meter_data (api_url : string) (sid : json)
    (meter_id current_time : string) : M json :=
  let saures_meters_url :=
    api_url ++ "/object/meters?sid=" ++ py_str sid ++ "&id=" ++ meter_id ++
    "&date=" ++ current_time in
  logging INFO "Fetching meter data from Saures API" [] ;;;
  try_except
    (result <- http (mkRequest GET saures_meters_url None None None) ;;
     status <- lift (Py.get result "status" JNull) ;;
     if Py.eq_str status "ok" then
       logging INFO "Successfully retrieved meter data from Saures" [] ;;;
       lift (Py.getitem_str result "data")
     else
       errors <- lift (Py.get result "errors" (JList [])) ;;
       logging ERROR "Failed to fetch meter data: %s" [errors] ;;;
       sys_exit 1)
    (fun e =>
       if is_RequestException e then
         Some (logging ERROR "Request to fetch meter data failed: %s"
                 [JStr (exn_str e)] ;;;
               sys_exit 1)
       else if is_ValueError_or_KeyError e then
         Some (logging ERROR "Error processing meter data response: %s"
                 [JStr (exn_str e)] ;;;
               sys_exit 1)
       else None).

(** [json.dumps] of the device descriptor. *)
Definition vl_device_info : string :=
  "{" ++ dq ++ "appver" ++ dq ++ ": " ++ dq ++ "1.40.0" ++ dq ++ ", " ++
  dq ++ "type" ++ dq ++ ": " ++ dq ++ "browser" ++ dq ++ ", " ++
  dq ++ "userAgent" ++ dq ++ ": " ++ dq ++ user_agent ++ dq ++ "}".

Definition authenticate_mosenergo (lk_url login password : string)
  : M (json * nat) :=
  let login_url := lk_url ++ "?action=auth&query=login" in
  let payload :=
    [("login", JStr login); ("psw", JStr password);
     ("vl_device_info", JStr vl_device_info)] in
  let headers :=
    [("Content-Type", "application/x-www-form-urlencoded");
     ("User-Agent", user_agent)] in
  logging INFO "Trying to establish Mosenergosbyt session" [] ;;;
  session <- new_session ;;
  try_except
    (result <- http (mkRequest POST login_url (Some headers) (Some payload)
                       (Some session)) ;;
     ok <- lift (Py.get result "success" JNull) ;;
     if Py.truthy ok then
       d <- lift (Py.getitem_str result "data") ;;
       d0 <- lift (Py.getitem_0 d) ;;
       session_id <- lift (Py.getitem_str d0 "session") ;;
       logging INFO "Successfully authenticated with Mosenergosbyt" [] ;;;
       ret (session_id, session)
     else
       err <- lift (Py.get result "error" (JStr "Unknown error")) ;;
       logging ERROR "Connection to Mosenergosbyt failed: %s" [err] ;;;
       sys_exit 1)
    (fun e =>
       if is_RequestException e then
         Some (logging ERROR "Request to Mosenergosbyt failed: %s"
                 [JStr (exn_str e)] ;;;
               sys_exit 1)
       else if is_ValueError_or_KeyError e then
         Some (logging ERROR "Error processing Mosenergosbyt response: %s"
                 [JStr (exn_str e)] ;;;
               sys_exit 1)
       else None).

Definition fetch_mosenergo_provider (lk_url : string) (session_id : json)
    (session : nat) (headers : list (string * string)) : M json :=
  let session_url :=
    lk_url ++ "?action=sql&query=LSList&session=" ++ py_str session_id in
  logging INFO "Fetching provider data from Mosenergosbyt" [] ;;;
  try_except
    (result <- http (mkRequest POST session_url (Some headers) None
                       (Some session)) ;;
     ok <- lift (Py.get result "success" JNull) ;;
     if Py.truthy ok then
       d <- lift (Py.getitem_str result "data") ;;
       d0 <- lift (Py.getitem_0 d) ;;
       provider_id <- lift (Py.getitem_str d0 "vl_provider") ;;
       logging INFO "Successfully retrieved provider ID from Mosenergosbyt" [] ;;;
       ret provider_id
     else
       err <- lift (Py.get result "error" (JStr "Unknown error")) ;;
       logging ERROR "Failed to fetch provider data: %s" [err] ;;;
       sys_exit 1)
    (fun e =>
       if is_RequestException e then
         Some (logging ERROR "Request to fetch provider data failed: %s"
                 [JStr (exn_str e)] ;;;
               sys_exit 1)
       else if is_ValueError_or_KeyError e then
         Some (logging ERROR "Error processing provider data response: %s"
                 [JStr (exn_str e)] ;;;
               sys_exit 1)
       else None).

(** [electricity_values[i]]. *)
Definition values_at (electricity_values : list Z) (i : nat) : res json :=
  match nth_error electricity_values i with
  | Some n => Ok (JInt n)
  | None => Raise (PyExc IndexError "list index out of range")
  end.

Definition calc_url (lk_url : string) (session_id : json) : string :=
  lk_url ++ "?action=sql&query=bytProxy&session=" ++ py_str session_id.

Definition save_url (lk_url : string) (session_id : json) : string :=
  lk_url ++ "?action=sql&query=SaveIndications&" ++
  "session=" ++ py_str session_id.

Definition send_mosenergo_data (lk_url : string) (session_id : json)
    (session : nat) (headers : list (string * string)) (provider_id : json)
    (electricity_values : list Z) (query_type : string) (payload_base : nat)
  : M (option json) :=
  url <-
    (if String.eqb query_type "CalcCharge" then
       t1 <- lift (values_at electricity_values 0) ;;
       t2 <- lift (values_at electricity_values 1) ;;
       dict_update payload_base
         [("proxyquery", JStr "CalcCharge"); ("vl_provider", provider_id);
          ("vl_t1", t1); ("vl_t2", t2)] ;;;
       ret (calc_url lk_url session_id)
     else
       t1 <- lift (values_at electricity_values 0) ;;
       t2 <- lift (values_at electricity_values 1) ;;
       dict_update payload_base
         [("vl_provider", provider_id); ("vl_t1", t1); ("vl_t2", t2)] ;;;
       ret (save_url lk_url session_id)) ;;
  logging INFO "Sending data to Mosenergosbyt (%s)" [JStr query_type] ;;;
  try_except
    (data <- read_dict payload_base ;;
     result <- http (mkRequest POST url (Some headers) (Some data)
                       (Some session)) ;;
     logging INFO "%s response: %s" [JStr query_type; result] ;;;
     ret (Some result))
    (fun e =>
       match e with
       | RequestException _ response_text =>
           Some (logging ERROR "%s request failed: %s"
                   [JStr query_type; JStr (exn_str e)] ;;;
                 match response_text with
                 | Some text =>
                     logging ERROR "Response content: %s" [JStr text]
                 | None => ret tt
                 end ;;;
                 ret None)
       | _ => None
       end).

(** The [headers] dict that [main] builds. *)
Definition main_headers : list (string * string) :=
  [("Content-Type", "application/x-www-form-urlencoded");
   ("User-Agent", user_agent)].

Definition generic_error : string := "Operation failed. Check logs for details.".
Definition not_enough : string := "Not enough electricity values received.".
Definition no_result : json := JStr "No result message available".

(** The condition [calc_response and save_response and
    calc_response.get('success') and save_response.get('success')],
    evaluated left to right with short circuit. *)
Definition both_succeeded (calc save : option json) : res bool :=
  if negb (opt_truthy calc) then Ok false
  else if negb (opt_truthy save) then Ok false
  else
    let* c := Py.get (opt_json calc) "success" JNull in
    if negb (Py.truthy c) then Ok false
    else
      let* s := Py.get (opt_json save) "success" JNull in
      Ok (Py.truthy s).

(** [response['data'][0].get('nm_result', 'No result message available')]. *)
Definition nm_result (response : option json) : res json :=
  let* d := Py.getitem_str (opt_json response) "data" in
  let* d0 := Py.getitem_0 d in
  Py.get d0 "nm_result" no_result.

(** The end of the [try] body: classification of the two responses and
    the message for either case. *)
Definition main_classify : M unit :=
  f <- get_frame ;;
  ok <- lift (both_succeeded (calc_response f) (save_response f)) ;;
  if ok then
    set_frame (set_success true) ;;;
    calc_result <- lift (nm_result (calc_response f)) ;;
    calc_text <- lift (as_replaceable calc_result) ;;
    let calc_result_cleaned := clean_markup calc_text in
    save_result <- lift (nm_result (save_response f)) ;;
    set_frame (set_message
                 (success_header ++ calc_result_cleaned ++ nl ++
                  py_str save_result))
  else
    set_frame (set_success false) ;;;
    set_frame (set_error_message generic_error) ;;;
    set_frame (set_message (failure_header ++ "Error: " ++ generic_error)).

(** What the first half of the [try] body hands to the second. *)
Record prepared : Type := mkPrepared {
  p_electricity_values : list Z;
  p_session_id : json;
  p_session : nat;
  p_provider_id : json
}.

(** The [try] body down to the provider look-up: Saures authentication
    and meter data, extraction and validation of the values,
    Mosenergosbyt authentication and provider. *)
Definition main_prepare (env : env_vars) (current_time : string)
  : M prepared :=
  saures_sid <- authenticate_saures (ev_saures_api_url env) (ev_login env)
                  (ev_saures_pass env) ;;
  meters_data <- fetch_saures_meter_data (ev_saures_api_url env) saures_sid
                   (ev_meter_id env) current_time ;;
  electricity_values <- lift (get_electricity_vals meters_data) ;;
  (if (Z.of_nat (List.length electricity_values) <? 2)%Z then
     logging ERROR "Not enough electricity values received: %s"
       [JList (map JInt electricity_values)] ;;;
     set_frame (set_error_message not_enough) ;;;
     raise (PyExc ValueError not_enough)
   else ret tt) ;;;
  logging INFO "Extracted electricity values: %s"
    [JList (map JInt electricity_values)] ;;;
  auth <- authenticate_mosenergo (ev_mosenergo_lk_url env) (ev_login env)
            (ev_mosenergo_pass env) ;;
  set_frame (set_session (snd auth)) ;;;
  provider_id <- fetch_mosenergo_provider (ev_mosenergo_lk_url env)
                   (fst auth) (snd auth) main_headers ;;
  ret (mkPrepared electricity_values (fst auth) (snd auth) provider_id).

Definition calc_payload : pydict :=
  [("nn_phone", JStr "+7 (499) 550-9-550"); ("plugin", JStr "bytProxy");
   ("pr_flat_meter", JInt 0)].

Definition save_payload : pydict :=
  [("plugin", JStr "propagateMesInd"); ("pr_flat_meter", JInt 0)].

(** The rest of the [try] body: the two submissions, then the
    classification. *)
Definition main_submit (env : env_vars) (p : prepared) : M unit :=
  calc_payload_ref <- new_dict calc_payload ;;
  save_payload_ref <- new_dict save_payload ;;
  calc <- send_mosenergo_data (ev_mosenergo_lk_url env) (p_session_id p)
            (p_session p) main_headers (p_provider_id p)
            (p_electricity_values p) "CalcCharge" calc_payload_ref ;;
  set_frame (set_calc_response calc) ;;;
  save <- send_mosenergo_data (ev_mosenergo_lk_url env) (p_session_id p)
            (p_session p) main_headers (p_provider_id p)
            (p_electricity_values p) "SaveIndications" save_payload_ref ;;
  set_frame (set_save_response save) ;;;
  main_classify.

(** The body of the [try] statement of [main]. *)
Definition main_try (env : env_vars) (current_time : string) : M unit :=
  p <- main_prepare env current_time ;;
  main_submit env p.

(** The clause [except Exception as e]. *)
Definition main_except (e : exn) : option (M unit) :=
  if is_Exception e then
    Some (logging ERROR "Unexpected error in script execution: %s"
            [JStr (exn_str e)] ;;;
          set_frame (set_success false) ;;;
          set_frame (set_error_message (exn_str e)) ;;;
          set_frame (set_message
                       (unexpected_header ++ "Error: " ++ exn_str e)))
  else None.

(** The [finally] clause: the notifications, then the clean-up. *)
Definition main_finally (env : env_vars) : M unit :=
  for_each (PyStr.split "," (ev_telegram_chat_id env))
    (fun id_ =>
       text <- read_local "message" message ;;
       _ <- send_telegram_message (ev_telegram_bot_token env) id_ text ;;
       ret tt) ;;;
  try_except
    (s <- read_local "session" session ;; session_close s)
    (fun e => if is_NameError e then Some (ret tt) else None) ;;;
  f <- get_frame ;;
  logging INFO "Script completed with status: %s"
    [JStr (if success f then "Success" else "Failure")].

Definition main : M unit :=
  env <- setup_environment ;;
  setup_logging (ev_log_file env) ;;;
  let current_time := now in
  logging INFO "Script started at: %s" [JStr current_time] ;;;
  (* a fresh frame: [message] and [session] are not bound *)
  set_frame (fun _ => mkFrame None None false "" None None) ;;;
  try_finally
    (try_except (main_try env current_time) main_except)
    (main_finally env).

(** The exit status of the process running [main()]: 0 when [main]
    returns, the code of a [SystemExit], 1 for any other exception that
    reaches the top level. *)
Definition exit_status (r : res unit) : Z :=
  match r with
  | Ok _ => 0
  | Raise (SystemExit code) => code
  | Raise _ => 1
  end.

Definition run_script : Z * world :=
  match main initial_world with
  | (r, w) => (exit_status r, w)
  end.

End Script.

(** ** Observations on a finished run *)

(** The requests sent to the Telegram API, oldest first. *)
Definition is_telegram (r : request) : bool :=
  PyStr.startswith "https://api.telegram.org/bot" (req_url r).

Definition telegram_sends (w : world) : list request :=
  filter is_telegram (rev (w_sent w)).

Definition text_of (r : request) : option json :=
  match req_data r with
  | Some d => Py.lookup "text" d
  | None => None
  end.

(** ** Vocabulary of the statements *)

(** The fields one call of [send_mosenergo_data] adds to its payload. *)
Definition submitted_fields (query_type : string) (provider_id : json)
    (t1 t2 : Z) : pydict :=
  if String.eqb query_type "CalcCharge" then
    [("proxyquery", JStr "CalcCharge"); ("vl_provider", provider_id);
     ("vl_t1", JInt t1); ("vl_t2", JInt t2)]
  else
    [("vl_provider", provider_id); ("vl_t1", JInt t1); ("vl_t2", JInt t2)].

(** The request one call of [send_mosenergo_data] issues, [base] being the
    payload dictionary before the call. *)
Definition submission_request (py_repr : json -> string) (lk_url : string)
    (session_id : json) (session : nat) (headers : list (string * string))
    (provider_id : json) (t1 t2 : Z) (query_type : string) (base : pydict)
  : request :=
  mkRequest POST
    (if String.eqb query_type "CalcCharge"
     then calc_url py_repr lk_url session_id
     else save_url py_repr lk_url session_id)
    (Some headers)
    (Some (Py.update (submitted_fields query_type provider_id t1 t2) base))
    (Some session).

(** What a submission returns, by the outcome of its request. *)
Definition submission_result (o : http_outcome) : res (option json) :=
  match o with
  | HttpJson result => Ok (Some result)
  | HttpFail _ _ => Ok None
  | HttpNotJson msg => Raise (PyExc ValueError msg)
  end.

(** A result text seen as a sequence of plain text and markup tags. *)
Inductive markup : Type :=
| Text (s : string)
| FontOpen
| FontClose
| BoldOpen
| BoldClose.

(** The text of a sequence, each tag written as given. *)
Fixpoint render (fo fc bo bc : string) (ts : list markup) : string :=
  match ts with
  | [] => EmptyString
  | Text s :: rest => s ++ render fo fc bo bc rest
  | FontOpen :: rest => fo ++ render fo fc bo bc rest
  | FontClose :: rest => fc ++ render fo fc bo bc rest
  | BoldOpen :: rest => bo ++ render fo fc bo bc rest
  | BoldClose :: rest => bc ++ render fo fc bo bc rest
  end.

(** The text as the billing portal writes it, and the same span with the
    font wrapper dropped and the bold tags in Markdown. *)
Definition html (ts : list markup) : string :=
  render font_open font_close bold_open bold_close ts.

Definition markdown (ts : list markup) : string :=
  render "" "" "**" "**" ts.

(** No ["<"] in the text. *)
Fixpoint no_lt (s : string) : bool :=
  match s with
  | EmptyString => true
  | String c s' => negb (Ascii.eqb c "<") && no_lt s'
  end.

(** The plain-text parts of a sequence hold no ["<"]. *)
Definition plain (t : markup) : bool :=
  match t with Text s => no_lt s | _ => true end.

(** The success indicator of a submission result, in the words of the
    outcome rule: the result is present, and its own ['success'] field is
    true. *)
Definition indicator (r : option json) : bool :=
  match r with
  | Some (JDict d) =>
      match Py.lookup "success" d with
      | Some v => Py.truthy v
      | None => false
      end
  | _ => false
  end.

(** A submission result as [send_mosenergo_data] documents it: absent, or
    the JSON object of the answer. *)
Definition absent_or_object (r : option json) : bool :=
  match r with
  | None | Some (JDict _) => true
  | _ => false
  end.

(** The first record of a submission answer: the answer is an object
    whose ['data'] is a list, and the first element of that list is an
    object. *)
Definition first_record (r : option json) : option pydict :=
  match r with
  | Some (JDict d) =>
      match Py.lookup "data" d with
      | Some (JList (JDict record :: _)) => Some record
      | _ => None
      end
  | _ => None
  end.

(** The ['nm_result'] of a record is missing or is a string. *)
Definition absent_or_text (record : pydict) : bool :=
  match Py.lookup "nm_result" record with
  | None | Some (JStr _) => true
  | Some _ => false
  end.

(** The result message a record carries, with the default of the script
    for a record without ['nm_result']. *)
Definition result_message (record : pydict) : json :=
  match Py.lookup "nm_result" record with
  | Some v => v
  | None => no_result
  end.

(** The shape in which the result messages of both answers can be read:
    each answer has a first record, and the ['nm_result'] of the
    CalcCharge record is missing or is a string. *)
Definition readable (calc save : option json) : bool :=
  match first_record calc, first_record save with
  | Some record, Some _ => absent_or_text record
  | _, _ => false
  end.

(** The text of the generic failure notification. *)
Definition generic_failure_text : string :=
  failure_header ++ "Error: " ++ generic_error.

(** The text of the notification of an unexpected failure. *)
Definition unexpected_text (e : exn) : string :=
  unexpected_header ++ "Error: " ++ exn_str e.

(** The shape of a metering snapshot, as the Saures API documents it:
    an object whose ['sensors'] is a list of objects, each with a list
    ['meters'] of objects, each with an object ['type'].  A key that is
    missing is as good as its empty default. *)
Definition valid_meter (meter : json) : bool :=
  match meter with
  | JDict m =>
      match Py.lookup "type" m with
      | None | Some (JDict _) => true
      | Some _ => false
      end
  | _ => false
  end.

Definition valid_sensor (sensor : json) : bool :=
  match sensor with
  | JDict s =>
      match Py.lookup "meters" s with
      | None => true
      | Some (JList ms) => forallb valid_meter ms
      | Some _ => false
      end
  | _ => false
  end.

Definition valid_snapshot (data : json) : bool :=
  match data with
  | JDict d =>
      match Py.lookup "sensors" d with
      | None => true
      | Some (JList ss) => forallb valid_sensor ss
      | Some _ => false
      end
  | _ => false
  end.

Definition meters_of (sensor : json) : list json :=
  match sensor with
  | JDict s =>
      match Py.lookup "meters" s with
      | Some (JList ms) => ms
      | _ => []
      end
  | _ => []
  end.

Definition sensors_of (data : json) : list json :=
  match data with
  | JDict d =>
      match Py.lookup "sensors" d with
      | Some (JList ss) => ss
      | _ => []
      end
  | _ => []
  end.

(** Every meter of the snapshot, sensor by sensor, in source order. *)
Definition all_meters (data : json) : list json :=
  flat_map meters_of (sensors_of data).

(** The meter's type name is the electricity label. *)
Definition is_electricity (meter : json) : bool :=
  match meter with
  | JDict m =>
      match Py.lookup "type" m with
      | Some (JDict t) =>
          match Py.lookup "name" t with
          | Some n => Py.eq_str n electricity_label
          | None => false
          end
      | _ => false
      end
  | _ => false
  end.

(** The ['vals'] of a meter. *)
Definition vals_of (meter : json) : json :=
  match meter with
  | JDict m =>
      match Py.lookup "vals" m with
      | Some v => v
      | None => JList []
      end
  | _ => JList []
  end.

(** A reading: an [int] or a finite [float]. *)
Definition is_number (v : json) : bool :=
  match v with
  | JInt _ | JFloat (S754_zero _) | JFloat (S754_finite _ _ _) => true
  | _ => false
  end.

(** A finite float [(-1)^s * m * 2^e] as the fraction
    [float_num s m e / float_den e]. *)
Definition float_den (e : Z) : Z := 2 ^ Z.max 0 (- e).
Definition float_num (s : bool) (m : positive) (e : Z) : Z :=
  (if s then -1 else 1) * Z.pos m * 2 ^ Z.max 0 e.

(** [z] is an integer nearest to the number [v]: at distance at most one
    half. *)
Definition nearest_integer (v : json) (z : Z) : Prop :=
  match v with
  | JInt n => z = n
  | JFloat (S754_zero _) => z = 0
  | JFloat (S754_finite s m e) =>
      2 * Z.abs (z * float_den e - float_num s m e) <= float_den e
  | _ => False
  end.

(** What the loops do with the first electricity meter [found]. *)
Definition read_vals (found : option json) : res (option (list Z)) :=
  match found with
  | None => Ok None
  | Some meter =>
      let* items := Py.iterate (vals_of meter) in
      let* rounded := round_all items in
      Ok (Some rounded)
  end.

(** Every mandatory variable is set to a non-empty value. *)
Definition config_complete (environ : string -> option string) : bool :=
  forallb (fun var => PyStr.nonempty (env_get environ var ""))
    required_env_vars.

(** The configuration read from a complete environment. *)
Definition the_env (environ : string -> option string) : env_vars :=
  mkEnv (env_get environ "LOGIN" "") (env_get environ "LOG_FILE" "")
    (env_get environ "SAURES_PASS" "") (env_get environ "SAURES_API_URL" "")
    (env_get environ "METER_ID" "") (env_get environ "MOSENERGO_LK_URL" "")
    (env_get environ "MOSENERGO_PASS" "")
    (env_get environ "TELEGRAM_BOT_TOKEN" "")
    (env_get environ "TELEGRAM_CHAT_ID" "").

(** The state in which [main] enters its [try] statement. *)
Definition start_world (now : string) : world :=
  with_frame (logged (INFO, "Script started at: %s", [JStr now]) initial_world)
    empty_frame.

(** The configured recipient ids. *)
Definition recipients (env : env_vars) : list string :=
  PyStr.split "," (ev_telegram_chat_id env).

(** The request [send_telegram_message] issues. *)
Definition telegram_request (token chat_id text : string) : request :=
  mkRequest POST ("https://api.telegram.org/bot" ++ token ++ "/sendMessage")
    None
    (Some [("chat_id", JStr chat_id); ("text", JStr text);
           ("parse_mode", JStr "Markdown")])
    None.

(** An answer the notifier handles without raising: a transport error or
    a JSON object. *)
Definition notifier_handles (o : http_outcome) : bool :=
  match o with
  | HttpFail _ _ | HttpJson (JDict _) => true
  | _ => false
  end.

(** The notifications of one text to a list of recipients, latest first. *)
Definition notifications (token text : string) (ids : list string)
  : list request :=
  rev (map (fun id_ => telegram_request token id_ text) ids).

(** Everything but the log and the requests sent is the same. *)
Definition same_objects (w w' : world) : Prop :=
  w_frame w' = w_frame w /\ w_closed w' = w_closed w /\
  w_sessions w' = w_sessions w /\ w_heap w' = w_heap w /\
  w_next w' = w_next w.

(** The message of the [UnboundLocalError] for a local [name]. *)
Definition unbound_local (name : string) : exn :=
  PyExc UnboundLocalError
    ("cannot access local variable '" ++ name ++
     "' where it is not associated with a value").

(** The last record of the log of a run that reaches its end. *)
Definition completion_record (f : frame) : log_record :=
  (INFO, "Script completed with status: %s",
   [JStr (if success f then "Success" else "Failure")]).

(** The [close()] calls after the clean-up, by the binding of [session]. *)
Definition closed_after (f : frame) (closed : list nat) : list nat :=
  match session f with
  | Some s => s :: closed
  | None => closed
  end.

(** The body of the loop over the recipients. *)
Definition notify_one (transport : list request -> request -> http_outcome)
    (token id_ : string) : M unit :=
  text <- read_local "message" message ;;
  _ <- send_telegram_message transport token id_ text ;;
  ret tt.

(** The world after the clean-up and the last log record. *)
Definition torn_down (w : world) : world :=
  logged (completion_record (w_frame w))
    (mkWorld (w_sent w) (w_log w) (w_heap w) (w_next w) (w_sessions w)
       (closed_after (w_frame w) (w_closed w)) (w_frame w)).

(** [m] relates every state to the state it leaves, whatever it returns. *)
Definition keeps {A : Type} (R : world -> world -> Prop) (m : M A) : Prop :=
  forall w, R w (snd (m w)).

(** The same for the runs of [m] that raise. *)
Definition keeps_on_raise {A : Type} (R : world -> world -> Prop) (m : M A)
  : Prop :=
  forall w e w', m w = (Raise e, w') -> R w w'.

(** Nothing is notified or torn down: [message] keeps its binding and no
    session is closed. *)
Definition quiet (w w' : world) : Prop :=
  message (w_frame w') = message (w_frame w) /\ w_closed w' = w_closed w.


(** The state the clause [except Exception as e] leaves. *)
Definition handled (e : exn) (w : world) : world :=
  with_frame
    (logged (ERROR, "Unexpected error in script execution: %s",
             [JStr (exn_str e)]) w)
    (set_message (unexpected_text e)
       (set_error_message (exn_str e) (set_success false (w_frame w)))).

(** The request [authenticate_saures] issues. *)
Definition saures_login_request (api_url login password : string) : request :=
  mkRequest POST (api_url ++ "/login")
    (Some [("Content-Type",
            "application/x-www-form-urlencoded; charset=utf-8")])
    (Some [("email", JStr login); ("password", JStr password)])
    None.

(** The request [fetch_saures_meter_data] issues. *)
Definition meters_request (py_repr : json -> string)
    (api_url : string) (sid : json) (meter_id current_time : string) : request :=
  mkRequest GET
    (api_url ++ "/object/meters?sid=" ++ py_str py_repr sid ++ "&id=" ++
     meter_id ++ "&date=" ++ current_time)
    None None None.

(** The state in which the validation of the values raises. *)
Definition too_few_world (electricity_values : list Z) (w : world) : world :=
  with_frame
    (logged (ERROR, "Not enough electricity values received: %s",
             [JList (map JInt electricity_values)]) w)
    (set_error_message not_enough (w_frame w)).


(** The outcome is an answer or a transport error (not a body that fails
    to decode with a plain [ValueError]). *)
Definition answered_or_failed (o : http_outcome) : bool :=
  match o with HttpNotJson _ => false | _ => true end.


(** The result a submission returns for such an outcome. *)
Definition result_of (o : http_outcome) : option json :=
  match o with HttpJson result => Some result | _ => None end.

(** The two requests of [main_submit]. *)
Definition calc_request (py_repr : json -> string) (env : env_vars)
    (p : prepared) (t1 t2 : Z) : request :=
  submission_request py_repr (ev_mosenergo_lk_url env) (p_session_id p)
    (p_session p) main_headers (p_provider_id p) t1 t2 "CalcCharge"
    calc_payload.

Definition save_request (py_repr : json -> string) (env : env_vars)
    (p : prepared) (t1 t2 : Z) : request :=
  submission_request py_repr (ev_mosenergo_lk_url env) (p_session_id p)
    (p_session p) main_headers (p_provider_id p) t1 t2 "SaveIndications"
    save_payload.

(** ** Sample runs *)

(** A peer that answers by the number of requests seen so far. *)
Definition scripted (answers : list http_outcome) (otherwise : http_outcome)
  : list request -> request -> http_outcome :=
  fun history _ => nth (List.length history) answers otherwise.

(** A complete configuration with two recipients. *)
Definition sample_environ (var : string) : option string :=
  if String.eqb var "TELEGRAM_CHAT_ID" then Some "11,22"
  else if String.eqb var "TELEGRAM_BOT_TOKEN" then Some "TOKEN"
  else if String.eqb var "SAURES_API_URL" then Some "https://saures.example"
  else if String.eqb var "MOSENERGO_LK_URL" then Some "https://lk.example"
  else Some "x".

Definition sample_now : string := "2025-01-31T10:00:00".

(** A stand-in for [repr]; the sample runs apply it to no value. *)
Definition sample_repr (v : json) : string := "<repr>".

(** A file system in which the log file of [sample_environ] can be opened
    and no other path can. *)
Definition sample_basic_config (path : string) : option string :=
  if String.eqb path "x" then None
  else Some "[Errno 2] No such file or directory".

Definition saures_login_ok : http_outcome :=
  HttpJson (JDict [("status", JStr "ok");
                   ("data", JDict [("sid", JStr "SID")])]).

Definition saures_login_refused : http_outcome :=
  HttpJson (JDict [("status", JStr "bad");
                   ("errors", JList [JStr "wrong password"])]).

(** A snapshot with one electricity meter carrying [vals]. *)
Definition snapshot_with (vals : list json) : json :=
  JDict [("sensors",
          JList [JDict [("meters",
                         JList [JDict [("type", JDict [("name", JStr "Холодная вода")]);
                                       ("vals", JList [JFloat (S754_finite false 5 (-1))])];
                                JDict [("type", JDict [("name", JStr electricity_label)]);
                                       ("vals", JList vals)]])]])].

Definition meters_ok (vals : list json) : http_outcome :=
  HttpJson (JDict [("status", JStr "ok"); ("data", snapshot_with vals)]).

(** 123.5, 567.75 and 9.0 as binary floats. *)
Definition reading_123_5 : json := JFloat (S754_finite false 247 (-1)).
Definition reading_567_75 : json := JFloat (S754_finite false 2271 (-2)).
Definition reading_2_5 : json := JFloat (S754_finite false 5 (-1)).

Definition mosenergo_login_ok : http_outcome :=
  HttpJson (JDict [("success", JBool true);
                   ("data", JList [JDict [("session", JStr "MS")]])]).

Definition provider_ok : http_outcome :=
  HttpJson (JDict [("success", JBool true);
                   ("data", JList [JDict [("vl_provider", JStr "P7")]])]).

Definition provider_refused : http_outcome :=
  HttpJson (JDict [("success", JBool false); ("error", JStr "no access")]).

Definition submission_ok (text : string) : http_outcome :=
  HttpJson (JDict [("success", JBool true);
                   ("data", JList [JDict [("nm_result", JStr text)]])]).

Definition telegram_ok : http_outcome :=
  HttpJson (JDict [("ok", JBool true)]).

(** A run of the script against scripted answers. *)
Definition sample_run (answers : list http_outcome) : Z * world :=
  run_script (scripted answers telegram_ok) sample_repr sample_environ
    sample_now sample_basic_config.

(** The texts of the notifications of a run, oldest first. *)
Definition notified_texts (w : world) : list (option json) :=
  map text_of (telegram_sends w).

(** The answers of a run that goes well: readings 123.5 and 567.75. *)
Definition setup_answers : list http_outcome :=
  [saures_login_ok; meters_ok [reading_123_5; reading_567_75];
   mosenergo_login_ok; provider_ok].

Definition portal_text : string :=
  "<font color='#ff6347'><b>Sum</b> 10</font>".

(** A state in which both submissions have returned these two answers. *)
Definition submitted_world (calc save : option json) : world :=
  with_frame initial_world (mkFrame calc save false "" None None).

Definition answer_of (o : http_outcome) : option json := result_of o.

(** Every scripted answer of the sample runs is one the notifier handles. *)
Definition all_handled (answers : list http_outcome) : bool :=
  forallb notifier_handles answers.

(** The sample runs, by their answers. *)
Definition refused_login_answers : list http_outcome := [saures_login_refused].

Definition one_reading_answers : list http_outcome :=
  [saures_login_ok; meters_ok [reading_123_5]].

Definition refused_provider_answers : list http_outcome :=
  [saures_login_ok; meters_ok [reading_123_5; reading_567_75];
   mosenergo_login_ok; provider_refused].


Definition markup_answers : list http_outcome :=
  (setup_answers ++ [submission_ok portal_text; submission_ok "<b>saved</b>"])%list.

Definition no_data_answers : list http_outcome :=
  (setup_answers ++ [HttpJson (JDict [("success", JBool true)]);
                     submission_ok "saved"])%list.

Definition list_answer_answers : list http_outcome :=
  (setup_answers ++ [HttpJson (JList [JInt 1]); submission_ok "saved"])%list.

(** The values handed over by the set-up of the sample runs. *)
Definition sample_prepared : prepared :=
  mkPrepared [124; 568] (JStr "MS") 0 (JStr "P7").

(** A snapshot with a water meter only. *)
Definition water_snapshot : json :=
  JDict [("sensors",
          JList [JDict [("meters",
                         JList [JDict [("type", JDict [("name", JStr "Холодная вода")]);
                                       ("vals", JList [reading_2_5])]])]])].

(** A text in which removing [</font>] puts a font tag together. *)
Definition spliced_text : string :=
  "<font color='#ff6347'><b>Sum</b></font><font col</font>or='#ff6347'>".

(** The request [authenticate_mosenergo] issues through its new session. *)
Definition mosenergo_login_request (lk_url login password : string)
    (session : nat) : request :=
  mkRequest POST (lk_url ++ "?action=auth&query=login")
    (Some [("Content-Type", "application/x-www-form-urlencoded");
           ("User-Agent", user_agent)])
    (Some [("login", JStr login); ("psw", JStr password);
           ("vl_device_info", JStr vl_device_info)])
    (Some session).

(** The request [fetch_mosenergo_provider] issues. *)
Definition provider_request (py_repr : json -> string) (lk_url : string)
    (session_id : json) (session : nat) (headers : list (string * string))
  : request :=
  mkRequest POST
    (lk_url ++ "?action=sql&query=LSList&session=" ++ py_str py_repr session_id)
    (Some headers) None (Some session).

(** The exceptions the four fatal helpers let through: everything they
    catch becomes [SystemExit 1], and what they do not catch is an error
    of the shape of the answer. *)
Definition exits_or_shape_error (e : exn) : Prop :=
  e = SystemExit 1 \/
  exists msg, e = PyExc TypeError msg \/ e = PyExc AttributeError msg \/
              e = PyExc IndexError msg.

(** Frame and closed sessions are the same. *)
Definition same_frame (w w' : world) : Prop :=
  w_frame w' = w_frame w /\ w_closed w' = w_closed w.

(** The mandatory variables that are unset or empty, in the order of the
    list. *)
Definition missing_vars (environ : string -> option string) : list string :=
  filter (fun var => negb (PyStr.nonempty (env_get environ var "")))
    required_env_vars.

(** The exceptions [send_telegram_message] lets through. *)
Definition notifier_error (e : exn) : Prop :=
  exists msg, e = PyExc ValueError msg \/ e = PyExc AttributeError msg.

(** The character [c] does not occur in [s]. *)
Fixpoint free_of (c : ascii) (s : string) : bool :=
  match s with
  | EmptyString => true
  | String a s' => negb (Ascii.eqb a c) && free_of c s'
  end.

(** The number of occurrences of [c] in [s]. *)
Fixpoint count_char (c : ascii) (s : string) : nat :=
  match s with
  | EmptyString => O
  | String a s' => (if Ascii.eqb a c then 1 else 0) + count_char c s'
  end.

(** The exceptions [round] raises on a value that is not a finite number. *)
Definition rounding_error (e : exn) : Prop :=
  exists msg, e = PyExc TypeError msg \/ e = PyExc ValueError msg \/
              e = PyExc OverflowError msg.

(** A Mosenergosbyt login answered with success and an empty record list. *)
Definition empty_login_answers : list http_outcome :=
  [saures_login_ok; meters_ok [reading_123_5; reading_567_75];
   HttpJson (JDict [("success", JBool true); ("data", JList [])])].

(** A state with a message bound, as the [finally] clause finds it. *)
Definition reporting_world (text : string) : world :=
  with_frame initial_world (mkFrame None None false "" (Some text) None).

(** The log records [send_telegram_message] writes: one for each call it
    returns from. *)
Definition notifier_record (l : log_record) : bool :=
  match l with
  | (_, format, _) =>
      String.eqb format "Telegram message sent successfully to chat_id %s" ||
      String.eqb format "Failed to send Telegram message: %s" ||
      String.eqb format "Error sending Telegram message: %s"
  end.

(** Where the number [v] lies half-way between two integers, [z] is the
    even one of the two. *)
Definition tie_to_even (v : json) (z : Z) : Prop :=
  match v with
  | JFloat (S754_finite s m e) =>
      2 * Z.abs (z * float_den e - float_num s m e) = float_den e ->
      Z.even z = true
  | _ => True
  end.

(** * Properties *)

(** ** Dictionaries *)

Lemma lookup_setitem_same (k : string) (v : json) (d : pydict) :
  Py.lookup k (Py.setitem k v d) = Some v.
Proof.
  induction d as [|[k' v'] d IH]; simpl.
  - now rewrite String.eqb_refl.
  - destruct (String.eqb k' k) eqn:E; simpl; rewrite E; auto.
Qed.

Lemma lookup_setitem_other (k k0 : string) (v : json) (d : pydict) :
  k0 <> k -> Py.lookup k (Py.setitem k0 v d) = Py.lookup k d.
Proof.
  intros Hne. induction d as [|[k' v'] d IH]; simpl.
  - destruct (String.eqb k0 k) eqn:E; auto.
    apply String.eqb_eq in E. contradiction.
  - destruct (String.eqb k' k0) eqn:E0; simpl.
    + apply String.eqb_eq in E0. subst k'.
      destruct (String.eqb k0 k) eqn:E; auto.
      apply String.eqb_eq in E. contradiction.
    + destruct (String.eqb k' k); auto.
Qed.

Lemma has_key_setitem (k k0 : string) (v : json) (d : pydict) :
  Py.has_key k d = true -> Py.has_key k (Py.setitem k0 v d) = true.
Proof.
  unfold Py.has_key. intros H.
  destruct (String.eqb k0 k) eqn:E.
  - apply String.eqb_eq in E. subst. now rewrite lookup_setitem_same.
  - apply String.eqb_neq in E. now rewrite lookup_setitem_other.
Qed.

Lemma has_key_update (k : string) (u d : pydict) :
  Py.has_key k d = true -> Py.has_key k (Py.update u d) = true.
Proof.
  unfold Py.update. revert d.
  induction u as [|[k0 v0] u IH]; simpl; intros d H; auto.
  apply IH. now apply has_key_setitem.
Qed.

(** ** Submission: [send_mosenergo_data] *)

Section Submission.

Variable transport : list request -> request -> http_outcome.
Variable py_repr : json -> string.

Ltac run_send :=
  unfold send_mosenergo_data, submission_request, submitted_fields,
    submission_result, bind, lift, try_except, http,
    read_dict, dict_update, logging, logged, sent, ret;
  cbn [values_at nth_error]; cbv beta iota.

(** A call with two values at hand: the request, the result, the heap. *)
Lemma send_mosenergo_data_run lk_url session_id session headers provider_id
    t1 t2 rest query_type payload_base w :
  let req := submission_request py_repr lk_url session_id session headers
               provider_id t1 t2 query_type (w_heap w payload_base) in
  let out := send_mosenergo_data transport py_repr lk_url session_id session
               headers provider_id (t1 :: t2 :: rest) query_type
               payload_base w in
  fst out = submission_result (transport (w_sent w) req) /\
  w_sent (snd out) = req :: w_sent w /\
  w_heap (snd out) =
    (fun l => if Nat.eqb l payload_base
              then Py.update (submitted_fields query_type provider_id t1 t2)
                     (w_heap w payload_base)
              else w_heap w l) /\
  w_frame (snd out) = w_frame w /\
  w_closed (snd out) = w_closed w /\
  w_sessions (snd out) = w_sessions w /\
  w_next (snd out) = w_next w.
Proof.
  run_send.
  destruct (String.eqb query_type "CalcCharge"); cbn [values_at nth_error];
    cbv beta iota; cbn [w_heap w_sent]; rewrite Nat.eqb_refl;
    match goal with
    | |- context [transport ?h ?r] => destruct (transport h r) as [msg [t|]|msg|v]
    end; cbn; repeat split; reflexivity.
Qed.

Lemma lookup_submitted_fields query_type provider_id t1 t2 base :
  let d := Py.update (submitted_fields query_type provider_id t1 t2) base in
  Py.lookup "vl_provider" d = Some provider_id /\
  Py.lookup "vl_t1" d = Some (JInt t1) /\
  Py.lookup "vl_t2" d = Some (JInt t2) /\
  (query_type = "CalcCharge" ->
   Py.lookup "proxyquery" d = Some (JStr "CalcCharge")).
Proof.
  unfold submitted_fields, Py.update.
  destruct (String.eqb query_type "CalcCharge") eqn:E; cbn [fold_left fst snd].
  - repeat split; intros;
      repeat (rewrite lookup_setitem_other by discriminate);
      apply lookup_setitem_same.
  - repeat split; intros;
      try (subst query_type; discriminate E);
      repeat (rewrite lookup_setitem_other by discriminate);
      apply lookup_setitem_same.
Qed.

(** C9 (as amended): a call of [send_mosenergo_data] that is given at
    least two electricity values updates the caller's dictionary in
    place.  Whatever the transport does with the request (a decoded
    answer, a transport error, an undecodable body), the dictionary
    behind [payload_base] afterwards holds [vl_provider], [vl_t1] and
    [vl_t2] (and [proxyquery] for CalcCharge), keeps every key it had,
    and no other dictionary is touched. *)
Theorem send_mosenergo_data_mutates_payload lk_url session_id session headers
    provider_id electricity_values query_type payload_base w :
  (2 <= List.length electricity_values)%nat ->
  let w' := snd (send_mosenergo_data transport py_repr lk_url session_id
                   session headers provider_id electricity_values query_type
                   payload_base w) in
  let d' := w_heap w' payload_base in
  Py.lookup "vl_provider" d' = Some provider_id /\
  Py.lookup "vl_t1" d' = option_map JInt (nth_error electricity_values 0) /\
  Py.lookup "vl_t2" d' = option_map JInt (nth_error electricity_values 1) /\
  (query_type = "CalcCharge" ->
   Py.lookup "proxyquery" d' = Some (JStr "CalcCharge")) /\
  (forall k, Py.has_key k (w_heap w payload_base) = true ->
             Py.has_key k d' = true) /\
  (forall l, l <> payload_base -> w_heap w' l = w_heap w l).
Proof.
  intros Hlen.
  destruct electricity_values as [|t1 [|t2 rest]]; cbn in Hlen; try lia.
  intros w' d'.
  destruct (send_mosenergo_data_run lk_url session_id session headers
              provider_id t1 t2 rest query_type payload_base w)
    as (_ & _ & Hheap & _).
  fold w' in Hheap. subst d'. rewrite Hheap. rewrite Nat.eqb_refl.
  destruct (lookup_submitted_fields query_type provider_id t1 t2
              (w_heap w payload_base)) as (H1 & H2 & H3 & H4).
  repeat split; auto.
  - intros k Hk. now apply has_key_update.
  - intros l Hl. apply Nat.eqb_neq in Hl. now rewrite Hl.
Qed.

(** C10: a [query_type] other than the exact string 'CalcCharge' is
    handled as SaveIndications.  The call returns what the call with
    'SaveIndications' returns and leaves the same requests sent and the
    same dictionaries; with two values at hand it issues the
    SaveIndications request, and its result is decided by the transport
    alone, never by the operation name. *)
Theorem send_mosenergo_data_unknown_kind lk_url session_id session headers
    provider_id electricity_values query_type payload_base w :
  query_type <> "CalcCharge" ->
  let out := send_mosenergo_data transport py_repr lk_url session_id session
               headers provider_id electricity_values query_type
               payload_base w in
  let ref := send_mosenergo_data transport py_repr lk_url session_id session
               headers provider_id electricity_values "SaveIndications"
               payload_base w in
  fst out = fst ref /\
  w_sent (snd out) = w_sent (snd ref) /\
  (forall l, w_heap (snd out) l = w_heap (snd ref) l) /\
  (forall t1 t2 rest, electricity_values = t1 :: t2 :: rest ->
     let req := submission_request py_repr lk_url session_id session headers
                  provider_id t1 t2 "SaveIndications"
                  (w_heap w payload_base) in
     w_sent (snd out) = req :: w_sent w /\
     fst out = submission_result (transport (w_sent w) req)).
Proof.
  intros Hne. apply String.eqb_neq in Hne.
  assert (Hreq : forall t1 t2 base,
             submission_request py_repr lk_url session_id session headers
               provider_id t1 t2 query_type base
             = submission_request py_repr lk_url session_id session headers
                 provider_id t1 t2 "SaveIndications" base).
  { intros. unfold submission_request, submitted_fields. rewrite Hne.
    reflexivity. }
  destruct electricity_values as [|t1 [|t2 rest]].
  - cbv zeta. unfold send_mosenergo_data. rewrite Hne.
    repeat split; try reflexivity; intros; discriminate.
  - cbv zeta. unfold send_mosenergo_data. rewrite Hne.
    repeat split; try reflexivity; intros; discriminate.
  - intros out ref.
    destruct (send_mosenergo_data_run lk_url session_id session headers
                provider_id t1 t2 rest query_type payload_base w)
      as (R1 & S1 & H1 & _).
    destruct (send_mosenergo_data_run lk_url session_id session headers
                provider_id t1 t2 rest "SaveIndications" payload_base w)
      as (R2 & S2 & H2 & _).
    fold out in R1, S1, H1. fold ref in R2, S2, H2.
    rewrite Hreq in R1, S1.
    repeat split.
    + congruence.
    + congruence.
    + intros l. rewrite H1, H2. unfold submitted_fields. rewrite Hne.
      reflexivity.
    + injection H as -> -> ->. exact S1.
    + injection H as -> -> ->. exact R1.
Qed.

End Submission.

(** ** Markup normalization: [clean_markup] *)

Section Markup.

Lemma startswith_lt_false (r s : string) :
  no_lt s = true -> s <> EmptyString ->
  PyStr.startswith (String "<" r) s = false.
Proof.
  destruct s as [|c s]; [congruence|].
  cbn [PyStr.startswith no_lt]. intros H _.
  apply andb_prop in H. destruct H as [H _].
  apply negb_true_iff in H. rewrite Ascii.eqb_sym, H. reflexivity.
Qed.

(** A scan for a tag copies text that holds no ["<"]. *)
Lemma replace_scan_text (r new s rest : string) :
  no_lt s = true ->
  PyStr.replace_scan (String "<" r) new (s ++ rest) 0 =
  s ++ PyStr.replace_scan (String "<" r) new rest 0.
Proof.
  induction s as [|c s IH]; intros H; [reflexivity|].
  cbn [no_lt] in H. apply andb_prop in H. destruct H as [Hc Hs].
  apply negb_true_iff in Hc.
  cbn [String.append PyStr.replace_scan PyStr.startswith].
  rewrite Ascii.eqb_sym, Hc. cbn [andb]. now rewrite IH.
Qed.

Lemma no_lt_app (s t : string) :
  no_lt (s ++ t) = no_lt s && no_lt t.
Proof.
  induction s as [|c s IH]; cbn [String.append no_lt]; [reflexivity|].
  now rewrite IH, andb_assoc.
Qed.

(** A text without ["<"] holds none of the tags. *)
Lemma contains_lt_false (r s : string) :
  no_lt s = true -> PyStr.contains (String "<" r) s = false.
Proof.
  induction s as [|c s IH]; intros H; [reflexivity|].
  cbn [PyStr.contains].
  rewrite startswith_lt_false by (auto; discriminate).
  cbn [no_lt] in H. apply andb_prop in H. now apply IH.
Qed.

Ltac scan_tokens ts :=
  let IH := fresh "IH" in
  let H := fresh "H" in
  let Ht := fresh "Ht" in
  let Hts := fresh "Hts" in
  induction ts as [|t ts IH]; intros H; [reflexivity|];
  cbn [forallb] in H; apply andb_prop in H; destruct H as [Ht Hts];
  specialize (IH Hts);
  destruct t; cbn [render plain] in *;
  [ rewrite replace_scan_text by assumption; now rewrite IH
  | cbn; now rewrite <- IH .. ].

Lemma strip_font_open (ts : list markup) :
  forallb plain ts = true ->
  PyStr.replace font_open ""
    (render font_open font_close bold_open bold_close ts)
  = render "" font_close bold_open bold_close ts.
Proof. unfold PyStr.replace, font_open. scan_tokens ts. Qed.

Lemma strip_font_close (ts : list markup) :
  forallb plain ts = true ->
  PyStr.replace font_close "" (render "" font_close bold_open bold_close ts)
  = render "" "" bold_open bold_close ts.
Proof. unfold PyStr.replace, font_close. scan_tokens ts. Qed.

Lemma mark_bold_open (ts : list markup) :
  forallb plain ts = true ->
  PyStr.replace bold_open "**" (render "" "" bold_open bold_close ts)
  = render "" "" "**" bold_close ts.
Proof. unfold PyStr.replace, bold_open. scan_tokens ts. Qed.

Lemma mark_bold_close (ts : list markup) :
  forallb plain ts = true ->
  PyStr.replace bold_close "**" (render "" "" "**" bold_close ts)
  = render "" "" "**" "**" ts.
Proof. unfold PyStr.replace, bold_close. scan_tokens ts. Qed.

(** The four replacements turn the portal's text into its Markdown form. *)
Lemma clean_markup_html (ts : list markup) :
  forallb plain ts = true -> clean_markup (html ts) = markdown ts.
Proof.
  intros H. unfold clean_markup, html, markdown.
  now rewrite strip_font_open, strip_font_close, mark_bold_open,
    mark_bold_close.
Qed.

Lemma no_lt_markdown (ts : list markup) :
  forallb plain ts = true -> no_lt (markdown ts) = true.
Proof.
  unfold markdown.
  induction ts as [|t ts IH]; intros H; [reflexivity|].
  cbn [forallb] in H. apply andb_prop in H. destruct H as [Ht Hts].
  specialize (IH Hts).
  destruct t; cbn [render plain] in *; rewrite no_lt_app, IH;
    try reflexivity.
  now rewrite Ht.
Qed.

End Markup.

(** ** Outcome classification: the end of the [try] block *)

Section Classification.

Variable py_repr : json -> string.

Lemma get_object (d : pydict) (k : string) (default : json) :
  Py.get (JDict d) k default =
  Ok (match Py.lookup k d with Some x => x | None => default end).
Proof. reflexivity. Qed.

Lemma get_raises (v : json) (k : string) (default : json) (e : exn) :
  Py.get v k default = Raise e ->
  is_Exception e = true /\ forall d, v <> JDict d.
Proof.
  destruct v; cbn; intros H; inversion H; split; try reflexivity;
    intros; discriminate.
Qed.

Lemma indicator_truthy (r : option json) :
  indicator r = true -> opt_truthy r = true.
Proof.
  destruct r as [[| | | | | |d]|]; cbn; try discriminate.
  destruct d; [discriminate|reflexivity].
Qed.

(** The condition of the [if] holds exactly when both indicators do. *)
Lemma both_succeeded_true_iff (calc save : option json) :
  both_succeeded calc save = Ok true <->
  indicator calc = true /\ indicator save = true.
Proof.
  unfold both_succeeded. split.
  - destruct (opt_truthy calc) eqn:Tc; cbn [negb]; [|discriminate].
    destruct (opt_truthy save) eqn:Ts; cbn [negb]; [|discriminate].
    destruct calc as [[| | | | | |dc]|]; try discriminate.
    cbn [opt_json res_bind]. rewrite get_object. cbn [res_bind].
    destruct (Py.lookup "success" dc) as [vc|] eqn:Lc;
      [|discriminate].
    destruct (Py.truthy vc) eqn:Tvc; cbn [negb]; [|discriminate].
    destruct save as [[| | | | | |ds]|]; try discriminate.
    cbn [opt_json res_bind]. rewrite get_object. cbn [res_bind].
    intros H. injection H as H. cbn [indicator]. rewrite Lc, Tvc.
    split; [reflexivity|].
    destruct (Py.lookup "success" ds); [assumption|discriminate].
  - intros [Hc Hs].
    rewrite (indicator_truthy _ Hc), (indicator_truthy _ Hs). cbn [negb].
    destruct calc as [[| | | | | |dc]|]; try discriminate.
    destruct save as [[| | | | | |ds]|]; try discriminate.
    cbn [indicator] in Hc, Hs.
    cbn [opt_json]. rewrite !get_object. cbn [res_bind].
    destruct (Py.lookup "success" dc); [|discriminate].
    rewrite Hc. cbn [negb].
    destruct (Py.lookup "success" ds); [|discriminate].
    now rewrite Hs.
Qed.

(** On results that are absent or objects the condition never raises. *)
Lemma both_succeeded_objects (calc save : option json) :
  absent_or_object calc = true -> absent_or_object save = true ->
  both_succeeded calc save = Ok (indicator calc && indicator save).
Proof.
  intros Hc Hs. unfold both_succeeded.
  destruct calc as [[| | | | | |dc]|]; try discriminate;
    [|reflexivity].
  destruct save as [[| | | | | |ds]|]; try discriminate.
  - cbn [opt_truthy opt_json indicator].
    destruct (Py.truthy (JDict dc)) eqn:Tc; cbn [negb].
    + destruct (Py.truthy (JDict ds)) eqn:Ts; cbn [negb].
      * rewrite !get_object. cbn [res_bind].
        destruct (Py.lookup "success" dc) as [vc|]; cbn [Py.truthy negb];
          [|reflexivity].
        destruct (Py.truthy vc); cbn [negb andb]; [|reflexivity].
        destruct (Py.lookup "success" ds); reflexivity.
      * destruct ds; [|discriminate]. cbn [Py.lookup].
        now rewrite andb_false_r.
    + destruct dc; [|discriminate]. reflexivity.
  - cbn [opt_truthy opt_json indicator].
    destruct (Py.truthy (JDict dc)) eqn:Tc; cbn [negb].
    + now rewrite andb_false_r.
    + destruct dc; [|discriminate]. reflexivity.
Qed.

Lemma both_succeeded_raises (calc save : option json) (e : exn) :
  both_succeeded calc save = Raise e -> is_Exception e = true.
Proof.
  unfold both_succeeded.
  destruct (opt_truthy calc); cbn [negb]; [|discriminate].
  destruct (opt_truthy save); cbn [negb]; [|discriminate].
  destruct (Py.get (opt_json calc) "success" JNull) as [c|e'] eqn:G;
    cbn [res_bind].
  - destruct (Py.truthy c); cbn [negb]; [|discriminate].
    destruct (Py.get (opt_json save) "success" JNull) as [s|e''] eqn:G';
      cbn [res_bind]; [discriminate|].
    intros H. injection H as <-. now apply get_raises in G'.
  - intros H. injection H as <-. now apply get_raises in G.
Qed.

Lemma nm_result_raises (r : option json) (e : exn) :
  nm_result r = Raise e -> is_Exception e = true.
Proof.
  unfold nm_result.
  destruct (Py.getitem_str (opt_json r) "data") as [d|e1] eqn:G1;
    cbn [res_bind].
  - destruct (Py.getitem_0 d) as [d0|e2] eqn:G2; cbn [res_bind].
    + intros H. now apply get_raises in H.
    + intros H. injection H as <-.
      destruct d as [| | | | [|c s] | [|x l] | d]; cbn in G2;
        inversion G2; reflexivity.
  - intros H. injection H as <-.
    destruct (opt_json r) as [| | | | | |d]; cbn in G1;
      try (inversion G1; reflexivity).
    destruct (Py.lookup "data" d); inversion G1; reflexivity.
Qed.

(** [nm_result] returns exactly on the answers that have a first record,
    and returns the result message of that record. *)
Lemma nm_result_record (r : option json) (record : pydict) :
  first_record r = Some record -> nm_result r = Ok (result_message record).
Proof.
  unfold first_record, nm_result.
  destruct r as [[| | | | | |d]|]; try discriminate.
  cbn [opt_json Py.getitem_str].
  destruct (Py.lookup "data" d) as [[| | | | |[|[| | | | | |d0] l]|]|];
    try discriminate.
  intros H. injection H as <-. reflexivity.
Qed.

Lemma nm_result_no_record (r : option json) :
  first_record r = None -> exists e, nm_result r = Raise e.
Proof.
  unfold first_record, nm_result.
  destruct r as [[| | | | | |d]|]; cbn [opt_json Py.getitem_str res_bind];
    try (intros _; eexists; reflexivity).
  destruct (Py.lookup "data" d) as [[| | | |[|c t]|[|[| | | | | |d0] l]|]|];
    cbn [res_bind Py.getitem_0 Py.get];
    try discriminate; intros _; eexists; reflexivity.
Qed.

Lemma nm_result_returns (r : option json) (v : json) :
  nm_result r = Ok v <->
  exists record, first_record r = Some record /\ v = result_message record.
Proof.
  split.
  - intros H. destruct (first_record r) as [record|] eqn:F.
    + rewrite (nm_result_record r record F) in H. injection H as <-.
      exists record. split; reflexivity.
    + destruct (nm_result_no_record r F) as (e & He).
      rewrite He in H. discriminate H.
  - intros (record & F & ->). now apply nm_result_record.
Qed.

(** The shape [readable] is what the success branch of [main] needs: both
    result messages are read, and the CalcCharge one is a [str], which
    [replace] can be called on. *)
Lemma readable_iff (calc save : option json) :
  readable calc save = true <->
  exists text save_result,
    nm_result calc = Ok (JStr text) /\ nm_result save = Ok save_result.
Proof.
  unfold readable. split.
  - destruct (first_record calc) as [rc|] eqn:Fc; [|discriminate].
    destruct (first_record save) as [rs|] eqn:Fs; [|discriminate].
    intros H. rewrite (nm_result_record calc rc Fc).
    rewrite (nm_result_record save rs Fs).
    unfold absent_or_text in H. unfold result_message.
    destruct (Py.lookup "nm_result" rc) as [[| | | |text| |]|];
      try discriminate H.
    + exists text. eexists. split; reflexivity.
    + eexists. eexists. split; reflexivity.
  - intros (text & sres & Hc & Hs).
    apply nm_result_returns in Hc. destruct Hc as (rc & -> & Hc).
    apply nm_result_returns in Hs. destruct Hs as (rs & -> & _).
    unfold absent_or_text. unfold result_message in Hc.
    destruct (Py.lookup "nm_result" rc) as [v|]; [|reflexivity].
    now subst v.
Qed.

Lemma as_replaceable_raises (v : json) (e : exn) :
  as_replaceable v = Raise e -> is_Exception e = true.
Proof. destruct v; cbn; intros H; inversion H; reflexivity. Qed.

Ltac run_classify :=
  unfold main_classify, bind, get_frame, set_frame, lift;
  cbv beta iota.

Lemma classify_no (w : world) :
  both_succeeded (calc_response (w_frame w)) (save_response (w_frame w))
  = Ok false ->
  main_classify py_repr w =
  (Ok tt,
   with_frame w
     (set_message generic_failure_text
        (set_error_message generic_error (set_success false (w_frame w))))).
Proof. intros H. run_classify. rewrite H. reflexivity. Qed.

Lemma classify_raise (w : world) (e : exn) :
  both_succeeded (calc_response (w_frame w)) (save_response (w_frame w))
  = Raise e ->
  main_classify py_repr w = (Raise e, w).
Proof. intros H. run_classify. rewrite H. reflexivity. Qed.

Lemma classify_yes (w : world) (text : string) (save_result : json) :
  both_succeeded (calc_response (w_frame w)) (save_response (w_frame w))
  = Ok true ->
  nm_result (calc_response (w_frame w)) = Ok (JStr text) ->
  nm_result (save_response (w_frame w)) = Ok save_result ->
  main_classify py_repr w =
  (Ok tt,
   with_frame w
     (set_message
        (success_header ++ clean_markup text ++ nl ++
         py_str py_repr save_result)
        (set_success true (w_frame w)))).
Proof.
  intros H Hc Hs. run_classify. rewrite H. cbn [w_frame set_success
    calc_response save_response]. rewrite Hc. cbn [as_replaceable].
  rewrite Hs. reflexivity.
Qed.

Lemma classify_unreadable (w : world) :
  both_succeeded (calc_response (w_frame w)) (save_response (w_frame w))
  = Ok true ->
  readable (calc_response (w_frame w)) (save_response (w_frame w)) = false ->
  exists e, is_Exception e = true /\
    main_classify py_repr w =
    (Raise e, with_frame w (set_success true (w_frame w))).
Proof.
  intros H Hr. run_classify. rewrite H.
  destruct (nm_result (calc_response (w_frame w))) as [c|e] eqn:Hc.
  - destruct (as_replaceable c) as [text|e] eqn:Ht.
    + destruct c; try discriminate Ht.
      destruct (nm_result (save_response (w_frame w))) as [sres|e] eqn:Hs.
      { assert (R : readable (calc_response (w_frame w))
                      (save_response (w_frame w)) = true).
        { apply readable_iff. eexists. eexists. split; eassumption. }
        rewrite R in Hr. discriminate Hr. }
      exists e. split; [now apply nm_result_raises in Hs|reflexivity].
    + exists e. split; [now apply as_replaceable_raises in Ht|reflexivity].
  - exists e. split; [now apply nm_result_raises in Hc|reflexivity].
Qed.

(** What the clause [except Exception] leaves behind. *)
Lemma main_except_run (e : exn) (w : world) :
  is_Exception e = true ->
  exists h, main_except e = Some h /\
    h w =
    (Ok tt,
     mkWorld (w_sent w)
       ((ERROR, "Unexpected error in script execution: %s",
         [JStr (exn_str e)]) :: w_log w)
       (w_heap w) (w_next w) (w_sessions w) (w_closed w)
       (set_message (unexpected_text e)
          (set_error_message (exn_str e) (set_success false (w_frame w))))).
Proof.
  intros H. unfold main_except. rewrite H. eexists. split; reflexivity.
Qed.

(** C2 (as amended): the run is classified successful exactly when both
    submission results are present with a true success indicator and
    have the shape from which the result messages are read: each is an
    object whose ['data'] is a list with an object as its first element,
    and the ['nm_result'] of the CalcCharge one is missing or a string;
    when each result is absent or a JSON object and the two indicators
    are not both true, the outcome is a failure whose notification text
    is the generic 'check logs' message.  [w] is the state once both
    submissions have returned. *)
Theorem outcome_classification (w : world) :
  let calc := calc_response (w_frame w) in
  let save := save_response (w_frame w) in
  let out := try_except (main_classify py_repr) main_except w in
  let f := w_frame (snd out) in
  fst out = Ok tt /\
  (success f = true <->
   indicator calc = true /\ indicator save = true /\
   readable calc save = true) /\
  (absent_or_object calc = true -> absent_or_object save = true ->
   indicator calc && indicator save = false ->
   success f = false /\ message f = Some generic_failure_text).
Proof.
  intros calc save. unfold try_except.
  assert (Iff : both_succeeded calc save = Ok true <->
                indicator calc = true /\ indicator save = true)
    by apply both_succeeded_true_iff.
  destruct (both_succeeded calc save) as [[|]|e] eqn:B.
  - (* the condition holds *)
    destruct (proj1 Iff eq_refl) as [Ic Is].
    destruct (readable calc save) eqn:R.
    + destruct (proj1 (readable_iff calc save) R) as (text & sres & Hc & Hs).
      rewrite (classify_yes w text sres B Hc Hs). cbn.
      split; [reflexivity|]. split.
      * split; [intros _; auto|reflexivity].
      * intros _ _ Hn. rewrite Ic, Is in Hn. discriminate Hn.
    + destruct (classify_unreadable w B R) as (e & He & ->).
      destruct (main_except_run e
                  (with_frame w (set_success true (w_frame w))) He)
        as (h & -> & ->). cbn.
      split; [reflexivity|]. split.
      * split; [discriminate|]. intros (_ & _ & ?). discriminate.
      * intros _ _ Hn. rewrite Ic, Is in Hn. discriminate Hn.
  - (* the condition fails *)
    rewrite (classify_no w B). cbn.
    split; [reflexivity|]. split.
    + split; [discriminate|]. intros (Ic & Is & _).
      discriminate (proj2 Iff (conj Ic Is)).
    + auto.
  - (* the condition raises *)
    rewrite (classify_raise w e B).
    destruct (main_except_run e w (both_succeeded_raises _ _ _ B))
      as (h & -> & ->). cbn.
    split; [reflexivity|]. split.
    + split; [discriminate|]. intros (Ic & Is & _).
      discriminate (proj2 Iff (conj Ic Is)).
    + intros Hc Hs. rewrite (both_succeeded_objects _ _ Hc Hs) in B.
      discriminate B.
Qed.

(** C4 (as amended): on a successful run the notification embeds the
    CalcCharge result text with the font wrapper tags stripped and the
    bold tags turned into Markdown bold, whenever that text is made of
    tag-free plain text (no ["<"]) and the four tags: the embedded text
    is the same span with the wrapper dropped and [**] for each bold
    tag, and holds none of the four tags. *)
Theorem success_message_normalizes_calc_markup (w : world)
    (ts : list markup) (save_result : json) :
  both_succeeded (calc_response (w_frame w)) (save_response (w_frame w))
  = Ok true ->
  nm_result (calc_response (w_frame w)) = Ok (JStr (html ts)) ->
  forallb plain ts = true ->
  nm_result (save_response (w_frame w)) = Ok save_result ->
  let out := main_classify py_repr w in
  fst out = Ok tt /\
  success (w_frame (snd out)) = true /\
  message (w_frame (snd out)) =
    Some (success_header ++ markdown ts ++ nl ++ py_str py_repr save_result) /\
  PyStr.contains font_open (markdown ts) = false /\
  PyStr.contains font_close (markdown ts) = false /\
  PyStr.contains bold_open (markdown ts) = false /\
  PyStr.contains bold_close (markdown ts) = false.
Proof.
  intros B Hc Hp Hs.
  rewrite (classify_yes w (html ts) save_result B Hc Hs).
  rewrite (clean_markup_html ts Hp).
  pose proof (no_lt_markdown ts Hp) as Hn.
  cbn [fst snd with_frame w_frame set_message set_success success message].
  repeat split; now apply contains_lt_false.
Qed.

End Classification.

(** ** Extraction of the readings: [get_electricity_vals] *)

Section Extraction.

Lemma round_half_even_nearest (m : positive) (e : Z) :
  2 * Z.abs (Py.round_half_even m e * float_den e - Z.pos m * 2 ^ Z.max 0 e)
  <= float_den e.
Proof.
  unfold Py.round_half_even, float_den.
  destruct (0 <=? e) eqn:E.
  - apply Z.leb_le in E.
    rewrite (Z.max_l 0 (- e)) by lia. rewrite (Z.max_r 0 e) by lia.
    change (2 ^ 0) with 1. rewrite Z.mul_1_r, Z.sub_diag. cbn. lia.
  - apply Z.leb_gt in E.
    rewrite (Z.max_r 0 (- e)) by lia. rewrite (Z.max_l 0 e) by lia.
    change (2 ^ 0) with 1. rewrite Z.mul_1_r.
    set (d := 2 ^ (- e)).
    assert (Hd : 0 < d) by (apply Z.pow_pos_nonneg; lia).
    pose proof (Z.div_mod (Z.pos m) d ltac:(lia)) as Hdm.
    pose proof (Z.mod_pos_bound (Z.pos m) d Hd) as Hr.
    set (q := Z.pos m / d) in *. set (r := Z.pos m mod d) in *.
    assert (Down : 2 * r <= d -> 2 * Z.abs (q * d - Z.pos m) <= d).
    { intros. replace (q * d - Z.pos m) with (- r) by lia.
      rewrite Z.abs_opp, Z.abs_eq by lia. lia. }
    assert (Up : d <= 2 * r -> 2 * Z.abs ((q + 1) * d - Z.pos m) <= d).
    { intros. replace ((q + 1) * d - Z.pos m) with (d - r) by lia.
      rewrite Z.abs_eq by lia. lia. }
    destruct (Z.compare_spec (2 * r) d) as [C|C|C].
    + destruct (Z.even q); [apply Down|apply Up]; lia.
    + apply Down. lia.
    + apply Up. lia.
Qed.

(** [round] of a number is a nearest integer. *)
Lemma round_number (v : json) :
  is_number v = true -> exists z, Py.round v = Ok z /\ nearest_integer v z.
Proof.
  destruct v as [| |n|[s|s| |s m e]| | |]; try discriminate; intros _.
  - exists n. split; reflexivity.
  - exists 0. split; reflexivity.
  - eexists. split; [reflexivity|].
    cbn [nearest_integer]. unfold float_num.
    pose proof (round_half_even_nearest m e) as H.
    destruct s; [|now rewrite Z.mul_1_l].
    replace (- Py.round_half_even m e * float_den e -
             -1 * Z.pos m * 2 ^ Z.max 0 e)
      with (- (Py.round_half_even m e * float_den e -
               Z.pos m * 2 ^ Z.max 0 e)) by ring.
    now rewrite Z.abs_opp.
Qed.

(** The comprehension rounds every reading, in order. *)
Lemma round_all_numbers (vals : list json) :
  forallb is_number vals = true ->
  exists zs, round_all vals = Ok zs /\ Forall2 nearest_integer vals zs.
Proof.
  induction vals as [|v vals IH]; intros H.
  - exists []. split; [reflexivity|constructor].
  - cbn [forallb] in H. apply andb_prop in H. destruct H as [Hv Hvs].
    destruct (round_number v Hv) as (z & Hz & Nz).
    destruct (IH Hvs) as (zs & Hzs & Nzs).
    exists (z :: zs). cbn [round_all]. rewrite Hz, Hzs.
    split; [reflexivity|now constructor].
Qed.

(** At distance one half, [round_half_even] is even. *)
Lemma round_half_even_tie (m : positive) (e : Z) :
  2 * Z.abs (Py.round_half_even m e * float_den e - Z.pos m * 2 ^ Z.max 0 e)
  = float_den e ->
  Z.even (Py.round_half_even m e) = true.
Proof.
  unfold Py.round_half_even, float_den.
  destruct (0 <=? e) eqn:E.
  - apply Z.leb_le in E.
    rewrite (Z.max_l 0 (- e)) by lia. rewrite (Z.max_r 0 e) by lia.
    change (2 ^ 0) with 1. lia.
  - apply Z.leb_gt in E.
    rewrite (Z.max_r 0 (- e)) by lia. rewrite (Z.max_l 0 e) by lia.
    change (2 ^ 0) with 1. rewrite Z.mul_1_r.
    set (d := 2 ^ (- e)).
    assert (Hd : 0 < d) by (apply Z.pow_pos_nonneg; lia).
    pose proof (Z.div_mod (Z.pos m) d ltac:(lia)) as Hdm.
    pose proof (Z.mod_pos_bound (Z.pos m) d Hd) as Hr.
    set (q := Z.pos m / d) in *. set (r := Z.pos m mod d) in *.
    assert (Down : q * d - Z.pos m = - r) by lia.
    assert (Up : (q + 1) * d - Z.pos m = d - r) by lia.
    destruct (Z.compare_spec (2 * r) d) as [C|C|C].
    + intros _. destruct (Z.even q) eqn:Q; [exact Q|].
      rewrite Z.even_add, Q. reflexivity.
    + rewrite Down, Z.abs_opp, Z.abs_eq by lia. lia.
    + rewrite Up, Z.abs_eq by lia. lia.
Qed.

(** [round] sends a tie to the even neighbour. *)
Lemma round_tie (v : json) (z : Z) :
  Py.round v = Ok z -> tie_to_even v z.
Proof.
  destruct v as [| | |[s|s| |s m e]| | |]; cbn [tie_to_even]; try exact (fun _ => I).
  cbn [Py.round]. intros H. injection H as <-.
  unfold float_num. destruct s.
  - replace (- Py.round_half_even m e * float_den e -
             -1 * Z.pos m * 2 ^ Z.max 0 e)
      with (- (Py.round_half_even m e * float_den e -
               Z.pos m * 2 ^ Z.max 0 e)) by ring.
    rewrite Z.abs_opp, Z.even_opp. apply round_half_even_tie.
  - rewrite Z.mul_1_l. apply round_half_even_tie.
Qed.

Lemma round_all_ties (vals : list json) (zs : list Z) :
  round_all vals = Ok zs -> Forall2 tie_to_even vals zs.
Proof.
  revert zs. induction vals as [|v vals IH]; intros zs H.
  - injection H as <-. constructor.
  - cbn [round_all] in H.
    destruct (Py.round v) as [z|e] eqn:Hz; [|discriminate H].
    cbn [res_bind] in H.
    destruct (round_all vals) as [zs'|e] eqn:Hzs; [|discriminate H].
    injection H as <-. constructor; [now apply round_tie|now apply IH].
Qed.

Lemma scan_meters_find (meters : list json) :
  forallb valid_meter meters = true ->
  scan_meters meters = read_vals (find is_electricity meters).
Proof.
  induction meters as [|meter meters IH]; intros H; [reflexivity|].
  cbn [forallb] in H. apply andb_prop in H. destruct H as [Hm Hms].
  cbn [scan_meters find].
  destruct meter as [| | | | | |m]; try discriminate Hm.
  cbn [valid_meter is_electricity] in *.
  rewrite get_object.
  destruct (Py.lookup "type" m) as [[| | | | | |t]|]; try discriminate Hm;
    cbn [res_bind]; rewrite get_object; cbn [res_bind].
  - destruct (Py.lookup "name" t) as [n|].
    + destruct (Py.eq_str n electricity_label); [|now apply IH].
      cbn [read_vals vals_of]. rewrite get_object. reflexivity.
    + cbn [Py.eq_str]. now apply IH.
  - cbn [Py.lookup Py.eq_str]. now apply IH.
Qed.

Lemma find_app {A : Type} (p : A -> bool) (l1 l2 : list A) :
  find p (l1 ++ l2) =
  match find p l1 with Some x => Some x | None => find p l2 end.
Proof.
  induction l1 as [|x l1 IH]; [reflexivity|].
  cbn. destruct (p x); auto.
Qed.

Lemma scan_sensors_find (sensors : list json) :
  forallb valid_sensor sensors = true ->
  scan_sensors sensors =
  read_vals (find is_electricity (flat_map meters_of sensors)).
Proof.
  induction sensors as [|sensor sensors IH]; intros H; [reflexivity|].
  cbn [forallb] in H. apply andb_prop in H. destruct H as [Hs Hss].
  cbn [scan_sensors flat_map]. rewrite find_app.
  destruct sensor as [| | | | | |s]; try discriminate Hs.
  cbn [valid_sensor meters_of] in *. rewrite get_object.
  destruct (Py.lookup "meters" s) as [[| | | | |ms|]|];
    try discriminate Hs; cbn [res_bind Py.iterate].
  - rewrite (scan_meters_find ms Hs).
    destruct (find is_electricity ms) as [meter|]; cbn [read_vals res_bind].
    + destruct (Py.iterate (vals_of meter)) as [items|]; cbn [res_bind];
        [|reflexivity].
      destruct (round_all items); reflexivity.
    + now apply IH.
  - cbn [scan_meters find res_bind]. now apply IH.
Qed.

(** On a well-formed snapshot the function reads the first
    electricity-typed meter in source order, or returns the empty list. *)
Lemma get_electricity_vals_find (data : json) :
  valid_snapshot data = true ->
  get_electricity_vals data =
  match find is_electricity (all_meters data) with
  | None => Ok []
  | Some meter =>
      let* items := Py.iterate (vals_of meter) in round_all items
  end.
Proof.
  intros H. unfold get_electricity_vals, all_meters.
  destruct data as [| | | | | |d]; try discriminate H.
  cbn [valid_snapshot sensors_of] in *. rewrite get_object.
  destruct (Py.lookup "sensors" d) as [[| | | | |ss|]|];
    try discriminate H; cbn [res_bind Py.iterate flat_map find];
    [|reflexivity].
  rewrite (scan_sensors_find ss H).
  destruct (find is_electricity (flat_map meters_of ss)) as [meter|];
    cbn [read_vals res_bind]; [|reflexivity].
  destruct (Py.iterate (vals_of meter)) as [items|]; cbn [res_bind];
    [|reflexivity].
  destruct (round_all items); reflexivity.
Qed.

End Extraction.

(** ** The notifier and the [finally] clause *)

Section Notifier.

Variable transport : list request -> request -> http_outcome.

Lemma same_objects_refl (w : world) : same_objects w w.
Proof. repeat split. Qed.

Lemma same_objects_trans (w1 w2 w3 : world) :
  same_objects w1 w2 -> same_objects w2 w3 -> same_objects w1 w3.
Proof.
  unfold same_objects. intros (A & B & C & D & E) (A' & B' & C' & D' & E').
  repeat split; congruence.
Qed.

(** One notification: the request is issued whatever happens next; the
    call returns unless the answer is neither an error of the transport
    nor a JSON object. *)
Lemma send_telegram_message_run (token chat_id text : string) (w : world) :
  let req := telegram_request token chat_id text in
  let out := send_telegram_message transport token chat_id text w in
  w_sent (snd out) = req :: w_sent w /\
  same_objects w (snd out) /\
  (notifier_handles (transport (w_sent w) req) = true ->
   exists b, fst out = Ok b) /\
  (forall e, fst out = Raise e -> is_Exception e = true).
Proof.
  unfold send_telegram_message, telegram_request, try_except, bind, http,
    lift, logging, ret.
  match goal with
  | |- context [transport ?h ?r] =>
      destruct (transport h r) as [msg rt|msg|result]
  end.
  - cbn. repeat split; eauto. intros e H. discriminate H.
  - cbn. repeat split; try discriminate. intros e H. now inversion H.
  - destruct result as [| | | | | |d];
      try (cbn; repeat split; try discriminate; intros e H;
           now inversion H).
    rewrite get_object. cbv beta iota.
    destruct (Py.truthy _); cbn; repeat split; eauto; intros e H;
      discriminate H.
Qed.

Lemma split_scan_not_nil (sep : ascii) (s acc : string) :
  PyStr.split_scan sep s acc <> [].
Proof.
  revert acc. induction s as [|c s IH]; intros acc; cbn; [discriminate|].
  destruct (Ascii.eqb c sep); [discriminate|apply IH].
Qed.

(** There is always a first recipient. *)
Lemma recipients_not_nil (env : env_vars) : recipients env <> [].
Proof. apply split_scan_not_nil. Qed.

Lemma notifications_cons (token text id_ : string) (ids : list string)
    (l : list request) :
  (notifications token text ids ++ telegram_request token id_ text :: l
   = notifications token text (id_ :: ids) ++ l)%list.
Proof.
  unfold notifications. cbn [map rev]. now rewrite <- app_assoc.
Qed.

Lemma notify_one_run (token text id_ : string) (w : world) :
  message (w_frame w) = Some text ->
  notify_one transport token id_ w =
  match send_telegram_message transport token id_ text w with
  | (Ok _, w1) => (Ok tt, w1)
  | (Raise e, w1) => (Raise e, w1)
  end.
Proof.
  intros Hm. unfold notify_one, bind, read_local, get_frame, bind.
  rewrite Hm. unfold ret at 1.
  destruct (send_telegram_message transport token id_ text w) as [[b|e] w1];
    reflexivity.
Qed.

(** The loop over the recipients, once [message] is bound: it notifies
    a prefix [done] of the list, all of it unless a notification raises. *)
Lemma notify_loop (token text : string) (ids : list string) (w : world) :
  message (w_frame w) = Some text ->
  let out := for_each ids (notify_one transport token) w in
  exists done rest,
    ids = (done ++ rest)%list /\
    (ids <> [] -> done <> []) /\
    w_sent (snd out) = (notifications token text done ++ w_sent w)%list /\
    same_objects w (snd out) /\
    (fst out = Ok tt -> rest = []) /\
    (forall e, fst out = Raise e -> is_Exception e = true) /\
    ((forall h id_, notifier_handles
                      (transport h (telegram_request token id_ text)) = true)
     -> fst out = Ok tt).
Proof.
  revert w. induction ids as [|id_ ids IH]; intros w Hm.
  - exists [], []. cbn. repeat split; auto using same_objects_refl;
      try discriminate.
  - cbn [for_each]. cbv zeta.
    assert (Heq : (notify_one transport token id_ ;;;
                   for_each ids (notify_one transport token)) w =
                  match send_telegram_message transport token id_ text w with
                  | (Ok _, w1) => for_each ids (notify_one transport token) w1
                  | (Raise e, w1) => (Raise e, w1)
                  end).
    { unfold bind at 1. rewrite (notify_one_run token text id_ w Hm).
      destruct (send_telegram_message transport token id_ text w)
        as [[b|e] w1]; reflexivity. }
    rewrite Heq. clear Heq.
    destruct (send_telegram_message_run token id_ text w)
      as (Hsent & Hsame & Hok & Hexc).
    destruct (send_telegram_message transport token id_ text w)
      as [[b|e] w1] eqn:Hrun; cbn [fst snd] in *.
    + assert (Hm1 : message (w_frame w1) = Some text)
        by (destruct Hsame as (-> & _); exact Hm).
      destruct (IH w1 Hm1)
        as (done & rest & Hids & _ & Hs & Ho & Hr & He & Hall).
      exists (id_ :: done), rest.
      split; [cbn; now rewrite Hids|].
      split; [discriminate|].
      split; [rewrite Hs, Hsent; apply notifications_cons|].
      split; [eapply same_objects_trans; eassumption|].
      split; [exact Hr|]. split; [exact He|exact Hall].
    + exists [id_], ids.
      split; [reflexivity|]. split; [discriminate|].
      split; [exact Hsent|]. split; [exact Hsame|].
      split; [discriminate|].
      split; [intros e0 H; injection H as <-; now apply Hexc|].
      intros Hall. destruct (Hok (Hall _ _)) as (b & Hb). discriminate Hb.
Qed.

(** The [finally] clause when the [try] statement left no [message]:
    the first notification cannot be built, and nothing else is done. *)
Lemma main_finally_unbound (env : env_vars) (w : world) :
  message (w_frame w) = None ->
  main_finally transport env w = (Raise (unbound_local "message"), w).
Proof.
  intros Hm. unfold main_finally. fold (recipients env).
  destruct (recipients env) as [|id_ ids] eqn:R;
    [now destruct (recipients_not_nil env)|].
  cbn [for_each]. unfold bind, read_local, get_frame, bind.
  rewrite Hm. reflexivity.
Qed.

(** The [finally] clause: the loop, then the clean-up when the loop
    returned. *)
Lemma main_finally_eq (env : env_vars) (w : world) :
  main_finally transport env w =
  match for_each (recipients env)
          (notify_one transport (ev_telegram_bot_token env)) w with
  | (Ok _, w1) => (Ok tt, torn_down w1)
  | (Raise e, w1) => (Raise e, w1)
  end.
Proof.
  unfold main_finally.
  change (for_each (PyStr.split "," (ev_telegram_chat_id env)) _)
    with (for_each (recipients env)
            (notify_one transport (ev_telegram_bot_token env))).
  unfold bind at 1.
  destruct (for_each (recipients env) _ w) as [[[]|e] w1]; [|reflexivity].
  unfold bind, try_except, read_local, get_frame, bind, session_close,
    logging, ret, raise, torn_down, closed_after, completion_record.
  destruct w1 as [snt lg hp nx ss cl fr]. cbn.
  destruct (session fr); reflexivity.
Qed.

(** The [finally] clause when [message] is bound. *)
Lemma main_finally_bound (env : env_vars) (text : string) (w : world) :
  message (w_frame w) = Some text ->
  let out := main_finally transport env w in
  exists done rest,
    recipients env = (done ++ rest)%list /\
    done <> [] /\
    w_sent (snd out) =
      (notifications (ev_telegram_bot_token env) text done ++ w_sent w)%list /\
    w_frame (snd out) = w_frame w /\
    w_sessions (snd out) = w_sessions w /\
    (fst out = Ok tt ->
     rest = [] /\
     w_closed (snd out) = closed_after (w_frame w) (w_closed w) /\
     hd_error (w_log (snd out)) = Some (completion_record (w_frame w))) /\
    (fst out <> Ok tt -> w_closed (snd out) = w_closed w) /\
    ((forall h id_,
         notifier_handles
           (transport h (telegram_request (ev_telegram_bot_token env)
                           id_ text)) = true)
     -> fst out = Ok tt).
Proof.
  intros Hm. cbv zeta. rewrite main_finally_eq.
  destruct (notify_loop (ev_telegram_bot_token env) text (recipients env) w Hm)
    as (done & rest & Hids & Hne & Hs & Ho & Hr & He & Hall).
  exists done, rest.
  destruct (for_each (recipients env) _ w) as [[[]|e] w1];
    cbn [fst snd] in *; destruct Ho as (Hf & Hc & Hn & Hh & Hx).
  - unfold torn_down. cbn. rewrite Hf, Hc.
    split; [exact Hids|]. split; [auto using recipients_not_nil|].
    split; [exact Hs|]. split; [reflexivity|]. split; [exact Hn|].
    split; [intros _; split; [now apply Hr|split; reflexivity]|].
    split; [congruence|reflexivity].
  - split; [exact Hids|]. split; [auto using recipients_not_nil|].
    split; [exact Hs|]. split; [exact Hf|]. split; [exact Hn|].
    split; [discriminate|]. split; [intros _; exact Hc|].
    intros H. specialize (Hall H). discriminate Hall.
Qed.

End Notifier.

(** ** What the calls leave untouched *)

Section Keeps.

Variable R : world -> world -> Prop.
Hypothesis R_refl : forall w, R w w.
Hypothesis R_trans : forall w1 w2 w3, R w1 w2 -> R w2 w3 -> R w1 w3.
Hypothesis R_logged : forall l w, R w (logged l w).
Hypothesis R_sent : forall r w, R w (sent r w).
Hypothesis R_session : forall w,
    R w (mkWorld (w_sent w) (w_log w) (w_heap w) (w_next w)
           (S (w_sessions w)) (w_closed w) (w_frame w)).
Hypothesis R_update : forall l u w,
    R w (mkWorld (w_sent w) (w_log w)
           (fun l' => if Nat.eqb l' l then Py.update u (w_heap w l)
                      else w_heap w l')
           (w_next w) (w_sessions w) (w_closed w) (w_frame w)).

Variable transport : list request -> request -> http_outcome.
Variable py_repr : json -> string.

Lemma keeps_ret {A} (a : A) : keeps R (ret a).
Proof. intros w. apply R_refl. Qed.

Lemma keeps_raise {A} (e : exn) : keeps R (@raise A e).
Proof. intros w. apply R_refl. Qed.

Lemma keeps_sys_exit {A} (code : Z) : keeps R (@sys_exit A code).
Proof. intros w. apply R_refl. Qed.

Lemma keeps_lift {A} (r : res A) : keeps R (lift r).
Proof. intros w. apply R_refl. Qed.

Lemma keeps_bind {A B} (m : M A) (k : A -> M B) :
  keeps R m -> (forall a, keeps R (k a)) -> keeps R (bind m k).
Proof.
  intros Hm Hk w. unfold bind. specialize (Hm w).
  destruct (m w) as [[a|e] w1]; cbn [snd] in *; [|exact Hm].
  eapply R_trans; [exact Hm|apply Hk].
Qed.

Lemma keeps_try_except {A} (body : M A) (handler : exn -> option (M A)) :
  keeps R body ->
  (forall e h, handler e = Some h -> keeps R h) ->
  keeps R (try_except body handler).
Proof.
  intros Hb Hh w. unfold try_except. specialize (Hb w).
  destruct (body w) as [[a|e] w1]; cbn [snd] in *; [exact Hb|].
  destruct (handler e) as [h|] eqn:E; [|exact Hb].
  eapply R_trans; [exact Hb|eapply Hh; eassumption].
Qed.

Lemma keeps_logging lvl fmt args : keeps R (logging lvl fmt args).
Proof. intros w. apply R_logged. Qed.

Lemma keeps_http (r : request) : keeps R (http transport r).
Proof.
  intros w. unfold http. destruct (transport (w_sent w) r); apply R_sent.
Qed.

Lemma keeps_new_session : keeps R new_session.
Proof. intros w. apply R_session. Qed.

Lemma keeps_dict_update l u : keeps R (dict_update l u).
Proof. intros w. apply R_update. Qed.

Lemma keeps_read_dict l : keeps R (read_dict l).
Proof. intros w. apply R_refl. Qed.

Ltac keeps_step :=
  first
    [ apply keeps_ret | apply keeps_raise | apply keeps_sys_exit
    | apply keeps_lift | apply keeps_logging | apply keeps_http
    | apply keeps_new_session | apply keeps_dict_update
    | apply keeps_read_dict
    | apply keeps_bind; [|intro]
    | apply keeps_try_except;
      [|let e := fresh "e" in let h := fresh "h" in let E := fresh "E" in
        intros e h E]
    | match goal with
      | E : (if ?c then _ else _) = Some _ |- _ =>
          destruct c; try discriminate E
      | E : match ?x with _ => _ end = Some _ |- _ =>
          destruct x; try discriminate E
      | E : Some _ = Some _ |- _ => injection E as <-
      | |- keeps _ (if ?c then _ else _) => destruct c
      | |- keeps _ (match ?x with _ => _ end) => destruct x
      end ].

Lemma keeps_send_telegram_message token chat_id text :
  keeps R (send_telegram_message transport token chat_id text).
Proof. unfold send_telegram_message. repeat keeps_step. Qed.

Lemma keeps_authenticate_saures api_url login password :
  keeps R (authenticate_saures transport api_url login password).
Proof. unfold authenticate_saures. repeat keeps_step. Qed.

Lemma keeps_fetch_saures_meter_data api_url sid meter_id current_time :
  keeps R (fetch_saures_meter_data transport py_repr api_url sid meter_id
             current_time).
Proof. unfold fetch_saures_meter_data. repeat keeps_step. Qed.

Lemma keeps_authenticate_mosenergo lk_url login password :
  keeps R (authenticate_mosenergo transport lk_url login password).
Proof. unfold authenticate_mosenergo. repeat keeps_step. Qed.

Lemma keeps_fetch_mosenergo_provider lk_url session_id session headers :
  keeps R (fetch_mosenergo_provider transport py_repr lk_url session_id
             session headers).
Proof. unfold fetch_mosenergo_provider. repeat keeps_step. Qed.

Lemma keeps_send_mosenergo_data lk_url session_id session headers
    provider_id electricity_values query_type payload_base :
  keeps R (send_mosenergo_data transport py_repr lk_url session_id session
             headers provider_id electricity_values query_type payload_base).
Proof. unfold send_mosenergo_data. repeat keeps_step. Qed.

(** *** The [try] body of [main] *)

Hypothesis R_new_dict : forall d w,
    R w (mkWorld (w_sent w) (w_log w)
           (fun l => if Nat.eqb l (w_next w) then d else w_heap w l)
           (S (w_next w)) (w_sessions w) (w_closed w) (w_frame w)).
Hypothesis R_set : forall g w,
    (forall f, message (g f) = message f) ->
    R w (with_frame w (g (w_frame w))).

Lemma keeps_new_dict d : keeps R (new_dict d).
Proof. intros w. apply R_new_dict. Qed.

Lemma keeps_set_frame g :
  (forall f, message (g f) = message f) -> keeps R (set_frame g).
Proof. intros H w. now apply R_set. Qed.

Lemma keeps_on_raise_of_keeps {A} (m : M A) :
  keeps R m -> keeps_on_raise R m.
Proof. intros H w e w' E. specialize (H w). now rewrite E in H. Qed.

Lemma keeps_on_raise_bind {A B} (m : M A) (k : A -> M B) :
  keeps R m -> (forall a, keeps_on_raise R (k a)) ->
  keeps_on_raise R (bind m k).
Proof.
  intros Hm Hk w e w' E. unfold bind in E. specialize (Hm w).
  destruct (m w) as [[a|e1] w1]; cbn [snd] in Hm.
  - eapply R_trans; [exact Hm|]. eapply Hk. exact E.
  - now injection E as <- <-.
Qed.

Lemma keeps_main_prepare env current_time :
  keeps R (main_prepare transport py_repr env current_time).
Proof.
  unfold main_prepare.
  repeat first
    [ apply keeps_authenticate_saures
    | apply keeps_fetch_saures_meter_data
    | apply keeps_authenticate_mosenergo
    | apply keeps_fetch_mosenergo_provider
    | apply keeps_set_frame; reflexivity
    | keeps_step ].
Qed.

(** A run of the classification that raises has bound no message. *)
Lemma keeps_on_raise_main_classify :
  keeps_on_raise R (main_classify py_repr).
Proof.
  intros w e w' E.
  unfold main_classify, bind, get_frame, lift, set_frame in E.
  destruct (both_succeeded _ _) as [[|]|e0].
  - destruct (nm_result (calc_response (w_frame w))) as [c|e1].
    + destruct (as_replaceable c) as [t|e2].
      * destruct (nm_result (save_response (w_frame w))) as [sr|e3].
        -- discriminate E.
        -- injection E as <- <-. now apply (R_set (set_success true)).
      * injection E as <- <-. now apply (R_set (set_success true)).
    + injection E as <- <-. now apply (R_set (set_success true)).
  - discriminate E.
  - injection E as <- <-. apply R_refl.
Qed.

Lemma keeps_on_raise_main_submit env p :
  keeps_on_raise R (main_submit transport py_repr env p).
Proof.
  unfold main_submit.
  apply keeps_on_raise_bind; [apply keeps_new_dict|intros c].
  apply keeps_on_raise_bind; [apply keeps_new_dict|intros s].
  apply keeps_on_raise_bind; [apply keeps_send_mosenergo_data|intros rc].
  apply keeps_on_raise_bind; [apply keeps_set_frame; reflexivity|intros _].
  apply keeps_on_raise_bind; [apply keeps_send_mosenergo_data|intros rs].
  apply keeps_on_raise_bind; [apply keeps_set_frame; reflexivity|intros _].
  apply keeps_on_raise_main_classify.
Qed.

(** Whenever the [try] body raises, [R] relates the state at its entry
    to the state at the raise. *)
Lemma keeps_on_raise_main_try env current_time :
  keeps_on_raise R (main_try transport py_repr env current_time).
Proof.
  unfold main_try.
  apply keeps_on_raise_bind; [apply keeps_main_prepare|intros p].
  apply keeps_on_raise_main_submit.
Qed.

End Keeps.

(** ** The whole run: [main] *)

Section Run.

Variable transport : list request -> request -> http_outcome.
Variable py_repr : json -> string.
Variable environ : string -> option string.
Variable now : string.
Variable basic_config : string -> option string.

Lemma quiet_refl (w : world) : quiet w w.
Proof. split; reflexivity. Qed.

Lemma quiet_trans (w1 w2 w3 : world) :
  quiet w1 w2 -> quiet w2 w3 -> quiet w1 w3.
Proof. unfold quiet. intros [A B] [C D]. split; congruence. Qed.

(** Whenever the [try] body raises, [message] is as it was at its entry
    and no session has been closed. *)
Lemma main_try_quiet (env : env_vars) :
  keeps_on_raise quiet (main_try transport py_repr env now).
Proof.
  apply keeps_on_raise_main_try;
    solve [ exact quiet_refl | exact quiet_trans
          | intros; split; reflexivity
          | intros g w H; split; [apply H|reflexivity] ].
Qed.

Lemma filter_none {A : Type} (p : A -> bool) (l : list A) :
  forallb p l = true -> filter (fun x => negb (p x)) l = [].
Proof.
  induction l as [|x l IH]; cbn; [reflexivity|].
  intros H. apply andb_prop in H. destruct H as [Hx Hl].
  rewrite Hx. cbn. now apply IH.
Qed.

(** With every mandatory variable set, the configuration is read. *)
Lemma setup_environment_complete (w : world) :
  config_complete environ = true ->
  setup_environment environ w = (Ok (the_env environ), w).
Proof.
  intros H. unfold setup_environment. unfold config_complete in H.
  rewrite (filter_none _ _ H). reflexivity.
Qed.


(** With the configuration read and the log file opened, [main] enters
    its [try] statement in [start_world]. *)
Lemma main_start :
  config_complete environ = true ->
  basic_config (ev_log_file (the_env environ)) = None ->
  main transport py_repr environ now basic_config initial_world =
  try_finally
    (try_except (main_try transport py_repr (the_env environ) now) main_except)
    (main_finally transport (the_env environ)) (start_world now).
Proof.
  intros H Hl. unfold main. unfold bind at 1.
  rewrite (setup_environment_complete _ H).
  unfold bind at 1. unfold setup_logging. rewrite Hl. reflexivity.
Qed.

(** With the configuration read and the log file not opened, [main] ends
    with the [OSError] of [logging.basicConfig], in its initial state. *)
Lemma main_unlogged (msg : string) :
  config_complete environ = true ->
  basic_config (ev_log_file (the_env environ)) = Some msg ->
  main transport py_repr environ now basic_config initial_world =
  (Raise (PyExc OSError msg), initial_world).
Proof.
  intros H Hl. unfold main. unfold bind at 1.
  rewrite (setup_environment_complete _ H).
  unfold bind at 1. unfold setup_logging. rewrite Hl. reflexivity.
Qed.

(** A [SystemExit] raised in the [try] body passes the [except] clause,
    and the [finally] clause fails on the unbound [message]: the run
    ends in the state of the raise with an [UnboundLocalError]. *)
Lemma main_fatal (e : exn) (w1 : world) :
  config_complete environ = true ->
  basic_config (ev_log_file (the_env environ)) = None ->
  main_try transport py_repr (the_env environ) now (start_world now)
  = (Raise e, w1) ->
  is_Exception e = false ->
  main transport py_repr environ now basic_config initial_world
  = (Raise (unbound_local "message"), w1).
Proof.
  intros Hc Hl Ht He. rewrite (main_start Hc Hl).
  unfold try_finally, try_except. rewrite Ht.
  unfold main_except. rewrite He.
  destruct (main_try_quiet _ _ _ _ Ht) as [Hm _].
  rewrite main_finally_unbound; [reflexivity|].
  rewrite Hm. reflexivity.
Qed.

Lemma res_eq_dec_unit (r : res unit) : {r = Ok tt} + {r <> Ok tt}.
Proof. destruct r as [[]|e]; [left; reflexivity|right; discriminate]. Qed.

Lemma try_finally_unit (body fin : M unit) (w w1 : world) :
  body w = (Ok tt, w1) -> try_finally body fin w = fin w1.
Proof.
  intros H. unfold try_finally. rewrite H.
  destruct (fin w1) as [[[]|e] w2]; reflexivity.
Qed.

(** An [Exception] raised in the [try] body is handled, and the
    [finally] clause runs on the state the handler leaves. *)
Lemma main_caught (e : exn) (w1 : world) :
  config_complete environ = true ->
  basic_config (ev_log_file (the_env environ)) = None ->
  main_try transport py_repr (the_env environ) now (start_world now)
  = (Raise e, w1) ->
  is_Exception e = true ->
  main transport py_repr environ now basic_config initial_world
  = main_finally transport (the_env environ) (handled e w1).
Proof.
  intros Hc Hl Ht He. rewrite (main_start Hc Hl).
  apply try_finally_unit. unfold try_except. rewrite Ht.
  unfold main_except. rewrite He. reflexivity.
Qed.

Lemma main_completed (w1 : world) :
  config_complete environ = true ->
  basic_config (ev_log_file (the_env environ)) = None ->
  main_try transport py_repr (the_env environ) now (start_world now)
  = (Ok tt, w1) ->
  main transport py_repr environ now basic_config initial_world
  = main_finally transport (the_env environ) w1.
Proof.
  intros Hc Hl Ht. rewrite (main_start Hc Hl).
  apply try_finally_unit. unfold try_except. now rewrite Ht.
Qed.

Lemma run_script_status :
  fst (run_script transport py_repr environ now basic_config) =
  exit_status (fst (main transport py_repr environ now basic_config initial_world)) /\
  snd (run_script transport py_repr environ now basic_config) =
  snd (main transport py_repr environ now basic_config initial_world).
Proof.
  unfold run_script.
  destruct (main transport py_repr environ now basic_config initial_world).
  split; reflexivity.
Qed.

(** [authenticate_saures] issues its one request whatever the answer. *)
Lemma authenticate_saures_sent (api_url login password : string) (w : world) :
  w_sent (snd (authenticate_saures transport api_url login password w)) =
  saures_login_request api_url login password :: w_sent w.
Proof.
  unfold authenticate_saures, saures_login_request, try_except, bind, http,
    lift, logging, sys_exit, raise.
  cbv beta iota.
  match goal with
  | |- context [transport ?h ?r] =>
      destruct (transport h r) as [msg rt|msg|result]
  end; try reflexivity.
  destruct (Py.get result "status" JNull) as [status|e]; cbv beta iota.
  - destruct (Py.eq_str status "ok"); cbv beta iota.
    + destruct (Py.getitem_str result "data") as [d|e]; cbv beta iota.
      * destruct (Py.getitem_str d "sid") as [sid|e]; cbv beta iota;
          [reflexivity|].
        destruct (is_RequestException e); [reflexivity|].
        destruct (is_ValueError_or_KeyError e); reflexivity.
      * destruct (is_RequestException e); [reflexivity|].
        destruct (is_ValueError_or_KeyError e); reflexivity.
    + destruct (Py.get result "errors" (JList [])) as [errors|e];
        cbv beta iota; [reflexivity|].
      destruct (is_RequestException e); [reflexivity|].
      destruct (is_ValueError_or_KeyError e); reflexivity.
  - destruct (is_RequestException e); [reflexivity|].
    destruct (is_ValueError_or_KeyError e); reflexivity.
Qed.

(** C1: in a run whose configuration is complete and whose log file was
    opened, when the metering authentication ends the run ([sys.exit] in
    [authenticate_saures], whatever the cause), [main] does not notify
    anyone: the only request of the whole run is the Saures login, and
    [main] ends with the [UnboundLocalError] of the [finally] clause. *)
Theorem fatal_metering_auth_skips_notifier (code : Z) :
  config_complete environ = true ->
  basic_config (ev_log_file (the_env environ)) = None ->
  fst (authenticate_saures transport
         (ev_saures_api_url (the_env environ)) (ev_login (the_env environ))
         (ev_saures_pass (the_env environ)) (start_world now))
  = Raise (SystemExit code) ->
  let out := main transport py_repr environ now basic_config initial_world in
  fst out = Raise (unbound_local "message") /\
  w_sent (snd out) =
    [saures_login_request (ev_saures_api_url (the_env environ))
       (ev_login (the_env environ)) (ev_saures_pass (the_env environ))] /\
  message (w_frame (snd out)) = None.
Proof.
  intros Hc Hl Ha.
  pose proof (authenticate_saures_sent
                (ev_saures_api_url (the_env environ))
                (ev_login (the_env environ))
                (ev_saures_pass (the_env environ)) (start_world now)) as Hs.
  destruct (authenticate_saures transport _ _ _ (start_world now))
    as [r w1] eqn:Hrun.
  cbn [fst snd] in Ha, Hs. subst r.
  assert (Ht : main_try transport py_repr (the_env environ) now
                 (start_world now) = (Raise (SystemExit code), w1)).
  { unfold main_try, main_prepare. unfold bind. now rewrite Hrun. }
  cbv zeta. rewrite (main_fatal _ _ Hc Hl Ht eq_refl). cbn [fst snd].
  split; [reflexivity|]. split; [exact Hs|].
  now destruct (main_try_quiet _ _ _ _ Ht) as [-> _].
Qed.

(** C7: in a run whose configuration is complete and whose log file was
    opened, when a fatal condition ends the [try] body after the billing
    session was created and bound, the session is never closed: the
    [finally] clause fails before its clean-up. *)
Theorem fatal_exit_leaves_session_open (code : Z) (w1 : world) (s : nat) :
  config_complete environ = true ->
  basic_config (ev_log_file (the_env environ)) = None ->
  main_try transport py_repr (the_env environ) now (start_world now)
  = (Raise (SystemExit code), w1) ->
  session (w_frame w1) = Some s ->
  let out := main transport py_repr environ now basic_config initial_world in
  session (w_frame (snd out)) = Some s /\
  w_closed (snd out) = [] /\
  fst out = Raise (unbound_local "message").
Proof.
  intros Hc Hl Ht Hs. cbv zeta.
  rewrite (main_fatal _ _ Hc Hl Ht eq_refl). cbn [fst snd].
  split; [exact Hs|]. split; [|reflexivity].
  now destruct (main_try_quiet _ _ _ _ Ht) as [_ ->].
Qed.


End Run.

(** ** Too few readings *)

Section Validation.

Variable transport : list request -> request -> http_outcome.
Variable py_repr : json -> string.
Variable environ : string -> option string.
Variable now : string.
Variable basic_config : string -> option string.

(** [fetch_saures_meter_data] issues its one request whatever the answer. *)
Lemma fetch_saures_meter_data_sent api_url sid meter_id current_time w :
  w_sent (snd (fetch_saures_meter_data transport py_repr api_url sid meter_id
                 current_time w)) =
  meters_request py_repr api_url sid meter_id current_time :: w_sent w.
Proof.
  unfold fetch_saures_meter_data, meters_request, try_except, bind, http,
    lift, logging, sys_exit, raise.
  cbv beta iota.
  match goal with
  | |- context [transport ?h ?r] =>
      destruct (transport h r) as [msg rt|msg|result]
  end; try reflexivity.
  destruct (Py.get result "status" JNull) as [status|e]; cbv beta iota.
  - destruct (Py.eq_str status "ok"); cbv beta iota.
    + destruct (Py.getitem_str result "data") as [d|e]; cbv beta iota;
        [reflexivity|].
      destruct (is_RequestException e); [reflexivity|].
      destruct (is_ValueError_or_KeyError e); reflexivity.
    + destruct (Py.get result "errors" (JList [])) as [errors|e];
        cbv beta iota; [reflexivity|].
      destruct (is_RequestException e); [reflexivity|].
      destruct (is_ValueError_or_KeyError e); reflexivity.
  - destruct (is_RequestException e); [reflexivity|].
    destruct (is_ValueError_or_KeyError e); reflexivity.
Qed.

Lemma saures_same_objects api_url login password sid meter_id current_time :
  keeps same_objects (authenticate_saures transport api_url login password)
  /\
  keeps same_objects
    (fetch_saures_meter_data transport py_repr api_url sid meter_id
       current_time).
Proof.
  split;
    [apply keeps_authenticate_saures|apply keeps_fetch_saures_meter_data];
    solve [ exact same_objects_refl | exact same_objects_trans
          | intros; repeat split ].
Qed.

(** With fewer than two values the first half of the [try] body raises
    a [ValueError], right after the meter data arrived. *)
Lemma main_prepare_too_few env sid data vals (w w1 w2 : world) :
  authenticate_saures transport (ev_saures_api_url env) (ev_login env)
    (ev_saures_pass env) w = (Ok sid, w1) ->
  fetch_saures_meter_data transport py_repr (ev_saures_api_url env) sid
    (ev_meter_id env) now w1 = (Ok data, w2) ->
  get_electricity_vals data = Ok vals ->
  (List.length vals < 2)%nat ->
  main_prepare transport py_repr env now w =
  (Raise (PyExc ValueError not_enough), too_few_world vals w2).
Proof.
  intros Ha Hf Hv Hl. unfold main_prepare.
  unfold bind at 1. rewrite Ha.
  unfold bind at 1. rewrite Hf.
  unfold bind at 1. unfold lift at 1. rewrite Hv.
  unfold bind at 1.
  assert (E : (Z.of_nat (List.length vals) <? 2) = true)
    by (apply Z.ltb_lt; lia).
  rewrite E. reflexivity.
Qed.

Lemma no_electricity_find (data : json) :
  (forall meter, In meter (all_meters data) -> is_electricity meter = false) ->
  find is_electricity (all_meters data) = None.
Proof.
  intros H. destruct (find is_electricity (all_meters data)) as [m|] eqn:F;
    [|reflexivity].
  apply find_some in F. destruct F as [Hin He].
  rewrite (H m Hin) in He. discriminate He.
Qed.

(** C8: a metering snapshot without an electricity-typed meter yields
    the empty list, not an error; and, in a run whose configuration is
    complete and whose log file was opened, when the values extracted from
    the meter data are fewer than two, the [try] body raises a [ValueError]
    (not a transport error) right after the meter fetch: the requests
    of the run are the two Saures requests followed by notifications
    only, no billing session is created, and every notification sent
    reports 'Not enough electricity values received.'  The first
    recipient is always served; all of them are when the notifier is
    answered by JSON objects or transport errors. *)
Theorem too_few_readings_is_a_validation_failure :
  (forall data,
      valid_snapshot data = true ->
      (forall meter, In meter (all_meters data) ->
                     is_electricity meter = false) ->
      get_electricity_vals data = Ok []) /\
  (forall sid data vals w1 w2,
      let env := the_env environ in
      let text :=
        unexpected_header ++ "Error: " ++
        "Not enough electricity values received." in
      config_complete environ = true ->
      basic_config (ev_log_file env) = None ->
      authenticate_saures transport (ev_saures_api_url env) (ev_login env)
        (ev_saures_pass env) (start_world now) = (Ok sid, w1) ->
      fetch_saures_meter_data transport py_repr (ev_saures_api_url env) sid
        (ev_meter_id env) now w1 = (Ok data, w2) ->
      get_electricity_vals data = Ok vals ->
      (List.length vals < 2)%nat ->
      let out := main transport py_repr environ now basic_config initial_world in
      main_try transport py_repr env now (start_world now) =
        (Raise (PyExc ValueError not_enough), too_few_world vals w2) /\
      w_sent w2 =
        [meters_request py_repr (ev_saures_api_url env) sid (ev_meter_id env)
           now;
         saures_login_request (ev_saures_api_url env) (ev_login env)
           (ev_saures_pass env)] /\
      w_sessions (snd out) = 0%nat /\
      w_closed (snd out) = [] /\
      success (w_frame (snd out)) = false /\
      message (w_frame (snd out)) = Some text /\
      exists done rest,
        recipients env = (done ++ rest)%list /\
        done <> [] /\
        w_sent (snd out) =
          (notifications (ev_telegram_bot_token env) text done ++
           w_sent w2)%list /\
        ((forall h id_,
             notifier_handles
               (transport h
                  (telegram_request (ev_telegram_bot_token env) id_ text))
             = true) ->
         fst out = Ok tt /\ rest = [])).
Proof.
  split.
  - intros data Hv Hn. rewrite (get_electricity_vals_find data Hv).
    now rewrite (no_electricity_find data Hn).
  - intros sid data vals w1 w2 env text Hc Hlog Ha Hf Hv Hl out.
    pose proof (main_prepare_too_few env sid data vals _ _ _ Ha Hf Hv Hl)
      as Hp.
    assert (Ht : main_try transport py_repr env now (start_world now) =
                 (Raise (PyExc ValueError not_enough), too_few_world vals w2)).
    { unfold main_try, bind. now rewrite Hp. }
    (* what the two Saures calls leave *)
    destruct (saures_same_objects (ev_saures_api_url env) (ev_login env)
                (ev_saures_pass env) sid (ev_meter_id env) now)
      as [Ka Kf].
    specialize (Ka (start_world now)). rewrite Ha in Ka. cbn [snd] in Ka.
    specialize (Kf w1). rewrite Hf in Kf. cbn [snd] in Kf.
    destruct Ka as (Fa & Ca & Sa & _). destruct Kf as (Ff & Cf & Sf & _).
    pose proof (authenticate_saures_sent transport
                  (ev_saures_api_url env) (ev_login env)
                  (ev_saures_pass env) (start_world now)) as Sent1.
    rewrite Ha in Sent1. cbn [snd] in Sent1.
    pose proof (fetch_saures_meter_data_sent (ev_saures_api_url env) sid
                  (ev_meter_id env) now w1) as Sent2.
    rewrite Hf in Sent2. cbn [snd] in Sent2.
    (* the handler, then the [finally] clause *)
    subst out.
    rewrite (main_caught transport py_repr environ now basic_config _ _
               Hc Hlog Ht eq_refl).
    fold env.
    destruct (main_finally_bound transport env text
                (handled (PyExc ValueError not_enough)
                   (too_few_world vals w2)) eq_refl)
      as (done & rest & Hids & Hne & Hs & Hfr & Hss & Hok & Hnok & Hall).
    split; [exact Ht|].
    split; [rewrite Sent2, Sent1; reflexivity|].
    split; [rewrite Hss; cbn; now rewrite Sf, Sa|].
    split.
    { destruct (res_eq_dec_unit
                  (fst (main_finally transport env
                          (handled (PyExc ValueError not_enough)
                             (too_few_world vals w2))))) as [E|E].
      - destruct (Hok E) as (_ & -> & _). unfold closed_after. cbn.
        rewrite Ff, Fa. cbn. now rewrite Cf, Ca.
      - rewrite (Hnok E). cbn. now rewrite Cf, Ca. }
    split; [now rewrite Hfr|]. split; [now rewrite Hfr|].
    exists done, rest.
    split; [exact Hids|]. split; [exact Hne|]. split; [exact Hs|].
    intros Hn. specialize (Hall Hn). split; [exact Hall|].
    now destruct (Hok Hall).
Qed.

End Validation.

(** ** The readings of the first electricity meter *)

(** C3 (as amended): on a well-formed snapshot whose first
    electricity-typed meter, in source order, carries a list of numbers,
    [get_electricity_vals] returns one integer for each value of that
    meter (all of them, not only two), in source order, each a nearest
    integer of its value, and the even one of the two where the value
    lies half-way between two integers. *)
Theorem get_electricity_vals_rounds_first_meter (data meter : json)
    (vals : list json) :
  valid_snapshot data = true ->
  find is_electricity (all_meters data) = Some meter ->
  vals_of meter = JList vals ->
  forallb is_number vals = true ->
  exists rounded,
    get_electricity_vals data = Ok rounded /\
    Forall2 nearest_integer vals rounded /\
    Forall2 tie_to_even vals rounded.
Proof.
  intros Hv Hf Hm Hn.
  rewrite (get_electricity_vals_find data Hv), Hf, Hm.
  cbn [Py.iterate res_bind].
  destruct (round_all_numbers vals Hn) as (rounded & Hr & Near).
  exists rounded. split; [exact Hr|]. split; [exact Near|].
  now apply round_all_ties.
Qed.

(** With at least two values, the first two elements of the result are
    nearest integers of the first two values. *)
Corollary first_two_readings (data meter v1 v2 : json) (rest : list json) :
  valid_snapshot data = true ->
  find is_electricity (all_meters data) = Some meter ->
  vals_of meter = JList (v1 :: v2 :: rest) ->
  forallb is_number (v1 :: v2 :: rest) = true ->
  exists z1 z2 zs,
    get_electricity_vals data = Ok (z1 :: z2 :: zs) /\
    nearest_integer v1 z1 /\ nearest_integer v2 z2 /\
    List.length zs = List.length rest.
Proof.
  intros Hv Hf Hm Hn.
  destruct (round_all_numbers _ Hn) as (rounded & Hr & H2).
  inversion H2 as [|? z1 ? l1 N1 H2']; subst.
  inversion H2' as [|? z2 ? zs N2 H2'']; subst.
  exists z1, z2, zs.
  rewrite (get_electricity_vals_find data Hv), Hf, Hm.
  cbn [Py.iterate res_bind]. rewrite Hr.
  repeat split; auto. symmetry. eapply Forall2_length; eassumption.
Qed.

(** ** Soft failures of the submissions *)

Section SoftFailure.

Variable transport : list request -> request -> http_outcome.
Variable py_repr : json -> string.
Variable environ : string -> option string.
Variable now : string.
Variable basic_config : string -> option string.

Lemma eqb_succ_r (n : nat) : Nat.eqb n (S n) = false.
Proof. apply Nat.eqb_neq. lia. Qed.

Lemma eqb_succ_l (n : nat) : Nat.eqb (S n) n = false.
Proof. apply Nat.eqb_neq. lia. Qed.

Lemma submission_result_of (o : http_outcome) :
  answered_or_failed o = true -> submission_result o = Ok (result_of o).
Proof. destruct o; cbn; intros H; [reflexivity|discriminate|reflexivity]. Qed.

(** Both submissions are issued, one after the other, and the
    classification runs on their two results. *)
Lemma main_submit_run env p t1 t2 rest (w : world) :
  p_electricity_values p = t1 :: t2 :: rest ->
  let oc := transport (w_sent w) (calc_request py_repr env p t1 t2) in
  let os := transport (calc_request py_repr env p t1 t2 :: w_sent w)
              (save_request py_repr env p t1 t2) in
  answered_or_failed oc = true ->
  answered_or_failed os = true ->
  exists w6,
    main_submit transport py_repr env p w = main_classify py_repr w6 /\
    w_sent w6 =
      save_request py_repr env p t1 t2 ::
      calc_request py_repr env p t1 t2 :: w_sent w /\
    w_frame w6 =
      set_save_response (result_of os)
        (set_calc_response (result_of oc) (w_frame w)) /\
    w_closed w6 = w_closed w /\
    w_sessions w6 = w_sessions w.
Proof.
  intros Hv oc os Hoc Hos. unfold main_submit. rewrite Hv.
  unfold bind at 1. unfold new_dict at 1. cbv beta iota.
  unfold bind at 1. unfold new_dict at 1. cbv beta iota.
  cbn [w_next w_sent w_log w_heap w_sessions w_closed w_frame].
  set (w' := mkWorld _ _ _ _ _ _ _).
  destruct (send_mosenergo_data_run transport py_repr
              (ev_mosenergo_lk_url env) (p_session_id p) (p_session p)
              main_headers (p_provider_id p) t1 t2 rest "CalcCharge"
              (w_next w) w')
    as (R1 & S1 & H1 & F1 & C1 & N1 & X1).
  unfold bind at 1.
  destruct (send_mosenergo_data transport py_repr _ _ _ _ _ _ "CalcCharge"
              (w_next w) w') as [rc w3].
  cbn [fst snd] in *.
  assert (Hb1 : w_heap w' (w_next w) = calc_payload).
  { subst w'. cbn. now rewrite eqb_succ_r, Nat.eqb_refl. }
  rewrite Hb1 in R1, S1.
  change (w_sent w') with (w_sent w) in R1, S1.
  fold (calc_request py_repr env p t1 t2) in R1, S1. fold oc in R1.
  rewrite (submission_result_of oc Hoc) in R1. subst rc.
  unfold bind at 1. unfold set_frame at 1.
  set (w3' := with_frame w3 _).
  destruct (send_mosenergo_data_run transport py_repr
              (ev_mosenergo_lk_url env) (p_session_id p) (p_session p)
              main_headers (p_provider_id p) t1 t2 rest "SaveIndications"
              (S (w_next w)) w3')
    as (R2 & S2 & H2 & F2 & C2 & N2 & X2).
  unfold bind at 1.
  destruct (send_mosenergo_data transport py_repr _ _ _ _ _ _
              "SaveIndications" (S (w_next w)) w3') as [rs w5].
  cbn [fst snd] in *.
  assert (Hb2 : w_heap w3' (S (w_next w)) = save_payload).
  { subst w3'. cbn. rewrite H1. rewrite eqb_succ_l. subst w'. cbn.
    now rewrite Nat.eqb_refl. }
  rewrite Hb2 in R2, S2.
  change (w_sent w3') with (w_sent w3) in R2, S2. rewrite S1 in R2, S2.
  fold (save_request py_repr env p t1 t2) in R2, S2. fold os in R2.
  rewrite (submission_result_of os Hos) in R2. subst rs.
  unfold bind at 1. unfold set_frame at 1.
  eexists. split; [reflexivity|].
  cbn. rewrite S2, F2, C2, N2. subst w3'. cbn. rewrite F1, C1, N1.
  subst w'. cbn. repeat split.
Qed.



End SoftFailure.

(** * The statements at sample inputs *)

Lemma send_mosenergo_data_mutates_payload_witness :
  (2 <= List.length [124; 568])%nat /\
  Py.lookup "vl_t1"
    (w_heap
       (snd (send_mosenergo_data (scripted [] (HttpFail "timeout" None))
               sample_repr "https://lk.example" (JStr "MS") 0 main_headers
               (JStr "P7") [124; 568] "CalcCharge" 0 initial_world)) 0)
  = Some (JInt 124).
Proof.
  assert (H : (2 <= List.length [124; 568])%nat) by (simpl; lia).
  split; [exact H|].
  pose proof (send_mosenergo_data_mutates_payload
                (scripted [] (HttpFail "timeout" None)) sample_repr
                "https://lk.example" (JStr "MS") 0%nat main_headers (JStr "P7")
                [124; 568] "CalcCharge" 0%nat initial_world H) as T.
  cbv zeta in T. destruct T as (_ & T & _). exact T.
Defined.

Lemma send_mosenergo_data_unknown_kind_witness :
  "Recalculate" <> "CalcCharge" /\
  w_sent (snd (send_mosenergo_data (scripted [] telegram_ok) sample_repr
                 "https://lk.example" (JStr "MS") 0 main_headers (JStr "P7")
                 [124; 568] "Recalculate" 0 initial_world))
  = w_sent (snd (send_mosenergo_data (scripted [] telegram_ok) sample_repr
                   "https://lk.example" (JStr "MS") 0 main_headers (JStr "P7")
                   [124; 568] "SaveIndications" 0 initial_world)).
Proof.
  assert (H : "Recalculate" <> "CalcCharge") by (intros E; discriminate E).
  split; [exact H|].
  pose proof (send_mosenergo_data_unknown_kind
                (scripted [] telegram_ok) sample_repr
                "https://lk.example" (JStr "MS") 0%nat main_headers (JStr "P7")
                [124; 568] "Recalculate" 0%nat initial_world H) as T.
  cbv zeta in T. destruct T as (_ & T & _). exact T.
Defined.

Lemma success_message_normalizes_calc_markup_witness :
  let ts := [FontOpen; BoldOpen; Text "Sum"; BoldClose; Text " 10"; FontClose] in
  let w := submitted_world (answer_of (submission_ok portal_text))
             (answer_of (submission_ok "saved")) in
  both_succeeded (calc_response (w_frame w)) (save_response (w_frame w))
  = Ok true /\
  nm_result (calc_response (w_frame w)) = Ok (JStr (html ts)) /\
  forallb plain ts = true /\
  nm_result (save_response (w_frame w)) = Ok (JStr "saved") /\
  message (w_frame (snd (main_classify sample_repr w)))
  = Some (success_header ++ "**Sum** 10" ++ nl ++ "saved").
Proof.
  intros ts w.
  assert (H1 : both_succeeded (calc_response (w_frame w))
                 (save_response (w_frame w)) = Ok true) by reflexivity.
  assert (H2 : nm_result (calc_response (w_frame w)) = Ok (JStr (html ts)))
    by reflexivity.
  assert (H3 : forallb plain ts = true) by reflexivity.
  assert (H4 : nm_result (save_response (w_frame w)) = Ok (JStr "saved"))
    by reflexivity.
  repeat (split; [assumption|]).
  pose proof (success_message_normalizes_calc_markup sample_repr w ts
                (JStr "saved") H1 H2 H3 H4) as T.
  cbv zeta in T. destruct T as (_ & _ & T & _). exact T.
Defined.

Lemma get_electricity_vals_rounds_first_meter_witness :
  let data := snapshot_with [reading_123_5; reading_567_75] in
  let meter :=
    JDict [("type", JDict [("name", JStr electricity_label)]);
           ("vals", JList [reading_123_5; reading_567_75])] in
  valid_snapshot data = true /\
  find is_electricity (all_meters data) = Some meter /\
  vals_of meter = JList [reading_123_5; reading_567_75] /\
  forallb is_number [reading_123_5; reading_567_75] = true /\
  exists rounded,
    get_electricity_vals data = Ok rounded /\
    Forall2 nearest_integer [reading_123_5; reading_567_75] rounded /\
    Forall2 tie_to_even [reading_123_5; reading_567_75] rounded.
Proof.
  intros data meter.
  assert (H1 : valid_snapshot data = true) by reflexivity.
  assert (H2 : find is_electricity (all_meters data) = Some meter)
    by reflexivity.
  assert (H3 : vals_of meter = JList [reading_123_5; reading_567_75])
    by reflexivity.
  assert (H4 : forallb is_number [reading_123_5; reading_567_75] = true)
    by reflexivity.
  repeat (split; [assumption|]).
  exact (get_electricity_vals_rounds_first_meter data meter
           [reading_123_5; reading_567_75] H1 H2 H3 H4).
Defined.

Lemma scripted_handled (answers : list http_outcome) (h : list request)
    (r : request) :
  all_handled answers = true ->
  notifier_handles (scripted answers telegram_ok h r) = true.
Proof.
  unfold scripted, all_handled. generalize (List.length h) as n.
  induction answers as [|a answers IH]; intros n H.
  - destruct n; reflexivity.
  - cbn [forallb] in H. apply andb_prop in H. destruct H as [Ha Hs].
    destruct n; [exact Ha|]. cbn [nth]. now apply IH.
Defined.

Lemma fatal_metering_auth_skips_notifier_witness :
  let transport := scripted refused_login_answers telegram_ok in
  let env := the_env sample_environ in
  config_complete sample_environ = true /\
  sample_basic_config (ev_log_file (the_env sample_environ)) = None /\
  fst (authenticate_saures transport (ev_saures_api_url env) (ev_login env)
         (ev_saures_pass env) (start_world sample_now))
  = Raise (SystemExit 1) /\
  fst (main transport sample_repr sample_environ sample_now sample_basic_config initial_world)
  = Raise (unbound_local "message") /\
  telegram_sends
    (snd (main transport sample_repr sample_environ sample_now sample_basic_config initial_world))
  = [].
Proof.
  intros transport env.
  assert (H1 : config_complete sample_environ = true) by reflexivity.
  assert (H2 : fst (authenticate_saures transport (ev_saures_api_url env)
                      (ev_login env) (ev_saures_pass env)
                      (start_world sample_now)) = Raise (SystemExit 1))
    by reflexivity.
  assert (L : sample_basic_config (ev_log_file (the_env sample_environ))
               = None) by reflexivity.
  split; [exact H1|]. split; [exact L|]. split; [exact H2|].
  pose proof (fatal_metering_auth_skips_notifier transport sample_repr
                sample_environ sample_now sample_basic_config 1 H1 L H2) as T.
  cbv zeta in T. destruct T as (T1 & T2 & _).
  split; [exact T1|]. unfold telegram_sends. rewrite T2. reflexivity.
Defined.

Lemma fatal_exit_leaves_session_open_witness :
  let transport := scripted refused_provider_answers telegram_ok in
  let tried :=
    main_try transport sample_repr (the_env sample_environ) sample_now
      (start_world sample_now) in
  let out := main transport sample_repr sample_environ sample_now sample_basic_config
               initial_world in
  config_complete sample_environ = true /\
  sample_basic_config (ev_log_file (the_env sample_environ)) = None /\
  tried = (Raise (SystemExit 1), snd tried) /\
  session (w_frame (snd tried)) = Some 0%nat /\
  w_sessions (snd out) = 1%nat /\
  session (w_frame (snd out)) = Some 0%nat /\
  w_closed (snd out) = [].
Proof.
  intros transport tried out.
  assert (H1 : config_complete sample_environ = true) by reflexivity.
  assert (H2 : tried = (Raise (SystemExit 1), snd tried))
    by (vm_compute; reflexivity).
  assert (H3 : session (w_frame (snd tried)) = Some 0%nat)
    by (vm_compute; reflexivity).
  assert (L : sample_basic_config (ev_log_file (the_env sample_environ))
               = None) by reflexivity.
  split; [exact H1|]. split; [exact L|]. split; [exact H2|].
  split; [exact H3|].
  pose proof (fatal_exit_leaves_session_open transport sample_repr
                sample_environ sample_now sample_basic_config 1 (snd tried)
                0%nat H1 L H2 H3) as T.
  cbv zeta in T. destruct T as (T1 & T2 & _).
  split; [vm_compute; reflexivity|]. split; [exact T1|exact T2].
Defined.


Lemma too_few_readings_is_a_validation_failure_witness :
  let transport := scripted one_reading_answers telegram_ok in
  let env := the_env sample_environ in
  let login :=
    authenticate_saures transport (ev_saures_api_url env) (ev_login env)
      (ev_saures_pass env) (start_world sample_now) in
  let fetched :=
    fetch_saures_meter_data transport sample_repr (ev_saures_api_url env)
      (JStr "SID") (ev_meter_id env) sample_now (snd login) in
  let out := main transport sample_repr sample_environ sample_now sample_basic_config
               initial_world in
  (valid_snapshot water_snapshot = true /\
   (forall meter, In meter (all_meters water_snapshot) ->
                  is_electricity meter = false) /\
   get_electricity_vals water_snapshot = Ok []) /\
  config_complete sample_environ = true /\
  sample_basic_config (ev_log_file (the_env sample_environ)) = None /\
  login = (Ok (JStr "SID"), snd login) /\
  fetched = (Ok (snapshot_with [reading_123_5]), snd fetched) /\
  get_electricity_vals (snapshot_with [reading_123_5]) = Ok [124] /\
  (List.length [124] < 2)%nat /\
  w_sessions (snd out) = 0%nat /\
  message (w_frame (snd out)) =
    Some (unexpected_header ++ "Error: " ++
          "Not enough electricity values received.").
Proof.
  intros transport env login fetched out.
  pose proof (too_few_readings_is_a_validation_failure transport sample_repr
                sample_environ sample_now sample_basic_config) as [T1 T2].
  assert (A1 : valid_snapshot water_snapshot = true) by reflexivity.
  assert (A2 : forall meter, In meter (all_meters water_snapshot) ->
                             is_electricity meter = false).
  { intros meter [<-|[]]. reflexivity. }
  split; [split; [exact A1|split; [exact A2|exact (T1 _ A1 A2)]]|].
  assert (H1 : config_complete sample_environ = true) by reflexivity.
  assert (L : sample_basic_config (ev_log_file (the_env sample_environ))
               = None) by reflexivity.
  assert (H2 : login = (Ok (JStr "SID"), snd login))
    by (vm_compute; reflexivity).
  assert (H3 : fetched = (Ok (snapshot_with [reading_123_5]), snd fetched))
    by (vm_compute; reflexivity).
  assert (H4 : get_electricity_vals (snapshot_with [reading_123_5]) = Ok [124])
    by reflexivity.
  assert (H5 : (List.length [124] < 2)%nat) by (simpl; lia).
  repeat (split; [assumption|]).
  pose proof (T2 (JStr "SID") (snapshot_with [reading_123_5]) [124]
                (snd login) (snd fetched) H1 L H2 H3 H4 H5) as T.
  cbv zeta in T. destruct T as (_ & _ & S1 & _ & _ & S2 & _).
  split; [exact S1|exact S2].
Defined.


Lemma outcome_classification_witness :
  let good :=
    submitted_world (answer_of (submission_ok portal_text))
      (answer_of (submission_ok "saved")) in
  let w := submitted_world None (answer_of (submission_ok "saved")) in
  (indicator (calc_response (w_frame good)) = true /\
   indicator (save_response (w_frame good)) = true /\
   readable (calc_response (w_frame good)) (save_response (w_frame good))
   = true /\
   fst (try_except (main_classify sample_repr) main_except good) = Ok tt /\
   success
     (w_frame (snd (try_except (main_classify sample_repr) main_except good)))
   = true) /\
  absent_or_object (calc_response (w_frame w)) = true /\
  absent_or_object (save_response (w_frame w)) = true /\
  indicator (calc_response (w_frame w)) &&
  indicator (save_response (w_frame w)) = false /\
  success
    (w_frame (snd (try_except (main_classify sample_repr) main_except w)))
  = false /\
  message
    (w_frame (snd (try_except (main_classify sample_repr) main_except w)))
  = Some generic_failure_text.
Proof.
  intros good w.
  assert (G1 : indicator (calc_response (w_frame good)) = true)
    by reflexivity.
  assert (G2 : indicator (save_response (w_frame good)) = true)
    by reflexivity.
  assert (G3 : readable (calc_response (w_frame good))
                 (save_response (w_frame good)) = true) by reflexivity.
  assert (H1 : absent_or_object (calc_response (w_frame w)) = true)
    by reflexivity.
  assert (H2 : absent_or_object (save_response (w_frame w)) = true)
    by reflexivity.
  assert (H3 : indicator (calc_response (w_frame w)) &&
               indicator (save_response (w_frame w)) = false) by reflexivity.
  split.
  - pose proof (outcome_classification sample_repr good) as T.
    cbv zeta in T. destruct T as (T1 & T2 & _).
    split; [exact G1|]. split; [exact G2|]. split; [exact G3|].
    split; [exact T1|].
    exact (proj2 T2 (conj G1 (conj G2 G3))).
  - split; [exact H1|]. split; [exact H2|]. split; [exact H3|].
    pose proof (outcome_classification sample_repr w) as T.
    cbv zeta in T. destruct T as (_ & _ & T). exact (T H1 H2 H3).
Defined.

(** * Where the statements of the specification fail *)

(** C2: both answers are present with a true success indicator, but the
    CalcCharge answer has no ['data']: the run is a failure.  And a
    CalcCharge answer that is a JSON list, with no indicator, gives the
    notification of an unexpected failure, not the generic one. *)
Lemma outcome_classification_counterexample :
  (let w := snd (sample_run no_data_answers) in
   indicator (calc_response (w_frame w)) = true /\
   indicator (save_response (w_frame w)) = true /\
   success (w_frame w) = false) /\
  (let w := snd (sample_run list_answer_answers) in
   calc_response (w_frame w) = Some (JList [JInt 1]) /\
   indicator (calc_response (w_frame w)) = false /\
   success (w_frame w) = false /\
   message (w_frame w) <> Some generic_failure_text).
Proof.
  split.
  - vm_compute. repeat split.
  - vm_compute. repeat split. intros H. discriminate H.
Qed.

(** C3: with three values on the electricity meter, three are returned. *)
Lemma get_electricity_vals_counterexample :
  let data := snapshot_with [reading_123_5; reading_2_5; reading_567_75] in
  get_electricity_vals data = Ok [124; 2; 568] /\
  get_electricity_vals data <> Ok [124; 2].
Proof.
  split; [reflexivity|]. vm_compute. intros H. discriminate H.
Qed.

(** C4: the SaveIndications text reaches the notification with its bold
    tags; and a CalcCharge text in which a removal puts a font tag
    together keeps that tag. *)
Lemma success_message_counterexample :
  (let r := sample_run markup_answers in
   let text := success_header ++ "**Sum** 10" ++ nl ++ "<b>saved</b>" in
   fst r = 0 /\
   success (w_frame (snd r)) = true /\
   notified_texts (snd r) = [Some (JStr text); Some (JStr text)] /\
   PyStr.contains bold_open text = true /\
   PyStr.contains bold_close text = true) /\
  PyStr.contains font_open spliced_text = true /\
  PyStr.contains bold_open spliced_text = true /\
  clean_markup spliced_text = "**Sum**" ++ font_open /\
  PyStr.contains font_open (clean_markup spliced_text) = true.
Proof. vm_compute. repeat split. Qed.


(** C9: a call with fewer than two values raises before the update, and
    the caller's dictionary is as it was. *)
Lemma send_mosenergo_data_counterexample :
  let w := snd (new_dict calc_payload initial_world) in
  let out :=
    send_mosenergo_data (scripted [] telegram_ok) sample_repr
      "https://lk.example" (JStr "MS") 0 main_headers (JStr "P7") [124]
      "CalcCharge" 0 w in
  fst out = Raise (PyExc IndexError "list index out of range") /\
  w_heap (snd out) 0%nat = calc_payload /\
  Py.has_key "vl_provider" (w_heap (snd out) 0%nat) = false /\
  w_sent (snd out) = [].
Proof. vm_compute. repeat split. Qed.

(** * Further properties of the script *)

(** ** The helpers that end the run *)

Section Helpers.

Variable transport : list request -> request -> http_outcome.
Variable py_repr : json -> string.

Lemma eq_str_ok (v : json) (s : string) :
  Py.eq_str v s = true -> v = JStr s.
Proof.
  destruct v; cbn; try discriminate. intros H.
  apply String.eqb_eq in H. now subst.
Qed.

Ltac shape_error :=
  solve [ left; reflexivity
        | right; eexists; left; reflexivity
        | right; eexists; right; left; reflexivity
        | right; eexists; right; right; reflexivity ].

Ltac open_answer :=
  repeat match goal with
         | |- context [match ?x with _ => _ end] =>
             destruct x eqn:?; cbn -[String.append String.eqb]
         end.

Ltac raised_case :=
  let e := fresh "e" in
  let H := fresh "H" in
  intros e H; try discriminate H; injection H as <-; shape_error.

Ltac no_return :=
  let v := fresh "v" in
  let H := fresh "H" in
  intros v H; discriminate H.

(** X4: [authenticate_saures] returns a session id only when the answer
    is an object whose ['status'] is the string 'ok' and whose ['data'] is
    an object with a ['sid'], which is the value returned; it issues its
    one login request on every path; and it never lets a
    [RequestException], [ValueError] or [KeyError] out: whatever it
    raises is [SystemExit 1] or a shape error of the answer. *)
Theorem authenticate_saures_cases (api_url login password : string)
    (w : world) :
  let out := authenticate_saures transport api_url login password w in
  (forall sid,
      fst out = Ok sid <->
      exists d dd,
        transport (w_sent w) (saures_login_request api_url login password)
        = HttpJson (JDict d) /\
        Py.lookup "status" d = Some (JStr "ok") /\
        Py.lookup "data" d = Some (JDict dd) /\
        Py.lookup "sid" dd = Some sid) /\
  (forall e, fst out = Raise e -> exits_or_shape_error e) /\
  w_sent (snd out) = saures_login_request api_url login password :: w_sent w.
Proof.
  unfold authenticate_saures, saures_login_request, try_except, bind, http,
    lift, logging, sys_exit, raise, exits_or_shape_error.
  cbv beta iota zeta. cbn [w_sent logged].
  match goal with
  | |- context [transport ?h ?r] =>
      destruct (transport h r) as [msg rt|msg|result] eqn:T
  end; cbn -[String.append String.eqb].
  - split; [|split; [raised_case|reflexivity]].
    intros sid. split; [discriminate|intros (d & dd & H & _); discriminate H].
  - split; [|split; [raised_case|reflexivity]].
    intros sid. split; [discriminate|intros (d & dd & H & _); discriminate H].
  - destruct result as [| | | | | |d];
      try (cbn -[String.append String.eqb];
           split; [|split; [raised_case|reflexivity]];
           intros sid; split;
           [discriminate|intros (d0 & dd & H & _); discriminate H]).
    rewrite get_object. cbv beta iota.
    destruct (Py.lookup "status" d) as [st|] eqn:S.
    2:{ cbn -[String.append String.eqb].
        split; [|split; [raised_case|reflexivity]].
        intros sid. split; [discriminate|].
        intros (d0 & dd & H & H1 & _). injection H as <-. congruence. }
    destruct (Py.eq_str st "ok") eqn:E.
    2:{ cbn -[String.append String.eqb].
        split; [|split; [raised_case|reflexivity]].
        intros sid. split; [discriminate|].
        intros (d0 & dd & H & H1 & _). injection H as <-.
        rewrite S in H1. injection H1 as ->. cbn in E.
        discriminate E. }
    apply eq_str_ok in E. subst st.
    cbn [Py.getitem_str].
    destruct (Py.lookup "data" d) as [x|] eqn:D.
    2:{ cbn -[String.append String.eqb].
        split; [|split; [raised_case|reflexivity]].
        intros sid. split; [discriminate|].
        intros (d0 & dd & H & _ & H2 & _). injection H as <-. congruence. }
    cbv beta iota.
    destruct x as [| | | | | |dd];
      try (cbn -[String.append String.eqb];
           split; [|split; [raised_case|reflexivity]];
           intros sid; split;
           [discriminate
           |intros (d0 & dd & H & _ & H2 & _); injection H as <-;
            rewrite D in H2; discriminate H2]).
    cbn [Py.getitem_str].
    destruct (Py.lookup "sid" dd) as [v|] eqn:V;
      cbn -[String.append String.eqb].
    + split; [|split; [no_return|reflexivity]].
      intros sid. split.
      * intros H. injection H as <-. exists d, dd. repeat split; assumption.
      * intros (d0 & dd0 & H & _ & H2 & H3). injection H as <-.
        rewrite D in H2. injection H2 as <-. congruence.
    + split; [|split; [raised_case|reflexivity]].
      intros sid. split; [discriminate|].
      intros (d0 & dd0 & H & _ & H2 & H3). injection H as <-.
      rewrite D in H2. injection H2 as <-. congruence.
Qed.

Ltac refute :=
  let H := fresh "H" in
  intros H; decompose [ex and] H; clear H; subst;
  try discriminate; try congruence.

Ltac dead_end :=
  cbn -[String.append String.eqb];
  split; [|split; [raised_case|repeat split]];
  let v := fresh "v" in
  intros v; split; [discriminate|refute].

(** X5: [fetch_saures_meter_data] returns the ['data'] of the answer
    only when the answer is an object whose ['status'] is the string
    'ok'; it issues its one request on every path; and whatever it
    raises is [SystemExit 1] or a shape error of the answer. *)
Theorem fetch_saures_meter_data_cases (api_url : string) (sid : json)
    (meter_id current_time : string) (w : world) :
  let out := fetch_saures_meter_data transport py_repr api_url sid meter_id
               current_time w in
  (forall data,
      fst out = Ok data <->
      exists d,
        transport (w_sent w)
          (meters_request py_repr api_url sid meter_id current_time)
        = HttpJson (JDict d) /\
        Py.lookup "status" d = Some (JStr "ok") /\
        Py.lookup "data" d = Some data) /\
  (forall e, fst out = Raise e -> exits_or_shape_error e) /\
  w_sent (snd out) =
    meters_request py_repr api_url sid meter_id current_time :: w_sent w.
Proof.
  unfold fetch_saures_meter_data, meters_request, try_except, bind, http,
    lift, logging, sys_exit, raise, exits_or_shape_error.
  cbv beta iota zeta. cbn [w_sent logged].
  match goal with
  | |- context [transport ?h ?r] =>
      destruct (transport h r) as [msg rt|msg|result] eqn:T
  end; [dead_end|dead_end|].
  destruct result as [| | | | | |d]; try dead_end.
  rewrite get_object. cbv beta iota.
  destruct (Py.lookup "status" d) as [st|] eqn:S; [|dead_end].
  destruct (Py.eq_str st "ok") eqn:E.
  2:{ dead_end. assert (st = JStr "ok") by congruence. subst st.
      discriminate E. }
  apply eq_str_ok in E. subst st. cbn [Py.getitem_str].
  destruct (Py.lookup "data" d) as [x|] eqn:D; [|dead_end].
  cbn -[String.append String.eqb].
  split; [|split; [no_return|reflexivity]].
  intros data. split.
  - intros H. injection H as <-. exists d. repeat split; assumption.
  - refute.
Qed.

Ltac settle :=
  cbn -[String.append String.eqb];
  repeat match goal with |- _ /\ _ => split end;
  first
    [ reflexivity
    | raised_case
    | intros; split; [discriminate|refute]
    | intros; congruence ].

(** X6: [authenticate_mosenergo] creates one [requests.Session] on every
    path and issues its login request through it.  It returns only when
    the answer is an object with a true ['success'] whose ['data'] is a
    list that starts with an object holding ['session']; it returns that
    value with the new session.  Whatever it raises is [SystemExit 1] or
    a shape error of the answer; an empty ['data'] list gives an
    [IndexError], which it does not catch. *)
Theorem authenticate_mosenergo_cases (lk_url login password : string)
    (w : world) :
  let out := authenticate_mosenergo transport lk_url login password w in
  let req := mosenergo_login_request lk_url login password (w_sessions w) in
  (forall session_id session,
      fst out = Ok (session_id, session) <->
      session = w_sessions w /\
      exists d ok dd rest,
        transport (w_sent w) req = HttpJson (JDict d) /\
        Py.lookup "success" d = Some ok /\ Py.truthy ok = true /\
        Py.lookup "data" d = Some (JList (JDict dd :: rest)) /\
        Py.lookup "session" dd = Some session_id) /\
  (forall e, fst out = Raise e -> exits_or_shape_error e) /\
  w_sent (snd out) = req :: w_sent w /\
  w_sessions (snd out) = S (w_sessions w) /\
  (forall d ok,
      transport (w_sent w) req = HttpJson (JDict d) ->
      Py.lookup "success" d = Some ok -> Py.truthy ok = true ->
      Py.lookup "data" d = Some (JList []) ->
      fst out = Raise (PyExc IndexError "list index out of range")).
Proof.
  unfold authenticate_mosenergo, mosenergo_login_request, try_except, bind,
    http, lift, logging, sys_exit, raise, new_session, ret,
    exits_or_shape_error.
  cbv beta iota zeta. cbn [w_sent w_sessions logged].
  match goal with
  | |- context [transport ?h ?r] =>
      destruct (transport h r) as [msg rt|msg|result] eqn:T
  end; [settle|settle|].
  destruct result as [| | | | | |d]; try settle.
  rewrite get_object. cbv beta iota.
  destruct (Py.lookup "success" d) as [ok|] eqn:S; [|settle].
  destruct (Py.truthy ok) eqn:Tr; [|settle].
  cbn [Py.getitem_str].
  destruct (Py.lookup "data" d) as [x|] eqn:D; [|settle].
  cbv beta iota.
  destruct x as [| | | |s|l|dx]; try settle.
  - destruct s; settle.
  - destruct l as [|d0 l]; [settle|].
    destruct d0 as [| | | | | |dd]; try settle.
    cbn [Py.getitem_0 Py.getitem_str].
    destruct (Py.lookup "session" dd) as [v|] eqn:V; [|settle].
    cbn -[String.append String.eqb].
    repeat match goal with |- _ /\ _ => split end;
      try reflexivity; try no_return; try (intros; congruence).
    intros session_id session. split.
    + intros H. injection H as <- <-. split; [reflexivity|].
      exists d, ok, dd, l. repeat split; assumption.
    + refute.
Qed.

(** X7: [fetch_mosenergo_provider] returns only when the answer is an
    object with a true ['success'] whose ['data'] is a list that starts
    with an object holding ['vl_provider'], the value returned; it issues
    its one request, through the session it is given, on every path.
    Whatever it raises is [SystemExit 1] or a shape error of the answer;
    an empty ['data'] list gives an [IndexError], which it does not
    catch. *)
Theorem fetch_mosenergo_provider_cases (lk_url : string) (session_id : json)
    (session : nat) (headers : list (string * string)) (w : world) :
  let out := fetch_mosenergo_provider transport py_repr lk_url session_id
               session headers w in
  let req := provider_request py_repr lk_url session_id session headers in
  (forall provider_id,
      fst out = Ok provider_id <->
      exists d ok dd rest,
        transport (w_sent w) req = HttpJson (JDict d) /\
        Py.lookup "success" d = Some ok /\ Py.truthy ok = true /\
        Py.lookup "data" d = Some (JList (JDict dd :: rest)) /\
        Py.lookup "vl_provider" dd = Some provider_id) /\
  (forall e, fst out = Raise e -> exits_or_shape_error e) /\
  w_sent (snd out) = req :: w_sent w /\
  w_sessions (snd out) = w_sessions w /\
  (forall d ok,
      transport (w_sent w) req = HttpJson (JDict d) ->
      Py.lookup "success" d = Some ok -> Py.truthy ok = true ->
      Py.lookup "data" d = Some (JList []) ->
      fst out = Raise (PyExc IndexError "list index out of range")).
Proof.
  unfold fetch_mosenergo_provider, provider_request, try_except, bind,
    http, lift, logging, sys_exit, raise, ret, exits_or_shape_error.
  cbv beta iota zeta. cbn [w_sent w_sessions logged].
  match goal with
  | |- context [transport ?h ?r] =>
      destruct (transport h r) as [msg rt|msg|result] eqn:T
  end; [settle|settle|].
  destruct result as [| | | | | |d]; try settle.
  rewrite get_object. cbv beta iota.
  destruct (Py.lookup "success" d) as [ok|] eqn:S; [|settle].
  destruct (Py.truthy ok) eqn:Tr; [|settle].
  cbn [Py.getitem_str].
  destruct (Py.lookup "data" d) as [x|] eqn:D; [|settle].
  cbv beta iota.
  destruct x as [| | | |s|l|dx]; try settle.
  - destruct s; settle.
  - destruct l as [|d0 l]; [settle|].
    destruct d0 as [| | | | | |dd]; try settle.
    cbn [Py.getitem_0 Py.getitem_str].
    destruct (Py.lookup "vl_provider" dd) as [v|] eqn:V; [|settle].
    cbn -[String.append String.eqb].
    repeat match goal with |- _ /\ _ => split end;
      try reflexivity; try no_return; try (intros; congruence).
    intros provider_id. split.
    + intros H. injection H as <-.
      exists d, ok, dd, l. repeat split; assumption.
    + refute.
Qed.

End Helpers.

(** ** What the set-up leaves behind *)

Section Prepare.

Variable transport : list request -> request -> http_outcome.
Variable py_repr : json -> string.

Ltac effects :=
  cbn -[String.append String.eqb];
  first
    [ reflexivity
    | split; [reflexivity|split; [reflexivity|]];
      let r := fresh "r" in
      let H := fresh "H" in
      intros r H; try discriminate H; now injection H as <- ].

(** The session, the request and the counter of [authenticate_mosenergo]. *)
Lemma authenticate_mosenergo_effects (lk_url login password : string)
    (w : world) :
  let out := authenticate_mosenergo transport lk_url login password w in
  w_sent (snd out) =
    mosenergo_login_request lk_url login password (w_sessions w) :: w_sent w /\
  w_sessions (snd out) = S (w_sessions w) /\
  (forall r, fst out = Ok r -> snd r = w_sessions w).
Proof.
  unfold authenticate_mosenergo, mosenergo_login_request, try_except, bind,
    http, lift, logging, sys_exit, raise, new_session, ret.
  cbv beta iota zeta. cbn [w_sent w_sessions logged].
  match goal with
  | |- context [transport ?h ?r] =>
      destruct (transport h r) as [msg rt|msg|result]
  end; [effects|effects|].
  destruct result as [| | | | | |d]; try effects.
  rewrite get_object. cbv beta iota.
  destruct (Py.lookup "success" d) as [ok|]; [|effects].
  destruct (Py.truthy ok); [|effects].
  cbn [Py.getitem_str].
  destruct (Py.lookup "data" d) as [x|]; [|effects].
  cbv beta iota.
  destruct x as [| | | |s|l|dx]; try effects.
  - destruct s; effects.
  - destruct l as [|d0 l]; [effects|].
    destruct d0 as [| | | | | |dd]; try effects.
    cbn [Py.getitem_0 Py.getitem_str].
    destruct (Py.lookup "session" dd) as [v|]; effects.
Qed.

Lemma fetch_mosenergo_provider_effects (lk_url : string) (session_id : json)
    (session : nat) (headers : list (string * string)) (w : world) :
  let out := fetch_mosenergo_provider transport py_repr lk_url session_id
               session headers w in
  w_sent (snd out) =
    provider_request py_repr lk_url session_id session headers :: w_sent w.
Proof.
  unfold fetch_mosenergo_provider, provider_request, try_except, bind,
    http, lift, logging, sys_exit, raise, ret.
  cbv beta iota zeta. cbn [w_sent w_sessions logged].
  match goal with
  | |- context [transport ?h ?r] =>
      destruct (transport h r) as [msg rt|msg|result]
  end; [effects|effects|].
  destruct result as [| | | | | |d]; try effects.
  rewrite get_object. cbv beta iota.
  destruct (Py.lookup "success" d) as [ok|]; [|effects].
  destruct (Py.truthy ok); [|effects].
  cbn [Py.getitem_str].
  destruct (Py.lookup "data" d) as [x|]; [|effects].
  cbv beta iota.
  destruct x as [| | | |s|l|dx]; try effects.
  - destruct s; effects.
  - destruct l as [|d0 l]; [effects|].
    destruct d0 as [| | | | | |dd]; try effects.
    cbn [Py.getitem_0 Py.getitem_str].
    destruct (Py.lookup "vl_provider" dd) as [v|]; effects.
Qed.

Lemma mosenergo_same_frame (lk_url login password : string) :
  keeps same_frame (authenticate_mosenergo transport lk_url login password).
Proof.
  apply keeps_authenticate_mosenergo;
    solve [ intros; split; reflexivity
          | intros w1 w2 w3 [A B] [C D]; split; congruence ].
Qed.

Lemma provider_same_objects lk_url session_id session headers :
  keeps same_objects
    (fetch_mosenergo_provider transport py_repr lk_url session_id session
       headers).
Proof.
  apply keeps_fetch_mosenergo_provider;
    solve [ exact same_objects_refl | exact same_objects_trans
          | intros; repeat split ].
Qed.

(** What a set-up that returns has done. *)
Lemma main_prepare_returns env now (w w4 : world) (p : prepared) :
  main_prepare transport py_repr env now w = (Ok p, w4) ->
  (2 <= List.length (p_electricity_values p))%nat /\
  p_session p = w_sessions w /\
  w_sessions w4 = S (w_sessions w) /\
  session (w_frame w4) = Some (p_session p) /\
  message (w_frame w4) = message (w_frame w) /\
  w_closed w4 = w_closed w /\
  exists sid,
    w_sent w4 =
      provider_request py_repr (ev_mosenergo_lk_url env) (p_session_id p)
        (p_session p) main_headers ::
      mosenergo_login_request (ev_mosenergo_lk_url env) (ev_login env)
        (ev_mosenergo_pass env) (p_session p) ::
      meters_request py_repr (ev_saures_api_url env) sid (ev_meter_id env) now ::
      saures_login_request (ev_saures_api_url env) (ev_login env)
        (ev_saures_pass env) :: w_sent w.
Proof.
  intros H. unfold main_prepare in H.
  (* Saures login *)
  unfold bind at 1 in H.
  pose proof (authenticate_saures_sent transport (ev_saures_api_url env)
                (ev_login env) (ev_saures_pass env) w) as S1.
  destruct (saures_same_objects transport py_repr (ev_saures_api_url env)
              (ev_login env) (ev_saures_pass env) JNull "" "") as [K1 _].
  specialize (K1 w).
  destruct (authenticate_saures transport _ _ _ w) as [[sid|e] w1];
    [|discriminate H].
  cbn [snd] in S1, K1. destruct K1 as (F1 & C1 & N1 & _).
  (* meter data *)
  unfold bind at 1 in H.
  pose proof (fetch_saures_meter_data_sent transport py_repr
                (ev_saures_api_url env) sid (ev_meter_id env) now w1) as S2.
  destruct (saures_same_objects transport py_repr (ev_saures_api_url env)
              (ev_login env) (ev_saures_pass env) sid (ev_meter_id env) now)
    as [_ K2].
  specialize (K2 w1).
  destruct (fetch_saures_meter_data transport py_repr _ sid _ now w1)
    as [[data|e] w2]; [|discriminate H].
  cbn [snd] in S2, K2. destruct K2 as (F2 & C2 & N2 & _).
  (* the values *)
  unfold bind at 1 in H. unfold lift at 1 in H.
  destruct (get_electricity_vals data) as [vals|e]; [|discriminate H].
  unfold bind at 1 in H.
  destruct (Z.of_nat (List.length vals) <? 2) eqn:L; [discriminate H|].
  apply Z.ltb_ge in L. unfold ret at 1 in H.
  unfold bind at 1 in H. unfold logging at 1 in H.
  (* Mosenergosbyt login *)
  unfold bind at 1 in H.
  set (w2' := logged _ w2) in H.
  destruct (authenticate_mosenergo_effects (ev_mosenergo_lk_url env)
              (ev_login env) (ev_mosenergo_pass env) w2') as (S3 & N3 & R3).
  pose proof (mosenergo_same_frame (ev_mosenergo_lk_url env) (ev_login env)
                (ev_mosenergo_pass env) w2') as K3.
  destruct (authenticate_mosenergo transport _ _ _ w2') as [[auth|e] w3];
    [|discriminate H].
  cbn [fst snd] in S3, N3, R3, K3. destruct K3 as (F3 & C3).
  specialize (R3 auth eq_refl).
  unfold bind at 1 in H. unfold set_frame at 1 in H.
  (* provider *)
  unfold bind at 1 in H.
  set (w3' := with_frame w3 _) in H.
  pose proof (fetch_mosenergo_provider_effects (ev_mosenergo_lk_url env)
                (fst auth) (snd auth) main_headers w3') as S4.
  pose proof (provider_same_objects (ev_mosenergo_lk_url env) (fst auth)
                (snd auth) main_headers w3') as K4.
  destruct (fetch_mosenergo_provider transport py_repr _ _ _ _ w3')
    as [[provider_id|e] w5]; [|discriminate H].
  cbn [snd] in S4, K4. destruct K4 as (F4 & C4 & N4 & _).
  unfold ret in H. injection H as <- <-.
  cbn [p_electricity_values p_session p_session_id].
  subst w3' w2'. cbn in *.
  split; [lia|].
  split; [congruence|].
  split; [congruence|].
  split; [now rewrite F4|].
  split; [rewrite F4; cbn; congruence|].
  split; [congruence|].
  exists sid. rewrite S4, S3, S2, S1. rewrite R3. repeat f_equal; congruence.
Qed.

End Prepare.

(** ** Configuration and notifier *)

Section Leaves.

Variable transport : list request -> request -> http_outcome.
Variable py_repr : json -> string.
Variable environ : string -> option string.
Variable now : string.
Variable basic_config : string -> option string.

Lemma forallb_filter_negb {A : Type} (p : A -> bool) (l : list A) :
  forallb p l = true <-> filter (fun x => negb (p x)) l = [].
Proof.
  induction l as [|x l IH]; cbn; [tauto|].
  destruct (p x); cbn; [exact IH|]. split; discriminate.
Qed.

(** X1: [setup_environment] returns the configuration exactly when each
    of the nine variables is set to a non-empty value, and then changes
    nothing; a variable that is unset or set to the empty string makes it
    log one error that names the missing variables in the order of the
    list, joined by [", "], and raise [SystemExit 1]. *)
Theorem setup_environment_cases (w : world) :
  let out := setup_environment environ w in
  (missing_vars environ = [] <->
   forall var, In var required_env_vars ->
               exists v, environ var = Some v /\ v <> "") /\
  (missing_vars environ = [] -> out = (Ok (the_env environ), w)) /\
  (missing_vars environ <> [] ->
   out = (Raise (SystemExit 1),
          logged (ERROR, "Missing environment variables: %s",
                  [JStr (PyStr.join ", " (missing_vars environ))]) w)) /\
  (forall var, In var (missing_vars environ) <->
               In var required_env_vars /\
               (environ var = None \/ environ var = Some "")).
Proof.
  assert (Hmiss : forall var,
             negb (PyStr.nonempty (env_get environ var "")) = true <->
             environ var = None \/ environ var = Some "").
  { intros var. unfold env_get.
    destruct (environ var) as [[|c v]|]; cbn; split; auto;
      try discriminate; intros [H|H]; discriminate H. }
  cbv zeta. split; [|split; [|split]].
  - unfold missing_vars. rewrite <- forallb_filter_negb, forallb_forall.
    split; intros H var Hin; specialize (H var Hin).
    + unfold env_get in H. destruct (environ var) as [[|c v]|];
        try discriminate H. eexists. split; [reflexivity|discriminate].
    + unfold env_get. destruct H as (v & -> & Hv).
      destruct v; [congruence|reflexivity].
  - intros H. unfold setup_environment. fold (missing_vars environ).
    rewrite H. reflexivity.
  - intros H. unfold setup_environment. fold (missing_vars environ).
    destruct (missing_vars environ) as [|v vs]; [congruence|reflexivity].
  - intros var. unfold missing_vars. rewrite filter_In, Hmiss. reflexivity.
Qed.

(** X2: with a mandatory variable missing, [main] ends before its [try]
    statement: it raises [SystemExit 1], the process exits with status 1,
    no request is issued (so nobody is notified), no session is created,
    and the log holds the one record of [setup_environment]. *)
Theorem missing_configuration_notifies_nobody :
  config_complete environ = false ->
  let out := main transport py_repr environ now basic_config initial_world in
  fst out = Raise (SystemExit 1) /\
  fst (run_script transport py_repr environ now basic_config) = 1 /\
  w_sent (snd out) = [] /\
  w_sessions (snd out) = 0%nat /\
  w_log (snd out) =
    [(ERROR, "Missing environment variables: %s",
      [JStr (PyStr.join ", " (missing_vars environ))])].
Proof.
  intros Hc. cbv zeta.
  assert (E : main transport py_repr environ now basic_config initial_world =
              (Raise (SystemExit 1),
               logged (ERROR, "Missing environment variables: %s",
                       [JStr (PyStr.join ", " (missing_vars environ))])
                 initial_world)).
  { unfold main, bind, setup_environment. fold (missing_vars environ).
    destruct (missing_vars environ) as [|v vs] eqn:M; [|reflexivity].
    unfold missing_vars in M. apply forallb_filter_negb in M.
    unfold config_complete in Hc. congruence. }
  unfold run_script. rewrite E. repeat split.
Qed.

(** X3: [send_telegram_message] issues one request to the bot and
    touches nothing else.  It returns [True] exactly when the answer is
    an object with a true ['ok'], and [False] on a transport error; it
    never raises a [RequestException] or [SystemExit]: what it raises is
    the [ValueError] of a body that does not decode or the
    [AttributeError] of an answer that is not an object. *)
Theorem send_telegram_message_cases (token chat_id text : string) (w : world) :
  let req := telegram_request token chat_id text in
  let out := send_telegram_message transport token chat_id text w in
  (fst out = Ok true <->
   exists d ok, transport (w_sent w) req = HttpJson (JDict d) /\
                Py.lookup "ok" d = Some ok /\ Py.truthy ok = true) /\
  (forall msg rt, transport (w_sent w) req = HttpFail msg rt ->
                  fst out = Ok false) /\
  (forall e, fst out = Raise e -> notifier_error e) /\
  w_sent (snd out) = req :: w_sent w /\
  same_objects w (snd out).
Proof.
  unfold send_telegram_message, telegram_request, try_except, bind, http,
    lift, logging, ret, notifier_error.
  cbv beta iota zeta.
  match goal with
  | |- context [transport ?h ?r] =>
      destruct (transport h r) as [msg rt|msg|result] eqn:T
  end.
  - cbn. split; [split; [discriminate|intros (d & ok & H & _); discriminate H]|].
    split; [reflexivity|]. split; [intros e H; discriminate H|].
    repeat split.
  - cbn. split; [split; [discriminate|intros (d & ok & H & _); discriminate H]|].
    split; [intros m r H; discriminate H|].
    split; [intros e H; injection H as <-; eexists; left; reflexivity|].
    repeat split.
  - destruct result as [| | | | | |d];
      try (cbn;
           split; [split; [discriminate
                          |intros (d & ok & H & _); discriminate H]|];
           split; [intros m r H; discriminate H|];
           split; [intros e H; injection H as <-; eexists; right; reflexivity|];
           repeat split).
    rewrite get_object. cbv beta iota.
    destruct (Py.lookup "ok" d) as [ok|] eqn:L.
    + destruct (Py.truthy ok) eqn:Tr; cbn.
      * split; [split; [intros _; exists d, ok; auto|reflexivity]|].
        split; [intros m r H; discriminate H|].
        split; [intros e H; discriminate H|]. repeat split.
      * split; [split; [discriminate|]|].
        { intros (d0 & ok0 & H & H1 & H2). injection H as <-. congruence. }
        split; [intros m r H; discriminate H|].
        split; [intros e H; discriminate H|]. repeat split.
    + cbn.
      split; [split; [discriminate|]|].
      { intros (d0 & ok0 & H & H1 & H2). injection H as <-. congruence. }
      split; [intros m r H; discriminate H|].
      split; [intros e H; discriminate H|]. repeat split.
Qed.

End Leaves.

(** ** Recipients and plain texts *)

Section Texts.

Variable transport : list request -> request -> http_outcome.

Lemma append_empty_r (s : string) : s ++ "" = s.
Proof. induction s as [|c s IH]; cbn; [reflexivity|now rewrite IH]. Qed.

Lemma append_assoc (a b c : string) : (a ++ b) ++ c = a ++ (b ++ c).
Proof. induction a as [|x a IH]; cbn; [reflexivity|now rewrite IH]. Qed.

Lemma free_of_app (c : ascii) (s t : string) :
  free_of c (s ++ t) = free_of c s && free_of c t.
Proof.
  induction s as [|a s IH]; cbn; [reflexivity|].
  now rewrite IH, andb_assoc.
Qed.

Lemma split_scan_join (sep : ascii) (s acc : string) :
  String.concat (String sep "") (PyStr.split_scan sep s acc) = acc ++ s.
Proof.
  revert acc. induction s as [|c s IH]; intros acc.
  - cbn. now rewrite append_empty_r.
  - cbn [PyStr.split_scan]. destruct (Ascii.eqb c sep) eqn:E.
    + apply Ascii.eqb_eq in E. subst c.
      pose proof (split_scan_not_nil sep s "") as Hne.
      specialize (IH "").
      destruct (PyStr.split_scan sep s "") as [|x xs]; [congruence|].
      cbn [String.concat]. cbn [String.concat] in IH.
      rewrite IH. reflexivity.
    + rewrite IH, append_assoc. reflexivity.
Qed.

Lemma split_scan_free (sep : ascii) (s acc : string) :
  free_of sep acc = true ->
  Forall (fun field => free_of sep field = true) (PyStr.split_scan sep s acc).
Proof.
  revert acc. induction s as [|c s IH]; intros acc Ha.
  - cbn. constructor; [exact Ha|constructor].
  - cbn [PyStr.split_scan]. destruct (Ascii.eqb c sep) eqn:E.
    + constructor; [exact Ha|]. now apply IH.
    + apply IH. rewrite free_of_app, Ha. cbn. now rewrite E.
Qed.

Lemma split_scan_length (sep : ascii) (s acc : string) :
  List.length (PyStr.split_scan sep s acc) = S (count_char sep s).
Proof.
  revert acc. induction s as [|c s IH]; intros acc; [reflexivity|].
  cbn [PyStr.split_scan count_char].
  destruct (Ascii.eqb c sep); cbn; now rewrite IH.
Qed.

(** X15: the recipient ids are the comma-separated fields of
    TELEGRAM_CHAT_ID, kept as they are, the empty ones too: joined by
    commas they give the setting back, none holds a comma, and there is
    one more of them than there are commas. *)
Theorem recipients_are_the_fields (env : env_vars) :
  PyStr.join "," (recipients env) = ev_telegram_chat_id env /\
  Forall (fun id_ => free_of "," id_ = true) (recipients env) /\
  List.length (recipients env) = S (count_char "," (ev_telegram_chat_id env)).
Proof.
  unfold recipients, PyStr.split, PyStr.join.
  split; [apply (split_scan_join "," (ev_telegram_chat_id env) "")|].
  split; [now apply split_scan_free|apply split_scan_length].
Qed.

(** X16: a text without ["<"] passes the four replacements unchanged. *)
Theorem clean_markup_plain_text (s : string) :
  no_lt s = true -> clean_markup s = s.
Proof.
  intros H.
  assert (E : html [Text s] = s) by (cbn; apply append_empty_r).
  rewrite <- E at 1. rewrite clean_markup_html.
  - cbn. apply append_empty_r.
  - cbn. now rewrite H.
Qed.

(** A notification whose answer is handled: the call returns, with the
    request issued and one record of the notifier logged. *)
Lemma send_telegram_message_handled (token chat_id text : string)
    (w : world) :
  notifier_handles
    (transport (w_sent w) (telegram_request token chat_id text)) = true ->
  exists b l,
    send_telegram_message transport token chat_id text w =
    (Ok b, logged l (sent (telegram_request token chat_id text) w)) /\
    notifier_record l = true.
Proof.
  intros Hn.
  unfold send_telegram_message, try_except, bind, http, lift, logging, ret.
  fold (telegram_request token chat_id text).
  destruct (transport (w_sent w) (telegram_request token chat_id text))
    as [msg rt|msg|result]; [|discriminate Hn|].
  - eexists. eexists. cbn. split; reflexivity.
  - destruct result as [| | | | | |d]; try discriminate Hn.
    rewrite get_object. cbv beta iota.
    destruct (Py.truthy _); cbn; eexists; eexists; split; reflexivity.
Qed.

(** A notification whose answer is not handled: the call raises once the
    request is issued, and logs nothing. *)
Lemma send_telegram_message_unhandled (token chat_id text : string)
    (w : world) :
  notifier_handles
    (transport (w_sent w) (telegram_request token chat_id text)) = false ->
  exists e,
    send_telegram_message transport token chat_id text w =
    (Raise e, sent (telegram_request token chat_id text) w) /\
    is_Exception e = true.
Proof.
  intros Hn.
  unfold send_telegram_message, try_except, bind, http, lift, logging, ret.
  fold (telegram_request token chat_id text).
  destruct (transport (w_sent w) (telegram_request token chat_id text))
    as [msg rt|msg|result]; [discriminate Hn| |].
  - eexists. split; [cbn; reflexivity|reflexivity].
  - destruct result as [| | | | | |d]; try discriminate Hn;
      (eexists; split; [cbn; reflexivity|reflexivity]).
Qed.

(** The loop over the recipients when the answers to [served] are handled
    and the answer to the next recipient is not. *)
Lemma notify_until (token text id_ : string) (served others : list string)
    (w : world) :
  message (w_frame w) = Some text ->
  (forall before id' after,
      served = (before ++ id' :: after)%list ->
      notifier_handles
        (transport (notifications token text before ++ w_sent w)%list
           (telegram_request token id' text)) = true) ->
  notifier_handles
    (transport (notifications token text served ++ w_sent w)%list
       (telegram_request token id_ text)) = false ->
  exists e records w',
    for_each (served ++ id_ :: others)%list (notify_one transport token) w
    = (Raise e, w') /\
    is_Exception e = true /\
    w_sent w' =
      (telegram_request token id_ text ::
       notifications token text served ++ w_sent w)%list /\
    w_closed w' = w_closed w /\
    w_frame w' = w_frame w /\
    w_log w' = (records ++ w_log w)%list /\
    List.length records = List.length served /\
    forallb notifier_record records = true.
Proof.
  revert w. induction served as [|s served IH]; intros w Hm Hpre Hn.
  - cbn [app notifications map rev] in Hn. cbn [app for_each].
    unfold bind at 1. rewrite (notify_one_run transport token text id_ w Hm).
    destruct (send_telegram_message_unhandled token id_ text w Hn)
      as (e & -> & He).
    exists e, [], (sent (telegram_request token id_ text) w).
    repeat split; exact He.
  - cbn [app for_each]. unfold bind at 1.
    rewrite (notify_one_run transport token text s w Hm).
    assert (Hs : notifier_handles
                   (transport (w_sent w) (telegram_request token s text))
                 = true) by (apply (Hpre [] s served); reflexivity).
    destruct (send_telegram_message_handled token s text w Hs)
      as (b & l & -> & Hl).
    set (w1 := logged l (sent (telegram_request token s text) w)).
    assert (Hm1 : message (w_frame w1) = Some text) by exact Hm.
    assert (Hpre1 : forall before id' after,
               served = (before ++ id' :: after)%list ->
               notifier_handles
                 (transport (notifications token text before ++ w_sent w1)%list
                    (telegram_request token id' text)) = true).
    { intros before id' after E. subst w1. cbn [w_sent logged sent].
      rewrite notifications_cons.
      apply (Hpre (s :: before) id' after). now rewrite E. }
    assert (Hn1 : notifier_handles
                    (transport (notifications token text served ++ w_sent w1)%list
                       (telegram_request token id_ text)) = false).
    { subst w1. cbn [w_sent logged sent]. now rewrite notifications_cons. }
    destruct (IH w1 Hm1 Hpre1 Hn1)
      as (e & records & w' & -> & He & Hsent & Hcl & Hfr & Hlog & Hlen & Hall).
    exists e, (records ++ [l])%list, w'.
    split; [reflexivity|]. split; [exact He|].
    split; [rewrite Hsent; subst w1; cbn [w_sent logged sent];
            now rewrite notifications_cons|].
    split; [rewrite Hcl; reflexivity|].
    split; [rewrite Hfr; reflexivity|].
    split; [rewrite Hlog; subst w1; cbn [w_log logged sent];
            now rewrite <- app_assoc|].
    split; [rewrite length_app, Hlen; cbn; lia|].
    rewrite forallb_app, Hall. cbn. now rewrite Hl.
Qed.

(** X14: when the answers to the notifications of the first recipients
    are handled and the answer to the notification of the next recipient,
    at whatever position, is not (a body that does not decode, or an
    answer that is not an object), the [finally] clause stops there: it
    raises, the recipients after this one get no request, no session is
    closed, and the log gains one record of the notifier for each
    recipient served and no completion record. *)
Theorem unhandled_notifier_answer_stops_finally (env : env_vars)
    (text id_ : string) (served others : list string) (w : world) :
  let token := ev_telegram_bot_token env in
  message (w_frame w) = Some text ->
  recipients env = (served ++ id_ :: others)%list ->
  (forall before id' after,
      served = (before ++ id' :: after)%list ->
      notifier_handles
        (transport (notifications token text before ++ w_sent w)%list
           (telegram_request token id' text)) = true) ->
  notifier_handles
    (transport (notifications token text served ++ w_sent w)%list
       (telegram_request token id_ text)) = false ->
  let out := main_finally transport env w in
  (exists e, fst out = Raise e /\ is_Exception e = true) /\
  w_sent (snd out) =
    (telegram_request token id_ text ::
     notifications token text served ++ w_sent w)%list /\
  w_closed (snd out) = w_closed w /\
  exists records,
    w_log (snd out) = (records ++ w_log w)%list /\
    List.length records = List.length served /\
    forallb notifier_record records = true.
Proof.
  intros token Hm Hr Hpre Hn.
  destruct (notify_until token text id_ served others w Hm Hpre Hn)
    as (e & records & w' & Hloop & He & Hsent & Hcl & _ & Hlog & Hlen & Hall).
  assert (E : main_finally transport env w = (Raise e, w')).
  { rewrite main_finally_eq, Hr. fold token. now rewrite Hloop. }
  cbv zeta. rewrite E. cbn [fst snd].
  split; [exists e; split; [reflexivity|exact He]|].
  split; [exact Hsent|]. split; [exact Hcl|].
  exists records. split; [exact Hlog|]. split; [exact Hlen|exact Hall].
Qed.

End Texts.

(** ** Rounding and values that are not numbers *)

Section Readings.

Lemma float_den_pos (e : Z) : 0 < float_den e.
Proof. unfold float_den. apply Z.pow_pos_nonneg; lia. Qed.

(** X9: [round] of a finite float is exact on integers and sends a tie
    to the even neighbour: when the float is the integer [n] the result
    is [n], and when the result is at distance one half it is even. *)
Theorem round_exact_and_ties_to_even (s : bool) (m : positive) (e z : Z) :
  Py.round (JFloat (S754_finite s m e)) = Ok z ->
  (forall n, float_num s m e = n * float_den e -> z = n) /\
  (2 * Z.abs (z * float_den e - float_num s m e) = float_den e ->
   Z.even z = true).
Proof.
  intros H. split.
  - intros n Hn.
    destruct (round_number (JFloat (S754_finite s m e)) eq_refl)
      as (z' & Hz & Near).
    rewrite H in Hz. injection Hz as <-. cbn [nearest_integer] in Near.
    rewrite Hn in Near. pose proof (float_den_pos e) as Hd.
    replace (z * float_den e - n * float_den e)
      with ((z - n) * float_den e) in Near by ring.
    rewrite Z.abs_mul, (Z.abs_eq (float_den e)) in Near by lia.
    destruct (Z.eq_dec z n) as [E|E]; [exact E|].
    assert (1 <= Z.abs (z - n)) by lia. nia.
  - cbn [Py.round] in H. injection H as <-.
    assert (Hsign : forall z0,
               Z.abs ((if s then - z0 else z0) * float_den e - float_num s m e)
               = Z.abs (z0 * float_den e - Z.pos m * 2 ^ Z.max 0 e)).
    { intros z0. unfold float_num. destruct s.
      - replace (- z0 * float_den e - -1 * Z.pos m * 2 ^ Z.max 0 e)
          with (- (z0 * float_den e - Z.pos m * 2 ^ Z.max 0 e)) by ring.
        apply Z.abs_opp.
      - now rewrite Z.mul_1_l. }
    rewrite Hsign.
    assert (Heven : Z.even (if s then - Py.round_half_even m e
                            else Py.round_half_even m e)
                    = Z.even (Py.round_half_even m e)).
    { destruct s; [apply Z.even_opp|reflexivity]. }
    rewrite Heven. clear Hsign Heven.
    unfold Py.round_half_even, float_den.
    destruct (0 <=? e) eqn:E.
    + apply Z.leb_le in E.
      rewrite (Z.max_l 0 (- e)) by lia. rewrite (Z.max_r 0 e) by lia.
      change (2 ^ 0) with 1. lia.
    + apply Z.leb_gt in E.
      rewrite (Z.max_r 0 (- e)) by lia. rewrite (Z.max_l 0 e) by lia.
      change (2 ^ 0) with 1. rewrite Z.mul_1_r.
      set (d := 2 ^ (- e)).
      assert (Hd : 0 < d) by (apply Z.pow_pos_nonneg; lia).
      pose proof (Z.div_mod (Z.pos m) d ltac:(lia)) as Hdm.
      pose proof (Z.mod_pos_bound (Z.pos m) d Hd) as Hr.
      set (q := Z.pos m / d) in *. set (r := Z.pos m mod d) in *.
      assert (Down : q * d - Z.pos m = - r) by lia.
      assert (Up : (q + 1) * d - Z.pos m = d - r) by lia.
      destruct (Z.compare_spec (2 * r) d) as [C|C|C].
      * intros _. destruct (Z.even q) eqn:Q; [exact Q|].
        rewrite Z.even_add, Q. reflexivity.
      * rewrite Down, Z.abs_opp, Z.abs_eq by lia. lia.
      * rewrite Up, Z.abs_eq by lia. lia.
Qed.

Lemma round_raises (v : json) (e : exn) :
  Py.round v = Raise e -> rounding_error e /\ is_Exception e = true.
Proof.
  unfold rounding_error.
  destruct v as [| | |[s|s| |s m x]| | |]; cbn; intros H; inversion H;
    (split; [eexists; eauto|reflexivity]).
Qed.

Lemma round_all_raises (pre post : list json) (v : json) (e : exn) :
  forallb is_number pre = true ->
  Py.round v = Raise e ->
  round_all (pre ++ v :: post) = Raise e.
Proof.
  intros Hp Hv. induction pre as [|x pre IH].
  - cbn. now rewrite Hv.
  - cbn [forallb] in Hp. apply andb_prop in Hp. destruct Hp as [Hx Hp].
    destruct (round_number x Hx) as (z & Hz & _).
    cbn [app round_all]. rewrite Hz. cbn [res_bind].
    now rewrite (IH Hp).
Qed.

(** X8: a value of the first electricity meter that [round] does not
    take (a string, a null, a list, an object, NaN or an infinity) makes
    [get_electricity_vals] raise the error of [round], a [TypeError],
    [ValueError] or [OverflowError]; no partial list is returned. *)
Theorem get_electricity_vals_bad_value (data meter v : json)
    (pre post : list json) (e : exn) :
  valid_snapshot data = true ->
  find is_electricity (all_meters data) = Some meter ->
  vals_of meter = JList (pre ++ v :: post) ->
  forallb is_number pre = true ->
  Py.round v = Raise e ->
  get_electricity_vals data = Raise e /\
  rounding_error e /\ is_Exception e = true.
Proof.
  intros Hv Hf Hm Hp Hr.
  rewrite (get_electricity_vals_find data Hv), Hf, Hm.
  cbn [Py.iterate res_bind].
  split; [now apply round_all_raises|exact (round_raises v e Hr)].
Qed.

End Readings.

(** ** Payloads of the submissions *)

Section Payloads.

Variable transport : list request -> request -> http_outcome.
Variable py_repr : json -> string.

Lemma setitem_same_value (k : string) (v : json) (d : pydict) :
  Py.lookup k d = Some v -> Py.setitem k v d = d.
Proof.
  induction d as [|[k' v'] d IH]; cbn; [discriminate|].
  destruct (String.eqb k' k); intros H.
  - now injection H as ->.
  - now rewrite (IH H).
Qed.

(** The update of a submission does nothing the second time. *)
Lemma update_submitted_fields_twice query_type provider_id t1 t2 base :
  Py.update (submitted_fields query_type provider_id t1 t2)
    (Py.update (submitted_fields query_type provider_id t1 t2) base)
  = Py.update (submitted_fields query_type provider_id t1 t2) base.
Proof.
  destruct (lookup_submitted_fields query_type provider_id t1 t2 base)
    as (H1 & H2 & H3 & H4).
  set (d := Py.update (submitted_fields query_type provider_id t1 t2) base)
    in *.
  unfold submitted_fields, Py.update at 1.
  destruct (String.eqb query_type "CalcCharge") eqn:E;
    cbn [fold_left fst snd].
  - apply String.eqb_eq in E.
    rewrite (setitem_same_value _ _ _ (H4 E)).
    now rewrite (setitem_same_value _ _ _ H1), (setitem_same_value _ _ _ H2),
      (setitem_same_value _ _ _ H3).
  - now rewrite (setitem_same_value _ _ _ H1), (setitem_same_value _ _ _ H2),
      (setitem_same_value _ _ _ H3).
Qed.

(** X10: a second call of [send_mosenergo_data] with the same arguments
    on the same dictionary issues the same request again and leaves the
    dictionary as the first call left it. *)
Theorem send_mosenergo_data_again lk_url session_id session headers
    provider_id t1 t2 rest query_type payload_base (w : world) :
  let call :=
    send_mosenergo_data transport py_repr lk_url session_id session headers
      provider_id (t1 :: t2 :: rest) query_type payload_base in
  let req :=
    submission_request py_repr lk_url session_id session headers provider_id
      t1 t2 query_type (w_heap w payload_base) in
  let w1 := snd (call w) in
  let w2 := snd (call w1) in
  w_sent w2 = req :: req :: w_sent w /\
  w_heap w2 payload_base = w_heap w1 payload_base /\
  req_data req = Some (w_heap w1 payload_base).
Proof.
  cbv zeta.
  destruct (send_mosenergo_data_run transport py_repr lk_url session_id
              session headers provider_id t1 t2 rest query_type payload_base w)
    as (_ & S1 & H1 & _).
  set (w1 := snd (send_mosenergo_data transport py_repr lk_url session_id
                    session headers provider_id (t1 :: t2 :: rest) query_type
                    payload_base w)) in *.
  destruct (send_mosenergo_data_run transport py_repr lk_url session_id
              session headers provider_id t1 t2 rest query_type payload_base
              w1)
    as (_ & S2 & H2 & _).
  assert (B : w_heap w1 payload_base =
              Py.update (submitted_fields query_type provider_id t1 t2)
                (w_heap w payload_base)).
  { rewrite H1. now rewrite Nat.eqb_refl. }
  rewrite S2, S1, H2, Nat.eqb_refl, B.
  rewrite update_submitted_fields_twice.
  unfold submission_request. rewrite update_submitted_fields_twice.
  repeat split.
Qed.

End Payloads.

(** ** Runs that reach the notifications *)

Section Outcomes.

Variable transport : list request -> request -> http_outcome.
Variable py_repr : json -> string.
Variable environ : string -> option string.
Variable now : string.
Variable basic_config : string -> option string.

Lemma main_classify_sends_nothing (w : world) :
  let w' := snd (main_classify py_repr w) in
  w_sent w' = w_sent w /\ w_closed w' = w_closed w /\
  w_sessions w' = w_sessions w /\ session (w_frame w') = session (w_frame w).
Proof.
  unfold main_classify, bind, get_frame, lift, set_frame.
  destruct (both_succeeded _ _) as [[|]|e]; cbn;
    try solve [repeat split].
  destruct (nm_result (calc_response (w_frame w))) as [c|e]; cbn;
    try solve [repeat split].
  destruct (as_replaceable c) as [t|e]; cbn; try solve [repeat split].
  destruct (nm_result (save_response (w_frame w))) as [sr|e]; cbn;
    repeat split.
Qed.

(** X11: with two values in hand and both requests answered or failed
    by the transport, [main] issues the CalcCharge request and then the
    SaveIndications request, each with its own dictionary: the first
    carries the phone, the bytProxy plugin, the flat-meter flag, the
    proxy query, the provider and the two values; the second carries the
    propagateMesInd plugin, the flag, the provider and the two values,
    and neither the phone nor the proxy query. *)
Theorem main_submit_requests env p t1 t2 rest (w : world) :
  let lk_url := ev_mosenergo_lk_url env in
  let oc := transport (w_sent w) (calc_request py_repr env p t1 t2) in
  let os := transport (calc_request py_repr env p t1 t2 :: w_sent w)
              (save_request py_repr env p t1 t2) in
  p_electricity_values p = t1 :: t2 :: rest ->
  answered_or_failed oc = true ->
  answered_or_failed os = true ->
  w_sent (snd (main_submit transport py_repr env p w)) =
    mkRequest POST
      (lk_url ++ "?action=sql&query=SaveIndications&session=" ++
       py_str py_repr (p_session_id p))
      (Some main_headers)
      (Some [("plugin", JStr "propagateMesInd"); ("pr_flat_meter", JInt 0);
             ("vl_provider", p_provider_id p); ("vl_t1", JInt t1);
             ("vl_t2", JInt t2)])
      (Some (p_session p)) ::
    mkRequest POST
      (lk_url ++ "?action=sql&query=bytProxy&session=" ++
       py_str py_repr (p_session_id p))
      (Some main_headers)
      (Some [("nn_phone", JStr "+7 (499) 550-9-550");
             ("plugin", JStr "bytProxy"); ("pr_flat_meter", JInt 0);
             ("proxyquery", JStr "CalcCharge");
             ("vl_provider", p_provider_id p); ("vl_t1", JInt t1);
             ("vl_t2", JInt t2)])
      (Some (p_session p)) ::
    w_sent w.
Proof.
  intros lk_url oc os Hv Hoc Hos.
  destruct (main_submit_run transport py_repr env p t1 t2 rest w Hv Hoc Hos)
    as (w6 & -> & Hs & _).
  destruct (main_classify_sends_nothing w6) as (-> & _).
  rewrite Hs. reflexivity.
Qed.

(** X17: when the set-up of a run returns, at least two values are in
    hand, the one billing session of the run has been created, is bound
    to [session] and is open, no message is bound yet, and the requests
    issued so far are the Saures login, the meter fetch, the
    Mosenergosbyt login and the provider look-up, in this order. *)
Theorem setup_of_a_run (p : prepared) (w4 : world) :
  let env := the_env environ in
  main_prepare transport py_repr env now (start_world now) = (Ok p, w4) ->
  (2 <= List.length (p_electricity_values p))%nat /\
  p_session p = 0%nat /\ w_sessions w4 = 1%nat /\
  session (w_frame w4) = Some 0%nat /\ w_closed w4 = [] /\
  message (w_frame w4) = None /\
  exists sid,
    rev (w_sent w4) =
      [saures_login_request (ev_saures_api_url env) (ev_login env)
         (ev_saures_pass env);
       meters_request py_repr (ev_saures_api_url env) sid (ev_meter_id env)
         now;
       mosenergo_login_request (ev_mosenergo_lk_url env) (ev_login env)
         (ev_mosenergo_pass env) 0;
       provider_request py_repr (ev_mosenergo_lk_url env) (p_session_id p) 0
         main_headers].
Proof.
  intros env H.
  destruct (main_prepare_returns transport py_repr env now _ _ _ H)
    as (H1 & H2 & H3 & H4 & H5 & H6 & sid & H7).
  cbn in H2, H3, H5, H6, H7. rewrite H2 in H4, H7.
  repeat (split; [assumption|]).
  exists sid. rewrite H7. reflexivity.
Qed.

(** X12: a run whose configuration is complete, whose log file was
    opened, whose set-up returns and whose two submissions are
    answered by objects with a true success indicator and a readable
    result message succeeds: with a notifier that is answered by objects
    or transport errors, [main] returns, the process exits with status 0,
    every recipient is sent the success message once, in order, after
    the two submissions, the session is closed exactly once, and the
    last log record reports 'Success'. *)
Theorem successful_run (p : prepared) (w4 : world) (t1 t2 : Z)
    (rest : list Z) (calc save save_result : json) (calc_text : string) :
  let env := the_env environ in
  let calc_req := calc_request py_repr env p t1 t2 in
  let save_req := save_request py_repr env p t1 t2 in
  let text :=
    success_header ++ clean_markup calc_text ++ nl ++
    py_str py_repr save_result in
  config_complete environ = true ->
  basic_config (ev_log_file env) = None ->
  main_prepare transport py_repr env now (start_world now) = (Ok p, w4) ->
  p_electricity_values p = t1 :: t2 :: rest ->
  transport (w_sent w4) calc_req = HttpJson calc ->
  transport (calc_req :: w_sent w4) save_req = HttpJson save ->
  indicator (Some calc) = true ->
  indicator (Some save) = true ->
  nm_result (Some calc) = Ok (JStr calc_text) ->
  nm_result (Some save) = Ok save_result ->
  (forall h id_,
      notifier_handles
        (transport h (telegram_request (ev_telegram_bot_token env) id_ text))
      = true) ->
  let out := main transport py_repr environ now basic_config initial_world in
  fst out = Ok tt /\
  fst (run_script transport py_repr environ now basic_config) = 0 /\
  success (w_frame (snd out)) = true /\
  message (w_frame (snd out)) = Some text /\
  w_sent (snd out) =
    (notifications (ev_telegram_bot_token env) text (recipients env) ++
     save_req :: calc_req :: w_sent w4)%list /\
  w_closed (snd out) = [p_session p] /\
  hd_error (w_log (snd out)) =
    Some (INFO, "Script completed with status: %s", [JStr "Success"]).
Proof.
  intros env calc_req save_req text Hc Hopen Hp Hv Hoc Hos Ic Is Nc Ns Hn out.
  destruct (main_prepare_returns transport py_repr env now _ _ _ Hp)
    as (_ & _ & _ & Hsess & _ & Hclosed & _).
  assert (Aoc : answered_or_failed
                  (transport (w_sent w4) (calc_request py_repr env p t1 t2))
                = true) by (fold calc_req; now rewrite Hoc).
  assert (Aos : answered_or_failed
                  (transport (calc_request py_repr env p t1 t2 :: w_sent w4)
                     (save_request py_repr env p t1 t2)) = true)
    by (fold calc_req save_req; now rewrite Hos).
  destruct (main_submit_run transport py_repr env p t1 t2 rest w4 Hv Aoc Aos)
    as (w5 & Hsub & Hsent & Hframe & Hcl & Hss).
  fold calc_req save_req in Hsent, Hframe. rewrite Hoc, Hos in Hframe.
  cbn [result_of] in Hframe.
  assert (Hb : both_succeeded (calc_response (w_frame w5))
                 (save_response (w_frame w5)) = Ok true).
  { rewrite Hframe. cbn. now apply both_succeeded_true_iff. }
  assert (Hnc : nm_result (calc_response (w_frame w5)) = Ok (JStr calc_text))
    by (rewrite Hframe; exact Nc).
  assert (Hns : nm_result (save_response (w_frame w5)) = Ok save_result)
    by (rewrite Hframe; exact Ns).
  pose proof (classify_yes py_repr w5 calc_text save_result Hb Hnc Hns) as Hcl6.
  fold text in Hcl6.
  set (w6 := with_frame w5 (set_message text (set_success true (w_frame w5))))
    in Hcl6.
  assert (Ht : main_try transport py_repr env now (start_world now)
               = (Ok tt, w6)).
  { unfold main_try, bind. rewrite Hp, Hsub. exact Hcl6. }
  subst out.
  destruct (run_script_status transport py_repr environ now basic_config)
    as [-> _].
  rewrite (main_completed transport py_repr environ now basic_config _
             Hc Hopen Ht).
  fold env.
  destruct (main_finally_bound transport env text w6 eq_refl)
    as (done & others & Hids & _ & Hs & Hfr & _ & Hok & _ & Hall).
  specialize (Hall Hn). destruct (Hok Hall) as (-> & Hclose & Hlog).
  rewrite app_nil_r in Hids. subst done.
  rewrite Hall, Hfr, Hs, Hclose, Hlog.
  split; [reflexivity|]. split; [reflexivity|]. split; [reflexivity|].
  split; [reflexivity|].
  split; [subst w6; cbn; now rewrite Hsent|].
  split; [|reflexivity].
  unfold closed_after. subst w6. cbn. rewrite Hframe. cbn.
  now rewrite Hsess, Hcl, Hclosed.
Qed.

(** X13: in a run whose configuration is complete and whose log file was
    opened, when the [try] body raises an [Exception] and the notifier is
    answered by objects or transport errors, [main] returns: every
    recipient is sent the one text of the unexpected failure, in order,
    the session is closed once if it was bound and nothing is closed
    otherwise, and the last log record reports 'Failure'. *)
Theorem caught_exception_is_reported (e : exn) (w1 : world) :
  let env := the_env environ in
  let text := unexpected_text e in
  config_complete environ = true ->
  basic_config (ev_log_file env) = None ->
  main_try transport py_repr env now (start_world now) = (Raise e, w1) ->
  is_Exception e = true ->
  (forall h id_,
      notifier_handles
        (transport h (telegram_request (ev_telegram_bot_token env) id_ text))
      = true) ->
  let out := main transport py_repr environ now basic_config initial_world in
  fst out = Ok tt /\
  w_sent (snd out) =
    (notifications (ev_telegram_bot_token env) text (recipients env) ++
     w_sent w1)%list /\
  w_closed (snd out) =
    match session (w_frame w1) with Some s => [s] | None => [] end /\
  hd_error (w_log (snd out)) =
    Some (INFO, "Script completed with status: %s", [JStr "Failure"]).
Proof.
  intros env text Hc Hopen Ht He Hn out. subst out.
  rewrite (main_caught transport py_repr environ now basic_config _ _
             Hc Hopen Ht He).
  fold env.
  destruct (main_try_quiet transport py_repr now env _ _ _ Ht) as [_ Hq].
  destruct (main_finally_bound transport env text (handled e w1) eq_refl)
    as (done & others & Hids & _ & Hs & _ & _ & Hok & _ & Hall).
  specialize (Hall Hn). destruct (Hok Hall) as (-> & Hclose & Hlog).
  rewrite app_nil_r in Hids. subst done.
  rewrite Hall, Hs, Hclose, Hlog.
  split; [reflexivity|]. split; [reflexivity|]. split; [|reflexivity].
  unfold closed_after. cbn. rewrite Hq. reflexivity.
Qed.

(** X18: in a run whose configuration is complete and whose log file was
    opened, when the [try] body ends, by any exception, before [session]
    is bound, no session is closed by the run, even one that
    [authenticate_mosenergo] had created before it failed: the clean-up
    only knows the session through the local name. *)
Theorem unbound_session_is_never_closed (e : exn) (w1 : world) :
  let env := the_env environ in
  config_complete environ = true ->
  basic_config (ev_log_file env) = None ->
  main_try transport py_repr env now (start_world now) = (Raise e, w1) ->
  session (w_frame w1) = None ->
  let out := main transport py_repr environ now basic_config initial_world in
  w_closed (snd out) = [] /\
  w_sessions (snd out) = w_sessions w1.
Proof.
  intros env Hc Hlog Ht Hs out. subst out.
  destruct (main_try_quiet transport py_repr now env _ _ _ Ht) as [_ Hq].
  cbn in Hq.
  destruct (is_Exception e) eqn:He.
  - rewrite (main_caught transport py_repr environ now basic_config _ _
               Hc Hlog Ht He).
    fold env.
    destruct (main_finally_bound transport env (unexpected_text e)
                (handled e w1) eq_refl)
      as (done & others & _ & _ & _ & _ & Hss & Hok & Hnok & _).
    split; [|exact Hss].
    destruct (res_eq_dec_unit
                (fst (main_finally transport env (handled e w1)))) as [E|E].
    + destruct (Hok E) as (_ & -> & _). unfold closed_after. cbn.
      now rewrite Hs.
    + now rewrite (Hnok E).
  - rewrite (main_fatal transport py_repr environ now basic_config _ _
               Hc Hlog Ht He).
    split; [exact Hq|reflexivity].
Qed.

End Outcomes.

(** ** Fatal exits and the results of a submission *)

Section Exits.

Variable transport : list request -> request -> http_outcome.
Variable py_repr : json -> string.
Variable environ : string -> option string.
Variable now : string.
Variable basic_config : string -> option string.

(** X19: in a run whose configuration is complete and whose log file was
    opened, whenever the [try] body raises a [SystemExit], whatever helper
    raised it and whatever its code, the run ends in the state of the
    raise: [main] raises the [UnboundLocalError] of [message], no request
    and no log record is added, nothing is closed, and the process exits
    with status 1. *)
Theorem system_exit_in_try_body (code : Z) (w1 : world) :
  config_complete environ = true ->
  basic_config (ev_log_file (the_env environ)) = None ->
  main_try transport py_repr (the_env environ) now (start_world now)
  = (Raise (SystemExit code), w1) ->
  let out := main transport py_repr environ now basic_config initial_world in
  fst out = Raise (unbound_local "message") /\
  fst (run_script transport py_repr environ now basic_config) = 1 /\
  w_sent (snd out) = w_sent w1 /\
  w_log (snd out) = w_log w1 /\
  w_closed (snd out) = [] /\
  message (w_frame (snd out)) = None.
Proof.
  intros Hc Hlog Ht. cbv zeta.
  destruct (run_script_status transport py_repr environ now basic_config)
    as [-> _].
  rewrite (main_fatal transport py_repr environ now basic_config _ _
             Hc Hlog Ht eq_refl).
  destruct (main_try_quiet transport py_repr now _ _ _ _ Ht) as [Hm Hq].
  cbn [fst snd]. rewrite Hm, Hq. repeat split.
Qed.

(** X22: with every mandatory variable set, when [logging.basicConfig]
    cannot open the log file, [main] ends with its [OSError] before the
    [try] statement is entered: the run leaves the initial state, with no
    request issued, no session created and no message bound, and the
    process exits with status 1. *)
Theorem unopened_log_file_ends_the_run (msg : string) :
  config_complete environ = true ->
  basic_config (ev_log_file (the_env environ)) = Some msg ->
  let out := main transport py_repr environ now basic_config initial_world in
  fst out = Raise (PyExc OSError msg) /\
  fst (run_script transport py_repr environ now basic_config) = 1 /\
  snd out = initial_world /\
  w_sent (snd out) = [] /\
  w_sessions (snd out) = 0%nat /\
  message (w_frame (snd out)) = None.
Proof.
  intros Hc Hl. cbv zeta.
  destruct (run_script_status transport py_repr environ now basic_config)
    as [-> _].
  rewrite (main_unlogged transport py_repr environ now basic_config msg
             Hc Hl).
  repeat split.
Qed.

(** X20: [send_mosenergo_data] never raises [SystemExit] or a
    [RequestException].  With two values in hand it issues its request
    and returns the decoded answer, whatever its success flag, returns
    [None] on a transport error, and lets through only the [ValueError]
    of a body that does not decode; with fewer than two values it raises
    [IndexError] before any request and before touching the dictionary. *)
Theorem send_mosenergo_data_outcomes lk_url session_id session headers
    provider_id electricity_values query_type payload_base (w : world) :
  let out := send_mosenergo_data transport py_repr lk_url session_id session
               headers provider_id electricity_values query_type payload_base
               w in
  (forall code, fst out <> Raise (SystemExit code)) /\
  (forall msg rt, fst out <> Raise (RequestException msg rt)) /\
  (forall t1 t2 rest,
      electricity_values = t1 :: t2 :: rest ->
      let req := submission_request py_repr lk_url session_id session headers
                   provider_id t1 t2 query_type (w_heap w payload_base) in
      w_sent (snd out) = req :: w_sent w /\
      (forall result, transport (w_sent w) req = HttpJson result ->
                      fst out = Ok (Some result)) /\
      (forall msg rt, transport (w_sent w) req = HttpFail msg rt ->
                      fst out = Ok None) /\
      (forall msg, transport (w_sent w) req = HttpNotJson msg ->
                   fst out = Raise (PyExc ValueError msg))) /\
  ((List.length electricity_values < 2)%nat ->
   fst out = Raise (PyExc IndexError "list index out of range") /\
   w_sent (snd out) = w_sent w /\
   w_heap (snd out) payload_base = w_heap w payload_base).
Proof.
  cbv zeta.
  destruct electricity_values as [|t1 [|t2 rest]].
  - unfold send_mosenergo_data.
    destruct (String.eqb query_type "CalcCharge"); cbn;
      (split; [discriminate|]; split; [discriminate|];
       split; [intros; discriminate|]; intros _; repeat split).
  - unfold send_mosenergo_data.
    destruct (String.eqb query_type "CalcCharge"); cbn;
      (split; [discriminate|]; split; [discriminate|];
       split; [intros; discriminate|]; intros _; repeat split).
  - destruct (send_mosenergo_data_run transport py_repr lk_url session_id
                session headers provider_id t1 t2 rest query_type
                payload_base w) as (R & S & _).
    rewrite R, S.
    split; [|split; [|split]].
    + intros code. destruct (transport _ _); discriminate.
    + intros msg rt. destruct (transport _ _); discriminate.
    + intros a b c E. injection E as <- <- <-.
      split; [reflexivity|].
      split; [|split]; intros; match goal with H : _ = _ |- _ => rewrite H end;
        reflexivity.
    + cbn. lia.
Qed.

End Exits.

(** ** The further properties at sample inputs *)

Lemma missing_configuration_notifies_nobody_witness :
  config_complete (fun _ => None) = false /\
  w_sent (snd (main (scripted [] telegram_ok) sample_repr (fun _ => None)
                 sample_now sample_basic_config initial_world)) = [] /\
  fst (run_script (scripted [] telegram_ok) sample_repr (fun _ => None)
         sample_now sample_basic_config) = 1.
Proof.
  assert (H : config_complete (fun _ => None) = false) by reflexivity.
  split; [exact H|].
  pose proof (missing_configuration_notifies_nobody
                (scripted [] telegram_ok) sample_repr (fun _ => None)
                sample_now sample_basic_config H) as T.
  cbv zeta in T. destruct T as (_ & T1 & T2 & _).
  split; [exact T2|exact T1].
Defined.

Lemma get_electricity_vals_bad_value_witness :
  let data := snapshot_with [reading_123_5; JStr "n/a"; reading_2_5] in
  let meter :=
    JDict [("type", JDict [("name", JStr electricity_label)]);
           ("vals", JList [reading_123_5; JStr "n/a"; reading_2_5])] in
  let e := PyExc TypeError "type str doesn't define __round__ method" in
  valid_snapshot data = true /\
  find is_electricity (all_meters data) = Some meter /\
  vals_of meter = JList ([reading_123_5] ++ JStr "n/a" :: [reading_2_5]) /\
  forallb is_number [reading_123_5] = true /\
  Py.round (JStr "n/a") = Raise e /\
  get_electricity_vals data = Raise e.
Proof.
  intros data meter e.
  assert (H1 : valid_snapshot data = true) by reflexivity.
  assert (H2 : find is_electricity (all_meters data) = Some meter)
    by reflexivity.
  assert (H3 : vals_of meter =
               JList ([reading_123_5] ++ JStr "n/a" :: [reading_2_5]))
    by reflexivity.
  assert (H4 : forallb is_number [reading_123_5] = true) by reflexivity.
  assert (H5 : Py.round (JStr "n/a") = Raise e) by reflexivity.
  split; [exact H1|]. split; [exact H2|]. split; [exact H3|].
  split; [exact H4|]. split; [exact H5|].
  exact (proj1 (get_electricity_vals_bad_value data meter (JStr "n/a")
                  [reading_123_5] [reading_2_5] e H1 H2 H3 H4 H5)).
Defined.

Lemma round_exact_and_ties_to_even_witness :
  Py.round reading_2_5 = Ok 2 /\
  2 * Z.abs (2 * float_den (-1) - float_num false 5 (-1)) = float_den (-1) /\
  Z.even 2 = true.
Proof.
  assert (H : Py.round reading_2_5 = Ok 2) by reflexivity.
  assert (T : 2 * Z.abs (2 * float_den (-1) - float_num false 5 (-1))
              = float_den (-1)) by reflexivity.
  split; [exact H|]. split; [exact T|].
  exact (proj2 (round_exact_and_ties_to_even false 5 (-1) 2 H) T).
Defined.

Lemma main_submit_requests_witness :
  let transport := scripted [] telegram_ok in
  let env := the_env sample_environ in
  let oc := transport (w_sent initial_world)
              (calc_request sample_repr env sample_prepared 124 568) in
  let os := transport
              (calc_request sample_repr env sample_prepared 124 568 ::
               w_sent initial_world)
              (save_request sample_repr env sample_prepared 124 568) in
  p_electricity_values sample_prepared = [124; 568] /\
  answered_or_failed oc = true /\
  answered_or_failed os = true /\
  map req_data
    (w_sent (snd (main_submit transport sample_repr env sample_prepared
                    initial_world))) =
  [Some [("plugin", JStr "propagateMesInd"); ("pr_flat_meter", JInt 0);
         ("vl_provider", JStr "P7"); ("vl_t1", JInt 124);
         ("vl_t2", JInt 568)];
   Some [("nn_phone", JStr "+7 (499) 550-9-550"); ("plugin", JStr "bytProxy");
         ("pr_flat_meter", JInt 0); ("proxyquery", JStr "CalcCharge");
         ("vl_provider", JStr "P7"); ("vl_t1", JInt 124);
         ("vl_t2", JInt 568)]].
Proof.
  intros transport env oc os.
  assert (H1 : p_electricity_values sample_prepared = [124; 568])
    by reflexivity.
  assert (H2 : answered_or_failed oc = true) by reflexivity.
  assert (H3 : answered_or_failed os = true) by reflexivity.
  split; [exact H1|]. split; [exact H2|]. split; [exact H3|].
  pose proof (main_submit_requests transport sample_repr env sample_prepared
                124 568 [] initial_world H1 H2 H3) as T.
  cbv zeta in T. rewrite T. reflexivity.
Defined.

Lemma setup_of_a_run_witness :
  let transport := scripted setup_answers telegram_ok in
  let prepared_run :=
    main_prepare transport sample_repr (the_env sample_environ) sample_now
      (start_world sample_now) in
  prepared_run = (Ok sample_prepared, snd prepared_run) /\
  w_sessions (snd prepared_run) = 1%nat /\
  session (w_frame (snd prepared_run)) = Some 0%nat /\
  w_closed (snd prepared_run) = [].
Proof.
  intros transport prepared_run.
  assert (H : prepared_run = (Ok sample_prepared, snd prepared_run))
    by (vm_compute; reflexivity).
  split; [exact H|].
  pose proof (setup_of_a_run transport sample_repr sample_environ sample_now
                sample_prepared (snd prepared_run) H) as T.
  cbv zeta in T. destruct T as (_ & _ & T1 & T2 & T3 & _).
  split; [exact T1|]. split; [exact T2|exact T3].
Defined.

Lemma successful_run_witness :
  let transport := scripted markup_answers telegram_ok in
  let env := the_env sample_environ in
  let prepared_run :=
    main_prepare transport sample_repr env sample_now
      (start_world sample_now) in
  let w4 := snd prepared_run in
  let calc_req := calc_request sample_repr env sample_prepared 124 568 in
  let save_req := save_request sample_repr env sample_prepared 124 568 in
  let calc := opt_json (answer_of (submission_ok portal_text)) in
  let save := opt_json (answer_of (submission_ok "<b>saved</b>")) in
  let out := main transport sample_repr sample_environ sample_now sample_basic_config
               initial_world in
  config_complete sample_environ = true /\
  sample_basic_config (ev_log_file (the_env sample_environ)) = None /\
  prepared_run = (Ok sample_prepared, w4) /\
  p_electricity_values sample_prepared = [124; 568] /\
  transport (w_sent w4) calc_req = HttpJson calc /\
  transport (calc_req :: w_sent w4) save_req = HttpJson save /\
  indicator (Some calc) = true /\
  indicator (Some save) = true /\
  nm_result (Some calc) = Ok (JStr portal_text) /\
  nm_result (Some save) = Ok (JStr "<b>saved</b>") /\
  fst out = Ok tt /\
  success (w_frame (snd out)) = true /\
  w_closed (snd out) = [0%nat].
Proof.
  intros transport env prepared_run w4 calc_req save_req calc save out.
  assert (H1 : config_complete sample_environ = true) by reflexivity.
  assert (H2 : prepared_run = (Ok sample_prepared, w4))
    by (vm_compute; reflexivity).
  assert (H3 : p_electricity_values sample_prepared = [124; 568])
    by reflexivity.
  assert (H4 : transport (w_sent w4) calc_req = HttpJson calc)
    by (vm_compute; reflexivity).
  assert (H5 : transport (calc_req :: w_sent w4) save_req = HttpJson save)
    by (vm_compute; reflexivity).
  assert (H6 : indicator (Some calc) = true) by reflexivity.
  assert (H7 : indicator (Some save) = true) by reflexivity.
  assert (H8 : nm_result (Some calc) = Ok (JStr portal_text)) by reflexivity.
  assert (H9 : nm_result (Some save) = Ok (JStr "<b>saved</b>"))
    by reflexivity.
  assert (L : sample_basic_config (ev_log_file (the_env sample_environ))
               = None) by reflexivity.
  split; [exact H1|]. split; [exact L|]. split; [exact H2|].
  split; [exact H3|].
  split; [exact H4|]. split; [exact H5|]. split; [exact H6|].
  split; [exact H7|]. split; [exact H8|]. split; [exact H9|].
  pose proof (successful_run transport sample_repr sample_environ sample_now
                sample_basic_config
                sample_prepared w4 124 568 [] calc save (JStr "<b>saved</b>")
                portal_text H1 L H2 H3 H4 H5 H6 H7 H8 H9
                (fun h id_ => scripted_handled markup_answers h _ eq_refl))
    as T.
  cbv zeta in T. destruct T as (T1 & _ & T2 & _ & _ & T3 & _).
  split; [exact T1|]. split; [exact T2|exact T3].
Defined.

Lemma caught_exception_is_reported_witness :
  let transport := scripted one_reading_answers telegram_ok in
  let tried :=
    main_try transport sample_repr (the_env sample_environ) sample_now
      (start_world sample_now) in
  let e := PyExc ValueError not_enough in
  let out := main transport sample_repr sample_environ sample_now sample_basic_config
               initial_world in
  config_complete sample_environ = true /\
  sample_basic_config (ev_log_file (the_env sample_environ)) = None /\
  tried = (Raise e, snd tried) /\
  is_Exception e = true /\
  fst out = Ok tt /\
  w_closed (snd out) = [] /\
  notified_texts (snd out) =
    [Some (JStr (unexpected_text e)); Some (JStr (unexpected_text e))].
Proof.
  intros transport tried e out.
  assert (H1 : config_complete sample_environ = true) by reflexivity.
  assert (H2 : tried = (Raise e, snd tried)) by (vm_compute; reflexivity).
  assert (H3 : is_Exception e = true) by reflexivity.
  assert (L : sample_basic_config (ev_log_file (the_env sample_environ))
               = None) by reflexivity.
  split; [exact H1|]. split; [exact L|]. split; [exact H2|].
  split; [exact H3|].
  pose proof (caught_exception_is_reported transport sample_repr
                sample_environ sample_now sample_basic_config e (snd tried)
                H1 L H2 H3
                (fun h id_ => scripted_handled one_reading_answers h _ eq_refl))
    as T.
  cbv zeta in T. destruct T as (T1 & T2 & T3 & _).
  split; [exact T1|]. split.
  - unfold out. rewrite T3. vm_compute. reflexivity.
  - unfold notified_texts, telegram_sends, out. rewrite T2.
    vm_compute. reflexivity.
Defined.

Lemma unhandled_notifier_answer_stops_finally_witness :
  let transport := scripted [telegram_ok; HttpJson (JList [])] telegram_ok in
  let env := the_env sample_environ in
  let token := ev_telegram_bot_token env in
  let w := reporting_world "report" in
  let out := main_finally transport env w in
  message (w_frame w) = Some "report" /\
  recipients env = (["11"] ++ "22" :: [])%list /\
  notifier_handles
    (transport (w_sent w) (telegram_request token "11" "report")) = true /\
  notifier_handles
    (transport (notifications token "report" ["11"] ++ w_sent w)%list
       (telegram_request token "22" "report")) = false /\
  w_sent (snd out) =
    [telegram_request token "22" "report";
     telegram_request token "11" "report"] /\
  w_closed (snd out) = [] /\
  w_log (snd out) =
    [(INFO, "Telegram message sent successfully to chat_id %s", [JStr "11"])].
Proof.
  intros transport env token w out.
  assert (H1 : message (w_frame w) = Some "report") by reflexivity.
  assert (H2 : recipients env = (["11"] ++ "22" :: [])%list) by reflexivity.
  assert (H3 : notifier_handles
                 (transport (w_sent w) (telegram_request token "11" "report"))
               = true) by reflexivity.
  assert (H4 : notifier_handles
                 (transport
                    (notifications token "report" ["11"] ++ w_sent w)%list
                    (telegram_request token "22" "report")) = false)
    by reflexivity.
  assert (H5 : forall before id' after,
             ["11"] = (before ++ id' :: after)%list ->
             notifier_handles
               (transport (notifications token "report" before ++ w_sent w)%list
                  (telegram_request token id' "report")) = true).
  { intros [|x [|y before]] id' after E; [|discriminate E|discriminate E].
    injection E as <- _. exact H3. }
  split; [exact H1|]. split; [exact H2|]. split; [exact H3|].
  split; [exact H4|].
  pose proof (unhandled_notifier_answer_stops_finally transport env "report"
                "22" ["11"] [] w H1 H2 H5 H4) as T.
  cbv zeta in T. destruct T as (_ & T1 & T2 & _).
  split; [exact T1|]. split; [exact T2|]. vm_compute. reflexivity.
Defined.

Lemma clean_markup_plain_text_witness :
  no_lt "Sum 10 (rub.)" = true /\
  clean_markup "Sum 10 (rub.)" = "Sum 10 (rub.)".
Proof.
  assert (H : no_lt "Sum 10 (rub.)" = true) by reflexivity.
  split; [exact H|]. exact (clean_markup_plain_text "Sum 10 (rub.)" H).
Defined.

Lemma unbound_session_is_never_closed_witness :
  let transport := scripted empty_login_answers telegram_ok in
  let tried :=
    main_try transport sample_repr (the_env sample_environ) sample_now
      (start_world sample_now) in
  let e := PyExc IndexError "list index out of range" in
  let out := main transport sample_repr sample_environ sample_now sample_basic_config
               initial_world in
  config_complete sample_environ = true /\
  sample_basic_config (ev_log_file (the_env sample_environ)) = None /\
  tried = (Raise e, snd tried) /\
  session (w_frame (snd tried)) = None /\
  w_sessions (snd tried) = 1%nat /\
  w_closed (snd out) = [] /\
  w_sessions (snd out) = 1%nat.
Proof.
  intros transport tried e out.
  assert (H1 : config_complete sample_environ = true) by reflexivity.
  assert (H2 : tried = (Raise e, snd tried)) by (vm_compute; reflexivity).
  assert (H3 : session (w_frame (snd tried)) = None)
    by (vm_compute; reflexivity).
  assert (H4 : w_sessions (snd tried) = 1%nat) by (vm_compute; reflexivity).
  assert (L : sample_basic_config (ev_log_file (the_env sample_environ))
               = None) by reflexivity.
  split; [exact H1|]. split; [exact L|]. split; [exact H2|].
  split; [exact H3|]. split; [exact H4|].
  pose proof (unbound_session_is_never_closed transport sample_repr
                sample_environ sample_now sample_basic_config e (snd tried)
                H1 L H2 H3) as T.
  cbv zeta in T. destruct T as (T1 & T2).
  split; [exact T1|]. unfold out. rewrite T2. exact H4.
Defined.

Lemma system_exit_in_try_body_witness :
  let transport := scripted refused_provider_answers telegram_ok in
  let tried :=
    main_try transport sample_repr (the_env sample_environ) sample_now
      (start_world sample_now) in
  config_complete sample_environ = true /\
  sample_basic_config (ev_log_file (the_env sample_environ)) = None /\
  tried = (Raise (SystemExit 1), snd tried) /\
  fst (run_script transport sample_repr sample_environ sample_now
         sample_basic_config) = 1 /\
  w_sent (snd (main transport sample_repr sample_environ sample_now sample_basic_config
                 initial_world)) = w_sent (snd tried).
Proof.
  intros transport tried.
  assert (H1 : config_complete sample_environ = true) by reflexivity.
  assert (H2 : tried = (Raise (SystemExit 1), snd tried))
    by (vm_compute; reflexivity).
  assert (L : sample_basic_config (ev_log_file (the_env sample_environ))
               = None) by reflexivity.
  split; [exact H1|]. split; [exact L|]. split; [exact H2|].
  pose proof (system_exit_in_try_body transport sample_repr sample_environ
                sample_now sample_basic_config 1 (snd tried) H1 L H2) as T.
  cbv zeta in T. destruct T as (_ & T1 & T2 & _).
  split; [exact T1|exact T2].
Defined.

Lemma unopened_log_file_ends_the_run_witness :
  let transport := scripted setup_answers telegram_ok in
  let denied := fun _ : string => Some "[Errno 13] Permission denied" in
  config_complete sample_environ = true /\
  denied (ev_log_file (the_env sample_environ)) =
    Some "[Errno 13] Permission denied" /\
  fst (run_script transport sample_repr sample_environ sample_now denied)
  = 1 /\
  w_sent (snd (main transport sample_repr sample_environ sample_now denied
                 initial_world)) = [].
Proof.
  intros transport denied.
  assert (H1 : config_complete sample_environ = true) by reflexivity.
  assert (H2 : denied (ev_log_file (the_env sample_environ)) =
               Some "[Errno 13] Permission denied") by reflexivity.
  split; [exact H1|]. split; [exact H2|].
  pose proof (unopened_log_file_ends_the_run transport sample_repr
                sample_environ sample_now denied
                "[Errno 13] Permission denied" H1 H2) as T.
  cbv zeta in T. destruct T as (_ & T1 & _ & T2 & _).
  split; [exact T1|exact T2].
Defined.

(** ** Answers without a result message *)

(** X21: when both answers have a true success indicator and a first
    data record that is an object without ['nm_result'], the run is a
    success and the notification carries 'No result message available'
    in the place of each missing text. *)
Theorem missing_result_message_has_a_default (py_repr : json -> string)
    (w : world) (dc ds rc rs : pydict) (okc oks : json)
    (morec mores : list json) :
  calc_response (w_frame w) = Some (JDict dc) ->
  save_response (w_frame w) = Some (JDict ds) ->
  Py.lookup "success" dc = Some okc -> Py.truthy okc = true ->
  Py.lookup "success" ds = Some oks -> Py.truthy oks = true ->
  Py.lookup "data" dc = Some (JList (JDict rc :: morec)) ->
  Py.lookup "data" ds = Some (JList (JDict rs :: mores)) ->
  Py.lookup "nm_result" rc = None ->
  Py.lookup "nm_result" rs = None ->
  let out := main_classify py_repr w in
  fst out = Ok tt /\
  success (w_frame (snd out)) = true /\
  message (w_frame (snd out)) =
    Some (success_header ++ "No result message available" ++ nl ++
          "No result message available").
Proof.
  intros Hc Hs Sc Tc Ss Ts Dc Ds Nc Ns.
  assert (Hb : both_succeeded (calc_response (w_frame w))
                 (save_response (w_frame w)) = Ok true).
  { rewrite Hc, Hs. apply both_succeeded_true_iff. cbn [indicator].
    now rewrite Sc, Ss, Tc, Ts. }
  assert (Rc : nm_result (calc_response (w_frame w)) = Ok no_result).
  { rewrite Hc. unfold nm_result. cbn [opt_json Py.getitem_str].
    rewrite Dc. cbn [res_bind Py.getitem_0]. rewrite get_object, Nc.
    reflexivity. }
  assert (Rs : nm_result (save_response (w_frame w)) = Ok no_result).
  { rewrite Hs. unfold nm_result. cbn [opt_json Py.getitem_str].
    rewrite Ds. cbn [res_bind Py.getitem_0]. rewrite get_object, Ns.
    reflexivity. }
  cbv zeta.
  rewrite (classify_yes py_repr w "No result message available" no_result
             Hb Rc Rs).
  repeat split.
Qed.

Lemma missing_result_message_has_a_default_witness :
  let bare := JDict [("success", JInt 1); ("data", JList [JDict []])] in
  let w := submitted_world (Some bare) (Some bare) in
  calc_response (w_frame w) = Some bare /\
  Py.truthy (JInt 1) = true /\
  message (w_frame (snd (main_classify sample_repr w))) =
    Some (success_header ++ "No result message available" ++ nl ++
          "No result message available").
Proof.
  intros bare w.
  assert (H1 : calc_response (w_frame w) = Some bare) by reflexivity.
  assert (H2 : Py.truthy (JInt 1) = true) by reflexivity.
  split; [exact H1|]. split; [exact H2|].
  pose proof (missing_result_message_has_a_default sample_repr w
                [("success", JInt 1); ("data", JList [JDict []])]
                [("success", JInt 1); ("data", JList [JDict []])]
                [] [] (JInt 1) (JInt 1) [] []
                H1 eq_refl eq_refl H2 eq_refl H2 eq_refl eq_refl eq_refl
                eq_refl) as T.
  cbv zeta in T. destruct T as (_ & _ & T). exact T.
Defined.
